(** * MasterCoinBot: the position-mirroring engine and its trade ledger

    A shallow embedding of the parts of the copy-trading bot that carry
    its correctness hazards, with the properties of the specification
    stated and settled against them:

    - [copy_trader.py]          (the running [CopyTrader], modules
                                 [CopyTrader] and [Registry])
    - [src/database.py]         (the [Database] class, modules [Database],
                                 [Trades] and [Notifications])
    - [src/copy_trader.py]      (the master order handlers, modules
                                 [MasterOrders] and [MasterEvents])
    - [binance_ws_client.py]    (the exchange client, modules
                                 [BinanceWebsocketClient] and [Stream])
    - [src/binance_client.py]   (the order quantity, module [BinanceClient])

    Conventions.  Python floats and SQLite REAL values are read as exact
    rationals ([Q]); float round-off is outside the model and equalities
    between computed amounts are stated with [==].  SQL NULL and Python
    [None] are [None].  Text is kept as [string], as the code compares and
    stores plain strings ("OPEN", "LONG", "BUY").  CURRENT_TIMESTAMP and
    [datetime.now()] are the time [now] that a function is given.  For
    the [Database] class the SQLite file is taken to be reachable, with
    the tables that [Database.init_db] creates.  The two statements of
    the running [CopyTrader] may raise, as they do against the [trades]
    table that [telegram_copy_bot.init_db] creates: what the file
    answers is a parameter ([CopyTrader.store]), as are the answers of
    the exchange. *)

From Stdlib Require Import ZArith QArith Qabs Qround List String Ascii Bool.
From Stdlib Require Import DecimalString Permutation Sorted Lia Lqa.
Import ListNotations.

Local Open Scope string_scope.
Local Open Scope list_scope.
Local Open Scope Q_scope.

(** ** Python values and control *)

Module Py.

(** Exceptions the modelled code can meet. *)
Inductive exn : Type :=
| KeyError (key : string)
| TypeError
| ZeroDivisionError
| GatewayError.

(** How a call ends: with a value, with an exception, or never (a
    coroutine left waiting on an [asyncio.Lock] that nobody releases). *)
Inductive outcome (A : Type) : Type :=
| Returned (a : A)
| Raised (e : exn)
| Blocked.
Arguments Returned {A} a.
Arguments Raised {A} e.
Arguments Blocked {A}.

Definition bind {A B : Type} (m : outcome A) (k : A -> outcome B)
  : outcome B :=
  match m with
  | Returned a => k a
  | Raised e => Raised e
  | Blocked => Blocked
  end.

Notation "x <- m ;; k" := (bind m (fun x => k))
  (at level 61, m at next level, right associativity).

(** [a > b] and [a == b] on floats. *)
Definition gt (a b : Q) : bool := negb (Qle_bool a b).
Definition feq (a b : Q) : bool := Qeq_bool a b.

(** [a / b] on floats. *)
Definition truediv (a b : Q) : outcome Q :=
  if feq b 0 then Raised ZeroDivisionError else Returned (a / b).

(** Nearest integer, ties to the even neighbour. *)
Definition round_half_even (x : Q) : Z :=
  let f := Qfloor x in
  match Qcompare (x - inject_Z f) (1 # 2) with
  | Lt => f
  | Gt => (f + 1)%Z
  | Eq => if Z.even f then f else (f + 1)%Z
  end.

Definition pow10 (ndigits : nat) : Q := inject_Z (10 ^ Z.of_nat ndigits).

(** [round(x, ndigits)]. *)
Definition round (x : Q) (ndigits : nat) : Q :=
  inject_Z (round_half_even (x * pow10 ndigits)) / pow10 ndigits.

(** [x or 0] on the value of a REAL column: [None] and zero give 0. *)
Definition or_zero (x : option Q) : Q :=
  match x with
  | Some v => if feq v 0 then 0 else v
  | None => 0
  end.

(** [except Exception as e: logger.error(...)]: the exception is
    logged and the enclosing function goes on. *)
Definition logged {S : Type} (r : S * outcome unit) : S * outcome unit :=
  match r with
  | (st, Raised _) => (st, Returned tt)
  | _ => r
  end.

(** A [for] loop over a state whose body may raise: the first
    exception ends it. *)
Fixpoint for_each {S A : Type} (body : A -> S -> S * outcome unit)
         (xs : list A) (st : S) : S * outcome unit :=
  match xs with
  | [] => (st, Returned tt)
  | x :: xs' =>
      match body x st with
      | (st', Returned _) => for_each body xs' st'
      | stop => stop
      end
  end.

End Py.
Import Py.

(** ** The ledger tables

    Tables [trades] and [master_trades] as [Database.init_db] declares
    them.  Every column but the AUTOINCREMENT key is nullable. *)

Module Ledger.

Definition timestamp := Z.

(** Columns of [trades] after [id]. *)
Record trade_columns : Type := {
  telegram_id : option Z;
  symbol : option string;
  order_id : option string;
  position_side : option string;
  entry_price : option Q;
  size : option Q;
  leverage : option Z;
  take_profit : option Q;
  stop_loss : option Q;
  status : option string;
  pnl : option Q;
  pnl_percent : option Q;
  created_at : option timestamp;
  closed_at : option timestamp;
  master_trade_id : option Z
}.

Record trade_row : Type := { id : Z; cols : trade_columns }.

(** Columns of [master_trades] after [id]. *)
Record master_columns : Type := {
  m_symbol : option string;
  m_order_id : option string;
  m_position_side : option string;
  m_entry_price : option Q;
  m_size : option Q;
  m_leverage : option Z;
  m_take_profit : option Q;
  m_stop_loss : option Q;
  m_status : option string;
  m_pnl : option Q;
  m_pnl_percent : option Q;
  m_created_at : option timestamp;
  m_closed_at : option timestamp
}.

Record master_row : Type := { m_id : Z; m_cols : master_columns }.

(** A table with an AUTOINCREMENT key: its rows in rowid order and the
    largest key ever handed out (SQLite's [sqlite_sequence]). *)
Record table (R : Type) : Type := { rows : list R; seq : Z }.
Arguments rows {R} _.
Arguments seq {R} _.

Definition max_id {R : Type} (key : R -> Z) (rs : list R) : Z :=
  fold_right (fun r m => Z.max (key r) m) 0%Z rs.

(** The key AUTOINCREMENT gives the next row: above every key in use
    and every key used before. *)
Definition next_id {R : Type} (key : R -> Z) (t : table R) : Z :=
  (Z.max (seq t) (max_id key (rows t)) + 1)%Z.

(** [INSERT]: the new row goes last; [cursor.lastrowid] is its key. *)
Definition insert {R : Type} (key : R -> Z) (mk : Z -> R) (t : table R)
  : table R * Z :=
  let k := next_id key t in
  ({| rows := rows t ++ [mk k]; seq := k |}, k).

(** [UPDATE ... WHERE]: rows the condition selects are rewritten in place. *)
Definition update {R : Type} (where_ : R -> bool) (set : R -> R) (t : table R)
  : table R :=
  {| rows := map (fun r => if where_ r then set r else r) (rows t);
     seq := seq t |}.

(** SQL [column = ?]: a NULL column matches nothing. *)
Definition text_is (c : option string) (v : string) : bool :=
  match c with Some s => String.eqb s v | None => false end.

Definition int_is (c : option Z) (v : Z) : bool :=
  match c with Some n => Z.eqb n v | None => false end.

(** SQL [column > 0]. *)
Definition real_positive (c : option Q) : bool :=
  match c with Some x => gt x 0 | None => false end.

(** The assignments of the UPDATE in [CopyTrader._update_trade_status]. *)
Definition set_status (st : string) (now : timestamp)
           (new_pnl new_pnl_percent : option Q) (c : trade_columns)
  : trade_columns :=
  {| telegram_id := telegram_id c; symbol := symbol c;
     order_id := order_id c; position_side := position_side c;
     entry_price := entry_price c; size := size c;
     leverage := leverage c; take_profit := take_profit c;
     stop_loss := stop_loss c;
     status := Some st;
     pnl := match new_pnl with Some v => Some v | None => pnl c end;
     pnl_percent := match new_pnl_percent with
                    | Some v => Some v
                    | None => pnl_percent c
                    end;
     created_at := created_at c;
     closed_at := Some now;
     master_trade_id := master_trade_id c |}.

End Ledger.

(** ** The exchange client ([binance_ws_client.py])

    The REST side that the engine calls, and the reconnect loop of the
    stream side.  The exchange is an oracle: what it answers to a call of
    a given account.  In test mode [self.client] is [None] and every REST
    call raises, which is the oracle that refuses everything. *)

Module BinanceWebsocketClient.

Record position : Type := {
  p_symbol : string;
  positionAmt : Q;
  positionSide : string
}.

(** The parameters [place_order] hands to [futures_create_order]. *)
Record order : Type := {
  o_symbol : string;
  o_side : string;
  o_type : string;
  o_quantity : Q;
  o_price : option Q;
  o_stopPrice : option Q;
  o_timeInForce : string
}.

Definition TIME_IN_FORCE_GTC : string := "GTC".
Definition SIDE_BUY : string := "BUY".
Definition SIDE_SELL : string := "SELL".
Definition ORDER_TYPE_MARKET : string := "MARKET".

(** Answers of the exchange, per account ([telegram_id]):
    [None] and [false] stand for a call that raises. *)
Record exchange : Type := {
  futures_position_information : Z -> option (list position);
  futures_create_order : Z -> order -> bool;
  futures_cancel_all_open_orders : Z -> string -> bool
}.

(** Order requests handed to the exchange, oldest first, with the
    account that sent them. *)
Definition wire := list (Z * order).

(** [place_order]: logs and re-raises what [futures_create_order] raises. *)
Definition place_order (ex : exchange) (account : Z)
           (symbol side order_type : string) (quantity : Q)
           (price stop_price : option Q) (sent : wire)
  : wire * outcome unit :=
  let params :=
    {| o_symbol := symbol; o_side := side; o_type := order_type;
       o_quantity := quantity; o_price := price;
       o_stopPrice := stop_price; o_timeInForce := TIME_IN_FORCE_GTC |} in
  let sent' := sent ++ [(account, params)] in
  if futures_create_order ex account params
  then (sent', Returned tt)
  else (sent', Raised GatewayError).

(** [get_positions]: the non-empty positions; [[]] when the call raises. *)
Definition get_positions (ex : exchange) (account : Z) : list position :=
  match futures_position_information ex account with
  | Some ps => filter (fun p => negb (feq (positionAmt p) 0)) ps
  | None => []
  end.

(** [close_position]: a market order against the position found; an
    error dictionary, not an exception, when there is none. *)
Definition close_position (ex : exchange) (account : Z)
           (symbol position_side : string) (sent : wire)
  : wire * outcome unit :=
  match find (fun p => String.eqb (p_symbol p) symbol
                       && String.eqb (positionSide p) position_side)
             (get_positions ex account) with
  | None => (sent, Returned tt)
  | Some p =>
      let amount := positionAmt p in
      if feq amount 0 then (sent, Returned tt)
      else
        let close_side := if gt amount 0 then SIDE_SELL else SIDE_BUY in
        place_order ex account symbol close_side ORDER_TYPE_MARKET
                    (Qabs amount) None None sent
  end.

(** *** The reconnect loop ([_run_websocket])

    One pass of the loop is one call of [_connect_and_subscribe]; the
    environment says how it ended and whether [stop] cleared
    [keep_running] during the call or during the pause after it.  A
    session ends closed, when [run_forever] returns, or on an exception
    raised out of [_connect_and_subscribe]; either may follow a refusal
    of the credentials. *)

Inductive stream_error : Type :=
| AuthenticationError
| TransientConnectionError.

Inductive session_end : Type :=
| SessionClosed
| SessionRaised (e : stream_error).

Record attempt : Type := {
  ending : session_end;
  stopped_in_session : bool;
  stopped_in_pause : bool
}.

Inductive action : Type :=
| Connect
| LogError (e : stream_error)
| OnError (e : stream_error)
| Sleep (seconds : Z).

Definition report (has_on_error : bool) (a : attempt) : list action :=
  match ending a with
  | SessionClosed => []
  | SessionRaised e =>
      LogError e :: (if has_on_error then [OnError e] else [])
  end.

(** The [while self.keep_running] loop in normal mode, run against a
    finite prefix of the environment. *)
Fixpoint reconnect_loop (has_on_error keep_running : bool)
         (env : list attempt) : list action :=
  match env with
  | [] => []
  | a :: env' =>
      if keep_running then
        Connect :: report has_on_error a ++
          (if stopped_in_session a then []
           else Sleep 5 ::
                  reconnect_loop has_on_error
                                 (negb (stopped_in_pause a)) env')
      else []
  end.

(** The simulated loop of test mode: it only sleeps. *)
Fixpoint simulated_loop (keep_running : bool) (env : list attempt)
  : list action :=
  match env with
  | [] => []
  | a :: env' =>
      if keep_running
      then Sleep 5 :: simulated_loop (negb (stopped_in_pause a)) env'
      else []
  end.

Definition _run_websocket (test_mode has_on_error keep_running : bool)
           (env : list attempt) : list action :=
  if test_mode then simulated_loop keep_running env
  else reconnect_loop has_on_error keep_running env.

Definition connects (tr : list action) : nat :=
  List.length (filter (fun a => match a with Connect => true | _ => false end) tr).

End BinanceWebsocketClient.

(** ** The running engine ([copy_trader.py]) *)

Module CopyTrader.

Import BinanceWebsocketClient.

(** [follower_data["settings"]]; the four values are REAL columns of
    [users] and are read here as numbers.  A column that holds NULL is
    outside the model: in the code it raises TypeError in the sizing of
    lines 185-188, outside the follower's [try], where the model has the
    ZeroDivisionError of [follower_amount]. *)
Record settings : Type := {
  risk_factor : Q;
  max_position_size : Q;
  take_profit : Q;
  stop_loss : Q
}.

(** [self.follower_clients]: insertion-ordered, one entry per
    [telegram_id] ([_init_follower_client] refuses a second one). *)
Definition follower_clients := list (Z * settings).

(** What the engine acts on: the [trades] table behind
    [database_path] and the orders it has handed to the exchange. *)
Record world : Type := {
  ledger : Ledger.table Ledger.trade_row;
  sent : wire
}.

Definition with_sent (w : world) (s : wire) : world :=
  {| ledger := ledger w; sent := s |}.

(** Answers of the SQLite file behind [database_path] to the two
    statements of the engine, per follower and symbol: [false] stands
    for a statement that raises, as both do when the [trades] table
    lacks a column they name. *)
Record store : Type := {
  insert_into_trades : Z -> string -> bool;
  update_trades : Z -> string -> bool
}.

(** [_save_trade]: one INSERT naming seven columns; when it raises the
    error is logged and no row is written. *)
Definition _save_trade (db : store) (now : Ledger.timestamp)
           (telegram_id : Z)
           (symbol position_side : string) (entry_price size : Q)
           (status : string) (w : world) : world :=
  let mk k :=
    {| Ledger.id := k;
       Ledger.cols :=
         {| Ledger.telegram_id := Some telegram_id;
            Ledger.symbol := Some symbol;
            Ledger.order_id := None;
            Ledger.position_side := Some position_side;
            Ledger.entry_price := Some entry_price;
            Ledger.size := Some size;
            Ledger.leverage := None;
            Ledger.take_profit := None;
            Ledger.stop_loss := None;
            Ledger.status := Some status;
            Ledger.pnl := None;
            Ledger.pnl_percent := None;
            Ledger.created_at := Some now;
            Ledger.closed_at := None;
            Ledger.master_trade_id := None |} |} in
  if insert_into_trades db telegram_id symbol
  then {| ledger := fst (Ledger.insert Ledger.id mk (ledger w));
          sent := sent w |}
  else w.

(** The WHERE clause of [_update_trade_status]. *)
Definition open_trade_of (telegram_id : Z) (symbol : string)
           (r : Ledger.trade_row) : bool :=
  Ledger.int_is (Ledger.telegram_id (Ledger.cols r)) telegram_id
  && Ledger.text_is (Ledger.symbol (Ledger.cols r)) symbol
  && Ledger.text_is (Ledger.status (Ledger.cols r)) "OPEN".

(** [_update_trade_status]: status and [closed_at] always, [pnl] and
    [pnl_percent] when given; when the UPDATE raises the error is logged
    and no row is changed. *)
Definition _update_trade_status (db : store) (now : Ledger.timestamp)
           (telegram_id : Z)
           (symbol status : string) (pnl pnl_percent : option Q)
           (w : world) : world :=
  if update_trades db telegram_id symbol
  then
    {| ledger :=
         Ledger.update (open_trade_of telegram_id symbol)
           (fun r => {| Ledger.id := Ledger.id r;
                        Ledger.cols :=
                          Ledger.set_status status now pnl pnl_percent
                                            (Ledger.cols r) |})
           (ledger w);
       sent := sent w |}
  else w.

(** The sizing of lines 184-192: scale by the risk factor, cap the
    notional, round to three decimals.  The division is reached only
    when the cap applies. *)
Definition follower_amount (master_amount entry_price : Q) (s : settings)
  : outcome Q :=
  let amount := master_amount * risk_factor s in
  if gt (Qabs (amount * entry_price)) (max_position_size s) then
    capped <- truediv (max_position_size s) entry_price ;;
    Returned (round (capped * (if gt amount 0 then 1 else - (1))) 3)
  else Returned (round amount 3).

Definition opposite (position_side : string) : string :=
  if String.eqb position_side "LONG" then "SELL" else "BUY".

(** The body of the [try] for one follower. *)
Definition place_and_record (ex : exchange) (db : store)
           (now : Ledger.timestamp)
           (symbol position_side : string) (entry_price : Q)
           (telegram_id : Z) (s : settings) (amount : Q) (w : world)
  : world * outcome unit :=
  let side := if String.eqb position_side "LONG" then "BUY" else "SELL" in
  let long := String.eqb position_side "LONG" in
  match place_order ex telegram_id symbol side "MARKET" (Qabs amount)
                    None None (sent w) with
  | (s1, Returned _) =>
      let w1 := _save_trade db now telegram_id symbol position_side entry_price
                            (Qabs amount * entry_price) "OPEN"
                            (with_sent w s1) in
      let tp :=
        if gt (take_profit s) 0 then
          let tp_price :=
            if long then entry_price * (1 + take_profit s / 100)
            else entry_price * (1 - take_profit s / 100) in
          match place_order ex telegram_id symbol (opposite position_side)
                            "LIMIT" (Qabs amount) (Some tp_price) None
                            (sent w1) with
          | (s2, r) => (with_sent w1 s2, r)
          end
        else (w1, Returned tt) in
      match tp with
      | (w2, Returned _) =>
          if gt (stop_loss s) 0 then
            let sl_price :=
              if long then entry_price * (1 - stop_loss s / 100)
              else entry_price * (1 + stop_loss s / 100) in
            match place_order ex telegram_id symbol
                              (opposite position_side) "STOP_MARKET"
                              (Qabs amount) None (Some sl_price)
                              (sent w2) with
            | (s3, r) => (with_sent w2 s3, r)
            end
          else (w2, Returned tt)
      | stop => stop
      end
  | (s1, r) => (with_sent w s1, r)
  end.

(** One turn of the loop of [_copy_position_open]. *)
Definition copy_open_to (ex : exchange) (db : store)
           (now : Ledger.timestamp)
           (symbol position_side : string) (master_amount entry_price : Q)
           (follower : Z * settings) (w : world) : world * outcome unit :=
  let '(telegram_id, s) := follower in
  match follower_amount master_amount entry_price s with
  | Returned amount =>
      logged (place_and_record ex db now symbol position_side entry_price
                               telegram_id s amount w)
  | Raised e => (w, Raised e)
  | Blocked => (w, Blocked)
  end.

Definition _copy_position_open (ex : exchange) (db : store)
           (now : Ledger.timestamp)
           (followers : follower_clients) (symbol position_side : string)
           (master_amount entry_price : Q) (w : world)
  : world * outcome unit :=
  for_each (copy_open_to ex db now symbol position_side master_amount
                         entry_price)
           followers w.

(** One position of the follower, in the inner loop of
    [_copy_position_close]. *)
Definition close_one (ex : exchange) (db : store)
           (now : Ledger.timestamp)
           (symbol : string) (telegram_id : Z) (p : position) (w : world)
  : world * outcome unit :=
  if String.eqb (p_symbol p) symbol then
    let position_side := if gt (positionAmt p) 0 then "LONG" else "SHORT" in
    match close_position ex telegram_id symbol position_side (sent w) with
    | (s1, Returned _) =>
        if futures_cancel_all_open_orders ex telegram_id symbol
        then (_update_trade_status db now telegram_id symbol "CLOSED"
                                   None None (with_sent w s1),
              Returned tt)
        else (with_sent w s1, Raised GatewayError)
    | (s1, r) => (with_sent w s1, r)
    end
  else (w, Returned tt).

(** One turn of the outer loop: the follower's [try] block. *)
Definition copy_close_to (ex : exchange) (db : store)
           (now : Ledger.timestamp)
           (symbol : string) (follower : Z * settings) (w : world)
  : world * outcome unit :=
  let telegram_id := fst follower in
  logged (for_each (close_one ex db now symbol telegram_id)
                   (get_positions ex telegram_id) w).

Definition _copy_position_close (ex : exchange) (db : store)
           (now : Ledger.timestamp)
           (followers : follower_clients) (symbol : string) (w : world)
  : world * outcome unit :=
  for_each (copy_close_to ex db now symbol) followers w.

(** An entry of the list [P] of an ACCOUNT_UPDATE event, with its
    fields ['pa'] and ['ep'] read as numbers.  A field that [float]
    refuses is outside the model: in the code it raises at lines
    161-162, outside every [try] of the handler. *)
Record position_update : Type := { s : string; pa : Q; ep : Q }.

Definition on_position (ex : exchange) (db : store)
           (now : Ledger.timestamp)
           (followers : follower_clients) (p : position_update) (w : world)
  : world * outcome unit :=
  if feq (pa p) 0 then _copy_position_close ex db now followers (s p) w
  else
    let position_side := if gt (pa p) 0 then "LONG" else "SHORT" in
    _copy_position_open ex db now followers (s p) position_side (pa p) (ep p) w.

Definition _on_master_position_update (ex : exchange) (db : store)
           (now : Ledger.timestamp) (followers : follower_clients)
           (positions : list position_update) (w : world)
  : world * outcome unit :=
  for_each (on_position ex db now followers) positions w.

End CopyTrader.

(** ** The database handler ([src/database.py]) *)

Module Database.

Record audit_row : Type := {
  a_telegram_id : Z;
  event_type : string;
  description : string
}.

(** The tables the modelled methods touch, and [self.lock]. *)
Record state : Type := {
  trades : Ledger.table Ledger.trade_row;
  master_trades : Ledger.table Ledger.master_row;
  audit_log : list audit_row;
  lock : bool
}.

Definition set_lock (held : bool) (db : state) : state :=
  {| trades := trades db; master_trades := master_trades db;
     audit_log := audit_log db; lock := held |}.

(** [async with self.lock:].  An [asyncio.Lock] is not re-entrant: a
    coroutine that asks for a lock already held waits until the holder
    releases it, and a holder waiting for its own lock never does. *)
Definition with_lock {A : Type} (body : state -> state * outcome A)
           (db : state) : state * outcome A :=
  if lock db then (db, Blocked)
  else
    match body (set_lock true db) with
    | (db', Blocked) => (db', Blocked)
    | (db', r) => (set_lock false db', r)
    end.

Definition add_audit_log (telegram_id : Z) (event_type description : string)
           (db : state) : state * outcome bool :=
  with_lock
    (fun db =>
       ({| trades := trades db; master_trades := master_trades db;
           audit_log := audit_log db ++
                          [{| a_telegram_id := telegram_id;
                              event_type := event_type;
                              description := description |}];
           lock := lock db |},
        Returned true))
    db.

(** The dictionary [trade_data]: a value per column name.  A key that
    is missing reads as [None]; [created_at] then takes its default.
    The dictionary is taken to have a key, and no key bound to [None]:
    the empty dictionary, for which the INSERT is not well formed, and
    a key bound to [None], which is no KeyError, are outside the model. *)
Definition trade_data := Ledger.trade_columns.

Definition stamped (now : Ledger.timestamp) (d : trade_data)
  : Ledger.trade_columns :=
  {| Ledger.telegram_id := Ledger.telegram_id d;
     Ledger.symbol := Ledger.symbol d;
     Ledger.order_id := Ledger.order_id d;
     Ledger.position_side := Ledger.position_side d;
     Ledger.entry_price := Ledger.entry_price d;
     Ledger.size := Ledger.size d;
     Ledger.leverage := Ledger.leverage d;
     Ledger.take_profit := Ledger.take_profit d;
     Ledger.stop_loss := Ledger.stop_loss d;
     Ledger.status := Ledger.status d;
     Ledger.pnl := Ledger.pnl d;
     Ledger.pnl_percent := Ledger.pnl_percent d;
     Ledger.created_at := match Ledger.created_at d with
                          | Some t => Some t
                          | None => Some now
                          end;
     Ledger.closed_at := Ledger.closed_at d;
     Ledger.master_trade_id := Ledger.master_trade_id d |}.

Definition insert_trade (now : Ledger.timestamp) (d : trade_data)
           (db : state) : state * Z :=
  let '(t, k) :=
    Ledger.insert Ledger.id
      (fun k => {| Ledger.id := k; Ledger.cols := stamped now d |})
      (trades db) in
  ({| trades := t; master_trades := master_trades db;
      audit_log := audit_log db; lock := lock db |}, k).

(** [add_user_trade]: INSERT and commit, then the audit entry, asked
    for while the lock is still held. *)
Definition add_user_trade (now : Ledger.timestamp) (d : trade_data)
           (db : state) : state * outcome Z :=
  with_lock
    (fun db =>
       let '(db1, trade_id) := insert_trade now d db in
       match Ledger.telegram_id d with
       | None => (db1, Raised (KeyError "telegram_id"))
       | Some telegram_id =>
           match Ledger.symbol d with
           | None => (db1, Raised (KeyError "symbol"))
           | Some symbol =>
               match Ledger.position_side d with
               | None => (db1, Raised (KeyError "position_side"))
               | Some position_side =>
                   match add_audit_log telegram_id "TRADE_EXECUTED"
                           (String.append "Copied trade for "
                              (String.append symbol
                                 (String.append " " position_side)))
                           db1 with
                   | (db2, Returned _) => (db2, Returned trade_id)
                   | (db2, Raised e) => (db2, Raised e)
                   | (db2, Blocked) => (db2, Blocked)
                   end
               end
           end
       end)
    db.

(** [get_master_open_trades]. *)
Definition get_master_open_trades (db : state)
  : state * outcome (list Ledger.master_row) :=
  with_lock
    (fun db =>
       (db,
        Returned
          (filter (fun r => Ledger.text_is
                              (Ledger.m_status (Ledger.m_cols r)) "OPEN")
                  (Ledger.rows (master_trades db)))))
    db.

(** The dictionary [update_data], with the four keys that the caller
    in the source sets. *)
Record update_data : Type := {
  u_status : string;
  u_closed_at : Ledger.timestamp;
  u_pnl : Q;
  u_pnl_percent : Q
}.

Definition apply_update (u : update_data) (r : Ledger.master_row)
  : Ledger.master_row :=
  let c := Ledger.m_cols r in
  {| Ledger.m_id := Ledger.m_id r;
     Ledger.m_cols :=
       {| Ledger.m_symbol := Ledger.m_symbol c;
          Ledger.m_order_id := Ledger.m_order_id c;
          Ledger.m_position_side := Ledger.m_position_side c;
          Ledger.m_entry_price := Ledger.m_entry_price c;
          Ledger.m_size := Ledger.m_size c;
          Ledger.m_leverage := Ledger.m_leverage c;
          Ledger.m_take_profit := Ledger.m_take_profit c;
          Ledger.m_stop_loss := Ledger.m_stop_loss c;
          Ledger.m_status := Some (u_status u);
          Ledger.m_pnl := Some (u_pnl u);
          Ledger.m_pnl_percent := Some (u_pnl_percent u);
          Ledger.m_created_at := Ledger.m_created_at c;
          Ledger.m_closed_at := Some (u_closed_at u) |} |}.

(** [update_master_trade]: UPDATE ... WHERE id = ?. *)
Definition update_master_trade (trade_id : Z) (u : update_data) (db : state)
  : state * outcome bool :=
  with_lock
    (fun db =>
       ({| trades := trades db;
           master_trades :=
             Ledger.update (fun r => Z.eqb (Ledger.m_id r) trade_id)
                           (apply_update u) (master_trades db);
           audit_log := audit_log db; lock := lock db |},
        Returned true))
    db.

(** The result of [get_user_statistics]; a best or worst trade is the
    tuple (symbol, position_side, pnl, pnl_percent). *)
Definition trade_summary : Type :=
  (option string * option string * option Q * option Q)%type.

Record statistics : Type := {
  total_trades : Z;
  winning_trades : Z;
  win_rate : Q;
  total_profit : Q;
  avg_profit : Q;
  best_trade : option trade_summary;
  worst_trade : option trade_summary
}.

Definition of_user (telegram_id : Z) (r : Ledger.trade_row) : bool :=
  Ledger.int_is (Ledger.telegram_id (Ledger.cols r)) telegram_id.

Definition count {R : Type} (rs : list R) : Z := Z.of_nat (List.length rs).

(** SQL [SUM(pnl)]: NULL when no row has a value. *)
Fixpoint sum_pnl (rs : list Ledger.trade_row) : option Q :=
  match rs with
  | [] => None
  | r :: rs' =>
      match Ledger.pnl (Ledger.cols r), sum_pnl rs' with
      | Some x, Some y => Some (x + y)
      | Some x, None => Some x
      | None, t => t
      end
  end.

(** SQLite's order on a REAL column: NULL sorts below every number. *)
Definition sorts_before (a b : option Q) : bool :=
  match a, b with
  | None, Some _ => true
  | Some x, Some y => gt y x
  | _, None => false
  end.

(** [ORDER BY pnl ... LIMIT 1]: among equal keys the earliest row. *)
Fixpoint first_by (precedes : option Q -> option Q -> bool)
         (rs : list Ledger.trade_row) : option Ledger.trade_row :=
  match rs with
  | [] => None
  | r :: rs' =>
      match first_by precedes rs' with
      | None => Some r
      | Some b =>
          if precedes (Ledger.pnl (Ledger.cols b)) (Ledger.pnl (Ledger.cols r))
          then Some b else Some r
      end
  end.

Definition summary (r : Ledger.trade_row) : trade_summary :=
  let c := Ledger.cols r in
  (Ledger.symbol c, Ledger.position_side c, Ledger.pnl c,
   Ledger.pnl_percent c).

Definition get_user_statistics (telegram_id : Z) (db : state)
  : state * outcome statistics :=
  with_lock
    (fun db =>
       let mine := filter (of_user telegram_id) (Ledger.rows (trades db)) in
       let total_trades := count mine in
       let winning_trades :=
         count (filter (fun r => Ledger.real_positive
                                   (Ledger.pnl (Ledger.cols r))) mine) in
       let total_profit := or_zero (sum_pnl mine) in
       (db,
        win_rate <-
          (if (0 <? total_trades)%Z
           then share <- truediv (inject_Z winning_trades)
                                 (inject_Z total_trades) ;;
                Returned (share * 100)
           else Returned 0) ;;
        avg_profit <-
          (if (0 <? total_trades)%Z
           then truediv total_profit (inject_Z total_trades)
           else Returned 0) ;;
        Returned
          {| total_trades := total_trades;
             winning_trades := winning_trades;
             win_rate := win_rate;
             total_profit := total_profit;
             avg_profit := avg_profit;
             best_trade :=
               option_map summary
                 (first_by (fun a b => sorts_before b a) mine);
             worst_trade :=
               option_map summary (first_by sorts_before mine) |}))
    db.

End Database.

(** ** The master order handlers ([src/copy_trader.py]) *)

Module MasterOrders.

Import Database.

Definition is_closing_order (position_side : option string) (side : string)
  : bool :=
  (Ledger.text_is position_side "LONG" && String.eqb side "SELL")
  || (Ledger.text_is position_side "SHORT" && String.eqb side "BUY").

(** Lines 313-328: the update that closes [trade], from the fill's
    average price and executed quantity. *)
Definition closing_update (now : Ledger.timestamp) (trade : Ledger.master_row)
           (avg_price executed_qty : Q) : outcome update_data :=
  match Ledger.m_entry_price (Ledger.m_cols trade) with
  | None => Raised TypeError
  | Some entry_price =>
      if Ledger.text_is (Ledger.m_position_side (Ledger.m_cols trade)) "LONG"
      then
        let pnl := executed_qty * (avg_price - entry_price) in
        ratio <- truediv avg_price entry_price ;;
        Returned {| u_status := "CLOSED"; u_closed_at := now;
                    u_pnl := pnl; u_pnl_percent := (ratio - 1) * 100 |}
      else
        let pnl := executed_qty * (entry_price - avg_price) in
        ratio <- truediv entry_price avg_price ;;
        Returned {| u_status := "CLOSED"; u_closed_at := now;
                    u_pnl := pnl; u_pnl_percent := (ratio - 1) * 100 |}
  end.

(** Lines 313-330: compute the update and write it. *)
Definition close_master_trade (now : Ledger.timestamp)
           (trade : Ledger.master_row) (avg_price executed_qty : Q)
           (db : state) : state * outcome bool :=
  match closing_update now trade avg_price executed_qty with
  | Returned u => update_master_trade (Ledger.m_id trade) u db
  | Raised e => (db, Raised e)
  | Blocked => (db, Blocked)
  end.

Section Handler.

(** [self.close_user_trades(trade_id, exit_price)]: called by the
    handler, defined nowhere in the source tree; the handler is
    read for any behaviour of it. *)
Variable close_user_trades : Z -> Q -> state -> state * outcome unit.

Definition close_if_closing (now : Ledger.timestamp)
           (symbol side : string) (avg_price executed_qty : Q)
           (trade : Ledger.master_row) (db : state)
  : state * outcome unit :=
  if Ledger.text_is (Ledger.m_symbol (Ledger.m_cols trade)) symbol
     && is_closing_order (Ledger.m_position_side (Ledger.m_cols trade)) side
  then
    match close_master_trade now trade avg_price executed_qty db with
    | (db1, Returned _) =>
        close_user_trades (Ledger.m_id trade) avg_price db1
    | (db1, Raised e) => (db1, Raised e)
    | (db1, Blocked) => (db1, Blocked)
    end
  else (db, Returned tt).

Definition handle_filled_master_order (now : Ledger.timestamp)
           (symbol side : string) (order_id : Z)
           (avg_price executed_qty : Q) (db : state)
  : state * outcome unit :=
  logged
    match get_master_open_trades db with
    | (db0, Returned open_trades) =>
        for_each (close_if_closing now symbol side avg_price executed_qty)
                 open_trades db0
    | (db0, Raised e) => (db0, Raised e)
    | (db0, Blocked) => (db0, Blocked)
    end.

End Handler.

End MasterOrders.

(** ** Observations and scenarios

    What the statements below read off a state, and the concrete
    accounts, settings and exchanges of the scenarios they are tried on. *)

Module Observe.

Import BinanceWebsocketClient CopyTrader.

(** The order requests of one account, in the order they were sent. *)
Definition requests_of (account : Z) (sent : wire) : wire :=
  filter (fun q => Z.eqb (fst q) account) sent.

(** The ledger rows of one follower, without their keys. *)
Definition records_of (telegram_id : Z)
           (t : Ledger.table Ledger.trade_row) : list Ledger.trade_columns :=
  map Ledger.cols (filter (Database.of_user telegram_id) (Ledger.rows t)).

Definition is_market (side : string) (q : Z * order) : bool :=
  String.eqb (o_type (snd q)) "MARKET" && String.eqb (o_side (snd q)) side.

(** The ledger after [_update_trade_status] was called to set CLOSED
    with no PnL given: with the UPDATE done, or as it was when the UPDATE
    raised. *)
Definition close_rows (db : store) (now : Ledger.timestamp) (telegram_id : Z)
           (symbol : string) (t : Ledger.table Ledger.trade_row)
  : Ledger.table Ledger.trade_row :=
  ledger (_update_trade_status db now telegram_id symbol "CLOSED" None None
                               {| ledger := t; sent := [] |}).

Definition is_open (r : Ledger.trade_row) : bool :=
  Ledger.text_is (Ledger.status (Ledger.cols r)) "OPEN".

(** No OPEN trade of the follower on the symbol is left in the table. *)
Definition none_open (telegram_id : Z) (symbol : string)
           (t : Ledger.table Ledger.trade_row) : Prop :=
  Forall (fun r => open_trade_of telegram_id symbol r = false) (Ledger.rows t).

(** The ledger after [_update_trade_status] was called for each of a
    list of followers in turn. *)
Definition close_all (db : store) (now : Ledger.timestamp) (symbol : string)
           (closed : list Z) (t : Ledger.table Ledger.trade_row)
  : Ledger.table Ledger.trade_row :=
  fold_left (fun t f => close_rows db now f symbol t) closed t.

(** The ledger after [_update_trade_status] was called for some
    followers on each of a list of symbols in turn. *)
Definition close_steps (db : store) (now : Ledger.timestamp)
           (steps : list (string * list Z))
           (t : Ledger.table Ledger.trade_row)
  : Ledger.table Ledger.trade_row :=
  fold_left (fun t st => close_all db now (fst st) (snd st) t) steps t.

Definition not_stopped (a : attempt) : bool :=
  negb (stopped_in_session a) && negb (stopped_in_pause a).

(** The MARKET order that opens a follower's copy. *)
Definition opening_order (symbol position_side : string) (amount : Q)
  : order :=
  {| o_symbol := symbol;
     o_side := if String.eqb position_side "LONG" then "BUY" else "SELL";
     o_type := "MARKET"; o_quantity := Qabs amount;
     o_price := None; o_stopPrice := None;
     o_timeInForce := TIME_IN_FORCE_GTC |}.

(** The ledger after [_save_trade] was called for an opened copy: with
    the new row, or as it was when the INSERT raised. *)
Definition with_open_row (db : store) (now : Ledger.timestamp)
           (telegram_id : Z)
           (symbol position_side : string) (entry_price amount : Q)
           (t : Ledger.table Ledger.trade_row)
  : Ledger.table Ledger.trade_row :=
  ledger (_save_trade db now telegram_id symbol position_side entry_price
                      (Qabs amount * entry_price) "OPEN"
                      {| ledger := t; sent := [] |}).

End Observe.

Module Scenario.

Import BinanceWebsocketClient CopyTrader.

Definition accepting : exchange :=
  {| futures_position_information := fun _ => Some [];
     futures_create_order := fun _ _ => true;
     futures_cancel_all_open_orders := fun _ _ => true |}.

Definition refusing : exchange :=
  {| futures_position_information := fun _ => None;
     futures_create_order := fun _ _ => false;
     futures_cancel_all_open_orders := fun _ _ => false |}.

Definition F1 : Z := 1001%Z.
Definition F2 : Z := 1002%Z.

(** A database file whose [trades] table has the columns of
    [Database.init_db]: both statements of the engine go through. *)
Definition working : store :=
  {| insert_into_trades := fun _ _ => true;
     update_trades := fun _ _ => true |}.

(** A database file whose [trades] table is the one that
    [telegram_copy_bot.init_db] creates, without [telegram_id], [size]
    and [closed_at]: both statements raise. *)
Definition bot_table : store :=
  {| insert_into_trades := fun _ _ => false;
     update_trades := fun _ _ => false |}.

(** An exchange on which F1's orders fail and every other call works. *)
Definition refusing_F1 : exchange :=
  {| futures_position_information := fun _ => Some [];
     futures_create_order := fun account _ => negb (Z.eqb account F1);
     futures_cancel_all_open_orders := fun _ _ => true |}.

Definition f2_settings : settings :=
  {| risk_factor := 0.5; max_position_size := 1000;
     take_profit := 2; stop_loss := 1 |}.

(** Follower F1 of the specification's scenario, without take-profit
    or stop-loss. *)
Definition f1_settings : settings :=
  {| risk_factor := 0.1; max_position_size := 3000;
     take_profit := 0; stop_loss := 0 |}.

Definition fresh : world :=
  {| ledger := {| Ledger.rows := []; Ledger.seq := 0 |}; sent := [] |}.

(** The ACCOUNT_UPDATE of a master that opens LONG 1.0 BTCUSDT at
    50000, and the one of its close. *)
Definition master_opens : list position_update :=
  [{| s := "BTCUSDT"; pa := 1; ep := 50000 |}].

Definition master_closes : list position_update :=
  [{| s := "BTCUSDT"; pa := 0; ep := 0 |}].

Definition after_open : world * outcome unit :=
  _on_master_position_update accepting working 0%Z [(F1, f1_settings)]
                             master_opens fresh.


(** The same open as [after_open] against an exchange that refuses. *)
Definition after_refused_open : world * outcome unit :=
  _copy_position_open refusing working 0%Z [(F1, f1_settings)]
                      "BTCUSDT" "LONG" 1 50000 fresh.

(** A follower trade of F1 copied from master trade 7. *)
Definition copy_of_7 : Database.trade_data :=
  {| Ledger.telegram_id := Some F1; Ledger.symbol := Some "BTCUSDT";
     Ledger.order_id := None; Ledger.position_side := Some "LONG";
     Ledger.entry_price := Some 50000; Ledger.size := Some 0.06;
     Ledger.leverage := None; Ledger.take_profit := None;
     Ledger.stop_loss := None; Ledger.status := Some "OPEN";
     Ledger.pnl := None; Ledger.pnl_percent := None;
     Ledger.created_at := None; Ledger.closed_at := None;
     Ledger.master_trade_id := Some 7%Z |}.

(** A database whose ledger already holds that trade, as row 1. *)
Definition holding_copy : Database.state :=
  {| Database.trades :=
       {| Ledger.rows :=
            [{| Ledger.id := 1; Ledger.cols := Database.stamped 0%Z copy_of_7 |}];
          Ledger.seq := 1 |};
     Database.master_trades := {| Ledger.rows := []; Ledger.seq := 0 |};
     Database.audit_log := [];
     Database.lock := false |}.

Definition master_trade (position_side : string) (entry_price size : Q)
  : Ledger.master_row :=
  {| Ledger.m_id := 7;
     Ledger.m_cols :=
       {| Ledger.m_symbol := Some "BTCUSDT"; Ledger.m_order_id := Some "9001";
          Ledger.m_position_side := Some position_side;
          Ledger.m_entry_price := Some entry_price;
          Ledger.m_size := Some size; Ledger.m_leverage := None;
          Ledger.m_take_profit := None; Ledger.m_stop_loss := None;
          Ledger.m_status := Some "OPEN"; Ledger.m_pnl := None;
          Ledger.m_pnl_percent := None; Ledger.m_created_at := Some 0%Z;
          Ledger.m_closed_at := None |} |}.

Definition holding_master (t : Ledger.master_row) : Database.state :=
  {| Database.trades := {| Ledger.rows := []; Ledger.seq := 0 |};
     Database.master_trades := {| Ledger.rows := [t]; Ledger.seq := 7 |};
     Database.audit_log := [];
     Database.lock := false |}.

(** An exchange on which F1 holds the 0.06 BTCUSDT it bought. *)
Definition holding_position : exchange :=
  {| futures_position_information :=
       fun account =>
         if Z.eqb account F1
         then Some [{| p_symbol := "BTCUSDT"; positionAmt := 0.06;
                       positionSide := "LONG" |}]
         else Some [];
     futures_create_order := fun _ _ => true;
     futures_cancel_all_open_orders := fun _ _ => true |}.

(** The same account on an exchange that refuses every order. *)
Definition holding_refused : exchange :=
  {| futures_position_information :=
       futures_position_information holding_position;
     futures_create_order := fun _ _ => false;
     futures_cancel_all_open_orders := fun _ _ => true |}.

(** The master position of [after_open] is closed, at time 10. *)
Definition after_close : world * outcome unit :=
  _on_master_position_update holding_position working 10%Z [(F1, f1_settings)]
                             master_closes (fst after_open).

Definition trade_with (telegram_id : Z) (status : string) (pnl : option Q)
  : Ledger.trade_columns :=
  {| Ledger.telegram_id := Some telegram_id; Ledger.symbol := Some "BTCUSDT";
     Ledger.order_id := None; Ledger.position_side := Some "LONG";
     Ledger.entry_price := Some 50000; Ledger.size := Some 0.06;
     Ledger.leverage := None; Ledger.take_profit := None;
     Ledger.stop_loss := None; Ledger.status := Some status;
     Ledger.pnl := pnl; Ledger.pnl_percent := None;
     Ledger.created_at := Some 0%Z; Ledger.closed_at := None;
     Ledger.master_trade_id := None |}.

(** F1 with two closed trades, one won and one lost, and an OPEN row
    that carries a positive PnL; F2 with one trade. *)
Definition four_trades : Database.state :=
  {| Database.trades :=
       {| Ledger.rows :=
            [{| Ledger.id := 1; Ledger.cols := trade_with F1 "CLOSED" (Some 10) |};
             {| Ledger.id := 2; Ledger.cols := trade_with F1 "CLOSED" (Some (-5)) |};
             {| Ledger.id := 3; Ledger.cols := trade_with F2 "CLOSED" (Some 1) |};
             {| Ledger.id := 4; Ledger.cols := trade_with F1 "OPEN" (Some 7) |}];
          Ledger.seq := 4 |};
     Database.master_trades := {| Ledger.rows := []; Ledger.seq := 0 |};
     Database.audit_log := [];
     Database.lock := false |}.

(** A session refused for its credentials, then one that opens; nobody
    calls [stop]. *)
Definition revoked_then_fine : list attempt :=
  [ {| ending := SessionRaised AuthenticationError;
       stopped_in_session := false; stopped_in_pause := false |};
    {| ending := SessionClosed;
       stopped_in_session := false; stopped_in_pause := false |} ].

End Scenario.

(** ** The stream callbacks ([binance_ws_client.py], wired in
    [copy_trader.py])

    A message of the user data stream as [_on_message] sees it after
    [json.loads], with the parts of its payload that the callbacks read. *)

Module Stream.

Import BinanceWebsocketClient CopyTrader.

Inductive message : Type :=
| InvalidJson
| ACCOUNT_UPDATE (has_balances : bool) (P : list position_update)
| ORDER_TRADE_UPDATE
| MARGIN_CALL
| ACCOUNT_CONFIG_UPDATE
| OtherEvent.

(** The callbacks of a client; [None] for one that was never set. *)
Record callbacks : Type := {
  on_position_update :
    option (list position_update -> world -> world * outcome unit);
  on_order_update : option (world -> world * outcome unit);
  on_balance_update : option (world -> world * outcome unit)
}.

(** The callbacks [CopyTrader.__init__] sets on the master client:
    positions go to [_on_master_position_update], order updates are
    logged, balances have no callback. *)
Definition master_callbacks (ex : exchange) (db : store)
           (now : Ledger.timestamp)
           (followers : follower_clients) : callbacks :=
  {| on_position_update :=
       Some (_on_master_position_update ex db now followers);
     on_order_update := Some (fun w => (w, Returned tt));
     on_balance_update := None |}.

(** A follower's client, as [_init_follower_client] leaves it: no
    callback is set. *)
Definition follower_callbacks : callbacks :=
  {| on_position_update := None; on_order_update := None;
     on_balance_update := None |}.

Definition call (f : option (world -> world * outcome unit)) (w : world)
  : world * outcome unit :=
  match f with
  | Some g => g w
  | None => (w, Returned tt)
  end.

(** [_handle_account_update]: balances first, then positions; a
    callback is called only for a list that is not empty. *)
Definition _handle_account_update (cb : callbacks) (has_balances : bool)
           (P : list position_update) (w : world) : world * outcome unit :=
  match call (if has_balances then on_balance_update cb else None) w with
  | (w1, Returned _) =>
      match P with
      | [] => (w1, Returned tt)
      | _ :: _ =>
          call (option_map (fun f => f P) (on_position_update cb)) w1
      end
  | stop => stop
  end.

(** [_on_message]: every exception of the dispatch is logged. *)
Definition _on_message (cb : callbacks) (m : message) (w : world)
  : world * outcome unit :=
  logged
    match m with
    | InvalidJson => (w, Returned tt)
    | ACCOUNT_UPDATE has_balances P =>
        _handle_account_update cb has_balances P w
    | ORDER_TRADE_UPDATE => call (on_order_update cb) w
    | MARGIN_CALL => (w, Returned tt)
    | ACCOUNT_CONFIG_UPDATE => (w, Returned tt)
    | OtherEvent => (w, Returned tt)
    end.

End Stream.

(** ** The follower registry ([copy_trader.py]) *)

Module Registry.

Import CopyTrader.

(** [str.isspace] on the code points below 256. *)
Definition isspace (c : ascii) : bool :=
  let n := nat_of_ascii c in
  ((9 <=? n) && (n <=? 13) || (28 <=? n) && (n <=? 32)
   || (n =? 133) || (n =? 160))%nat.

Fixpoint lstrip (s : string) : string :=
  match s with
  | EmptyString => EmptyString
  | String c s' => if isspace c then lstrip s' else s
  end.

Fixpoint rstrip (s : string) : string :=
  match s with
  | EmptyString => EmptyString
  | String c s' =>
      match rstrip s' with
      | EmptyString => if isspace c then EmptyString else String c EmptyString
      | t => String c t
      end
  end.

(** [str.strip()]. *)
Definition strip (s : string) : string := rstrip (lstrip s).

(** [telegram_id in self.follower_clients]. *)
Definition registered (telegram_id : Z) (reg : follower_clients) : bool :=
  existsb (fun f => Z.eqb (fst f) telegram_id) reg.

(** The test of line 123, on the cleaned keys. *)
Definition keys_valid (api_key api_secret : option string) : bool :=
  match api_key, api_secret with
  | Some k, Some s =>
      negb (String.eqb k "") && negb (String.eqb s "")
      && negb (String.length k <? 10)%nat && negb (String.length s <? 10)%nat
  | _, _ => false
  end.

(** [_init_follower_client].  [reachable] says whether building the
    REST client of [BinanceWebsocketClient.__init__] goes through; in test
    mode none is built. *)
Definition _init_follower_client (test_mode : bool)
           (reachable : string -> string -> bool)
           (telegram_id : Z) (api_key api_secret : option string)
           (s : settings) (reg : follower_clients)
  : follower_clients * outcome unit :=
  if registered telegram_id reg then (reg, Returned tt)
  else
    let api_key := option_map strip api_key in
    let api_secret := option_map strip api_secret in
    if keys_valid api_key api_secret then
      match api_key, api_secret with
      | Some k, Some sec =>
          if test_mode || reachable k sec
          then (reg ++ [(telegram_id, s)], Returned tt)
          else (reg, Raised GatewayError)
      | _, _ => (reg, Returned tt)
      end
    else (reg, Returned tt).

(** A row of the SELECT of [_load_active_users]: an active user with
    both keys. *)
Record active_user : Type := {
  u_telegram_id : Z;
  binance_api_key : string;
  binance_api_secret : string;
  u_settings : settings
}.

(** [_load_active_users], on the rows fetched. *)
Definition _load_active_users (test_mode : bool)
           (reachable : string -> string -> bool)
           (users : list active_user) (reg : follower_clients)
  : follower_clients * outcome unit :=
  if test_mode then (reg, Returned tt)
  else
    for_each
      (fun u =>
         _init_follower_client test_mode reachable (u_telegram_id u)
                               (Some (binance_api_key u))
                               (Some (binance_api_secret u))
                               (u_settings u))
      users reg.

End Registry.

(** ** Further observations on the engine *)

Module History.

Import BinanceWebsocketClient CopyTrader.

(** The columns of a [trades] row that no UPDATE of the engine names. *)
Definition written_once (c : Ledger.trade_columns) :=
  (Ledger.telegram_id c, Ledger.symbol c, Ledger.order_id c,
   Ledger.position_side c, Ledger.entry_price c, Ledger.size c,
   Ledger.leverage c, Ledger.take_profit c, Ledger.stop_loss c,
   Ledger.pnl c, Ledger.pnl_percent c, Ledger.created_at c,
   Ledger.master_trade_id c).

(** A row and what may have become of it: the same row, or an OPEN row
    now CLOSED. *)
Definition evolves (r r' : Ledger.trade_row) : Prop :=
  Ledger.id r' = Ledger.id r
  /\ written_once (Ledger.cols r') = written_once (Ledger.cols r)
  /\ (r' = r
      \/ (Observe.is_open r = true
          /\ Ledger.status (Ledger.cols r') = Some "CLOSED")).

(** A table and a later state of it: its rows, each evolved, in the
    same places, followed by new rows. *)
Definition grows (t t' : Ledger.table Ledger.trade_row) : Prop :=
  exists olds added,
    Ledger.rows t' = olds ++ added
    /\ Forall2 evolves (Ledger.rows t) olds.

(** A row before and after a close of [symbol] for the followers
    [followers] at time [now]: untouched, or an OPEN trade of one of them
    on that symbol with the status and the closing time set. *)
Definition closed_by (now : Ledger.timestamp) (symbol : string)
           (followers : follower_clients) (r r' : Ledger.trade_row) : Prop :=
  r' = r
  \/ ((exists f, In f (map fst followers) /\ open_trade_of f symbol r = true)
      /\ r' = {| Ledger.id := Ledger.id r;
                 Ledger.cols := Ledger.set_status "CLOSED" now None None
                                                  (Ledger.cols r) |}).

(** The LIMIT order of lines 209-217 and the STOP_MARKET order of
    lines 219-227. *)
Definition take_profit_order (symbol position_side : string)
           (entry_price : Q) (s : settings) (amount : Q) : order :=
  {| o_symbol := symbol; o_side := opposite position_side;
     o_type := "LIMIT"; o_quantity := Qabs amount;
     o_price :=
       Some (if String.eqb position_side "LONG"
             then entry_price * (1 + take_profit s / 100)
             else entry_price * (1 - take_profit s / 100));
     o_stopPrice := None; o_timeInForce := TIME_IN_FORCE_GTC |}.

Definition stop_loss_order (symbol position_side : string)
           (entry_price : Q) (s : settings) (amount : Q) : order :=
  {| o_symbol := symbol; o_side := opposite position_side;
     o_type := "STOP_MARKET"; o_quantity := Qabs amount;
     o_price := None;
     o_stopPrice :=
       Some (if String.eqb position_side "LONG"
             then entry_price * (1 - stop_loss s / 100)
             else entry_price * (1 + stop_loss s / 100));
     o_timeInForce := TIME_IN_FORCE_GTC |}.

(** The orders a follower's turn may send after the MARKET order, each
    with the answer of the exchange that lets the next one follow. *)
Definition protective_orders (ex : exchange) (telegram_id : Z)
           (symbol position_side : string) (entry_price : Q) (s : settings)
           (amount : Q) : list order :=
  let tp := take_profit_order symbol position_side entry_price s amount in
  let sl := stop_loss_order symbol position_side entry_price s amount in
  let after_tp := if gt (stop_loss s) 0 then [sl] else [] in
  if gt (take_profit s) 0
  then tp :: (if futures_create_order ex telegram_id tp then after_tp else [])
  else after_tp.

End History.

(** ** More of the database handler ([src/database.py]) *)

Module Trades.

Import Database.

(** The dictionary [trade_data] of a master trade. *)
Definition master_trade_data := Ledger.master_columns.

Definition stamped_master (now : Ledger.timestamp) (d : master_trade_data)
  : Ledger.master_columns :=
  {| Ledger.m_symbol := Ledger.m_symbol d;
     Ledger.m_order_id := Ledger.m_order_id d;
     Ledger.m_position_side := Ledger.m_position_side d;
     Ledger.m_entry_price := Ledger.m_entry_price d;
     Ledger.m_size := Ledger.m_size d;
     Ledger.m_leverage := Ledger.m_leverage d;
     Ledger.m_take_profit := Ledger.m_take_profit d;
     Ledger.m_stop_loss := Ledger.m_stop_loss d;
     Ledger.m_status := Ledger.m_status d;
     Ledger.m_pnl := Ledger.m_pnl d;
     Ledger.m_pnl_percent := Ledger.m_pnl_percent d;
     Ledger.m_created_at := match Ledger.m_created_at d with
                            | Some t => Some t
                            | None => Some now
                            end;
     Ledger.m_closed_at := Ledger.m_closed_at d |}.

(** [add_master_trade]: INSERT, commit, [cursor.lastrowid]. *)
Definition add_master_trade (now : Ledger.timestamp) (d : master_trade_data)
           (db : state) : state * outcome Z :=
  with_lock
    (fun db =>
       let '(t, k) :=
         Ledger.insert Ledger.m_id
           (fun k => {| Ledger.m_id := k;
                        Ledger.m_cols := stamped_master now d |})
           (master_trades db) in
       ({| trades := trades db; master_trades := t;
           audit_log := audit_log db; lock := lock db |},
        Returned k))
    db.

(** SQL [column != ?]: a NULL column fails this test too. *)
Definition text_is_not (c : option string) (v : string) : bool :=
  match c with Some s => negb (String.eqb s v) | None => false end.

Definition open_of (telegram_id : Z) (r : Ledger.trade_row) : bool :=
  of_user telegram_id r
  && Ledger.text_is (Ledger.status (Ledger.cols r)) "OPEN".

Definition past_of (telegram_id : Z) (r : Ledger.trade_row) : bool :=
  of_user telegram_id r
  && text_is_not (Ledger.status (Ledger.cols r)) "OPEN".

(** [get_user_open_trades]. *)
Definition get_user_open_trades (telegram_id : Z) (db : state)
  : state * outcome (list Ledger.trade_row) :=
  with_lock
    (fun db =>
       (db, Returned (filter (open_of telegram_id) (Ledger.rows (trades db)))))
    db.

(** [closed_at] of [a] comes strictly before that of [b] in descending
    order; NULL is the smallest value and so comes last. *)
Definition closed_later (a b : Ledger.trade_row) : bool :=
  match Ledger.closed_at (Ledger.cols a), Ledger.closed_at (Ledger.cols b) with
  | Some x, Some y => (y <? x)%Z
  | Some _, None => true
  | None, _ => false
  end.

(** [ORDER BY closed_at DESC]; rows with equal times keep the order of
    the table. *)
Fixpoint place (r : Ledger.trade_row) (sorted : list Ledger.trade_row)
  : list Ledger.trade_row :=
  match sorted with
  | [] => [r]
  | x :: rest => if closed_later x r then x :: place r rest else r :: sorted
  end.

Definition by_closed_at_desc (rs : list Ledger.trade_row)
  : list Ledger.trade_row :=
  fold_right place [] rs.

(** [LIMIT ?]: a negative limit is no limit. *)
Definition limit_to {R : Type} (n : Z) (rs : list R) : list R :=
  if (n <? 0)%Z then rs else firstn (Z.to_nat n) rs.

(** [get_user_trade_history]; the default [limit] is 10. *)
Definition get_user_trade_history (telegram_id : Z) (limit : Z) (db : state)
  : state * outcome (list Ledger.trade_row) :=
  with_lock
    (fun db =>
       (db,
        Returned
          (limit_to limit
             (by_closed_at_desc
                (filter (past_of telegram_id) (Ledger.rows (trades db)))))))
    db.

End Trades.

(** ** Notifications ([src/database.py])

    The three notification methods open a connection of their own and
    do not take [self.lock]. *)

Module Notifications.

Record notification : Type := {
  n_id : Z;
  n_telegram_id : Z;
  n_message : string;
  n_created_at : Ledger.timestamp;
  sent_at : option Ledger.timestamp
}.

(** [add_notification]: INSERT ... RETURNING id. *)
Definition add_notification (now : Ledger.timestamp) (telegram_id : Z)
           (message : string) (t : Ledger.table notification)
  : Ledger.table notification * option Z :=
  let '(t', k) :=
    Ledger.insert n_id
      (fun k => {| n_id := k; n_telegram_id := telegram_id;
                   n_message := message; n_created_at := now;
                   sent_at := None |})
      t in
  (t', Some k).

(** The dictionary [get_pending_notifications] builds for a row. *)
Record pending : Type := {
  p_id : Z;
  p_telegram_id : Z;
  p_message : string;
  p_created_at : Ledger.timestamp
}.

Definition is_pending (n : notification) : bool :=
  match sent_at n with None => true | Some _ => false end.

Definition get_pending_notifications (t : Ledger.table notification)
  : list pending :=
  map (fun n => {| p_id := n_id n; p_telegram_id := n_telegram_id n;
                   p_message := n_message n; p_created_at := n_created_at n |})
      (filter is_pending (Ledger.rows t)).

(** [mark_notification_sent]: UPDATE ... WHERE id = ?. *)
Definition mark_notification_sent (now : Ledger.timestamp)
           (notification_id : Z) (t : Ledger.table notification)
  : Ledger.table notification :=
  Ledger.update (fun n => Z.eqb (n_id n) notification_id)
                (fun n => {| n_id := n_id n; n_telegram_id := n_telegram_id n;
                             n_message := n_message n;
                             n_created_at := n_created_at n;
                             sent_at := Some now |})
                t.

End Notifications.

(** ** New master orders ([src/copy_trader.py]) *)

Module MasterEvents.

Import Database Trades.

(** [str(order_id)]. *)
Definition str (n : Z) : string := NilZero.string_of_int (Z.to_int n).

(** The dictionary [trade_data] that [handle_new_master_order] stores
    (lines 261-274); [leverage] is the leverage of the master's position
    on the symbol, when [get_positions] lists one. *)
Definition new_trade_data (symbol side : string) (quantity price : Q)
           (position_side : string) (order_id : Z) (leverage : option Z)
  : master_trade_data :=
  {| Ledger.m_symbol := Some symbol;
     Ledger.m_order_id := Some (str order_id);
     Ledger.m_position_side :=
       Some (if String.eqb side "BUY"
                && (String.eqb position_side "LONG"
                    || String.eqb position_side "BOTH")
             then "LONG" else "SHORT");
     Ledger.m_entry_price := if gt price 0 then Some price else None;
     Ledger.m_size := Some quantity;
     Ledger.m_leverage := leverage;
     Ledger.m_take_profit := None;
     Ledger.m_stop_loss := None;
     Ledger.m_status := Some "OPEN";
     Ledger.m_pnl := None;
     Ledger.m_pnl_percent := None;
     Ledger.m_created_at := None;
     Ledger.m_closed_at := None |}.

End MasterEvents.

(** ** The REST client of the master ([src/binance_client.py]) *)

Module BinanceClient.

(** [calculate_order_quantity].  [ticker] is the price that
    [get_ticker_price] answers and [exchange_info] the symbols of
    [get_exchange_info], each with its [quantityPrecision] when it has
    one; [None] stands for a request that raises. *)
Definition calculate_order_quantity (ticker : option Q)
           (exchange_info : option (list (string * option nat)))
           (symbol : string) (usdt_amount : Q) : outcome Q :=
  match ticker with
  | None => Raised GatewayError
  | Some current_price =>
      quantity <- truediv usdt_amount current_price ;;
      match exchange_info with
      | None => Raised GatewayError
      | Some symbols =>
          match find (fun i => String.eqb (fst i) symbol) symbols with
          | Some (_, Some quantity_precision) =>
              Returned (round quantity quantity_precision)
          | Some (_, None) => Returned (round quantity 8)
          | None => Returned (round quantity 8)
          end
      end
  end.

End BinanceClient.

(** ** Further scenarios *)

Module Cases.

Import BinanceWebsocketClient CopyTrader.

(** An exchange that takes every order but a LIMIT order. *)
Definition no_limit_orders : exchange :=
  {| futures_position_information := fun _ => Some [];
     futures_create_order := fun _ o => negb (String.eqb (o_type o) "LIMIT");
     futures_cancel_all_open_orders := fun _ _ => true |}.

(** An exchange on which every account holds 0.06 BTCUSDT in one-way
    mode. *)
Definition one_way : exchange :=
  {| futures_position_information :=
       fun _ => Some [{| p_symbol := "BTCUSDT"; positionAmt := 0.06;
                         positionSide := "BOTH" |}];
     futures_create_order := fun _ _ => true;
     futures_cancel_all_open_orders := fun _ _ => true |}.

(** Settings with a negative cap. *)
Definition negative_cap : settings :=
  {| risk_factor := 1; max_position_size := -1;
     take_profit := 0; stop_loss := 0 |}.

(** F1 is registered; the users table lists F1 again with other
    settings, F2 with a key that is too short, and a third user whose
    keys are padded with blanks. *)
Definition registry : follower_clients :=
  [(Scenario.F1, Scenario.f1_settings)].

Definition F3 : Z := 1003%Z.

Definition users : list Registry.active_user :=
  [ {| Registry.u_telegram_id := Scenario.F1;
       Registry.binance_api_key := "AAAAAAAAAAAA";
       Registry.binance_api_secret := "BBBBBBBBBBBB";
       Registry.u_settings := Scenario.f2_settings |};
    {| Registry.u_telegram_id := Scenario.F2;
       Registry.binance_api_key := "short";
       Registry.binance_api_secret := "CCCCCCCCCCCC";
       Registry.u_settings := Scenario.f2_settings |};
    {| Registry.u_telegram_id := F3;
       Registry.binance_api_key := "  DDDDDDDDDDDD ";
       Registry.binance_api_secret := "EEEEEEEEEEEE";
       Registry.u_settings := Scenario.f2_settings |} ].

Definition reachable : string -> string -> bool := fun _ _ => true.

(** A session during which [stop] is called. *)
Definition stopped_session : attempt :=
  {| ending := SessionClosed;
     stopped_in_session := true; stopped_in_pause := false |}.

(** The master buys 1 BTCUSDT at market, in one-way mode, as order 9002. *)
Definition market_buy : Trades.master_trade_data :=
  MasterEvents.new_trade_data "BTCUSDT" "BUY" 1 0 "BOTH" 9002 (Some 10%Z).

(** A master LONG opened at 50000 by a limit order. *)
Definition limit_buy : Trades.master_trade_data :=
  MasterEvents.new_trade_data "BTCUSDT" "BUY" 1 50000 "LONG" 9003 None.

Definition no_trades : Database.state :=
  {| Database.trades := {| Ledger.rows := []; Ledger.seq := 0 |};
     Database.master_trades := {| Ledger.rows := []; Ledger.seq := 0 |};
     Database.audit_log := [];
     Database.lock := false |}.

(** A [close_user_trades] that raises before it writes anything. *)
Definition close_user_trades
  : Z -> Q -> Database.state -> Database.state * outcome unit :=
  fun _ _ db => (db, Raised GatewayError).

(** The database after the market order of [market_buy] was recorded. *)
Definition holding_market_buy : Database.state :=
  fst (Trades.add_master_trade 0%Z market_buy no_trades).

Definition trade_closed_at (telegram_id : Z) (status : option string)
           (closed_at : option Ledger.timestamp) : Ledger.trade_columns :=
  {| Ledger.telegram_id := Some telegram_id; Ledger.symbol := Some "BTCUSDT";
     Ledger.order_id := None; Ledger.position_side := Some "LONG";
     Ledger.entry_price := Some 50000; Ledger.size := Some 0.06;
     Ledger.leverage := None; Ledger.take_profit := None;
     Ledger.stop_loss := None; Ledger.status := status;
     Ledger.pnl := None; Ledger.pnl_percent := None;
     Ledger.created_at := Some 0%Z; Ledger.closed_at := closed_at;
     Ledger.master_trade_id := None |}.

(** F1 with a trade closed at 5, one canceled without closing time, one
    closed at 9, one still open and one without status. *)
Definition past_trades : Database.state :=
  {| Database.trades :=
       {| Ledger.rows :=
            [{| Ledger.id := 1;
                Ledger.cols := trade_closed_at Scenario.F1 (Some "CLOSED")
                                               (Some 5%Z) |};
             {| Ledger.id := 2;
                Ledger.cols := trade_closed_at Scenario.F1 (Some "CANCELED")
                                               None |};
             {| Ledger.id := 3;
                Ledger.cols := trade_closed_at Scenario.F1 (Some "CLOSED")
                                               (Some 9%Z) |};
             {| Ledger.id := 4;
                Ledger.cols := trade_closed_at Scenario.F1 (Some "OPEN")
                                               None |};
             {| Ledger.id := 5;
                Ledger.cols := trade_closed_at Scenario.F1 None None |}];
          Ledger.seq := 5 |};
     Database.master_trades := {| Ledger.rows := []; Ledger.seq := 0 |};
     Database.audit_log := [];
     Database.lock := false |}.

End Cases.

Lemma gt_true (a b : Q) : gt a b = true <-> b < a.
Proof.
  unfold gt. rewrite negb_true_iff.
  split; intro H.
  - apply Qnot_le_lt. intro L. apply Qle_bool_iff in L. congruence.
  - destruct (Qle_bool a b) eqn:E; [|reflexivity].
    apply Qle_bool_iff in E. lra.
Qed.

Lemma gt_false (a b : Q) : gt a b = false <-> a <= b.
Proof.
  unfold gt. rewrite negb_false_iff. apply Qle_bool_iff.
Qed.

Lemma truediv_returns (a b : Q) : ~ b == 0 -> truediv a b = Returned (a / b).
Proof.
  intro N. unfold truediv.
  destruct (feq b 0) eqn:E; [|reflexivity].
  apply Qeq_bool_iff in E. contradiction.
Qed.

Lemma round_half_even_near (x : Q) :
  Qabs (inject_Z (round_half_even x) - x) <= 1 # 2.
Proof.
  unfold round_half_even.
  pose proof (Qfloor_le x) as Hlo.
  pose proof (Qlt_floor x) as Hhi.
  rewrite inject_Z_plus in Hhi.
  apply Qabs_Qle_condition.
  destruct (Qcompare (x - inject_Z (Qfloor x)) (1 # 2)) eqn:C.
  - apply Qeq_alt in C.
    destruct (Z.even (Qfloor x)); [|rewrite inject_Z_plus];
      change (inject_Z 1) with 1 in *;
      generalize dependent (inject_Z (Qfloor x)); intros; split; lra.
  - apply Qlt_alt in C.
    change (inject_Z 1) with 1 in *.
    generalize dependent (inject_Z (Qfloor x)); intros; split; lra.
  - apply Qgt_alt in C. rewrite inject_Z_plus.
    change (inject_Z 1) with 1 in *.
    generalize dependent (inject_Z (Qfloor x)); intros; split; lra.
Qed.

Lemma round3_near (x : Q) : Qabs (round x 3 - x) <= 1 # 2000.
Proof.
  unfold round.
  pose proof (round_half_even_near (x * pow10 3)) as H.
  apply Qabs_Qle_condition in H. apply Qabs_Qle_condition.
  change (pow10 3) with (1000 # 1) in *.
  set (k := inject_Z (round_half_even (x * (1000 # 1)))) in *.
  assert (E : k / (1000 # 1) == k * (1 # 1000)) by (field).
  rewrite E. split; lra.
Qed.

Lemma round3_abs (x : Q) : Qabs (round x 3) <= Qabs x + (1 # 2000).
Proof.
  pose proof (round3_near x) as H.
  pose proof (Qabs_triangle_reverse (round x 3) x) as T.
  lra.
Qed.

(** * The sizing of a follower's copy *)

Section Sizing.

Import CopyTrader.

Variables (master_amount entry_price : Q) (s : settings).
Hypothesis price_positive : 0 < entry_price.
Hypothesis cap_positive : 0 < max_position_size s.

(** The capped amount before rounding has a notional within the cap. *)
Lemma capped_notional :
  Qabs ((max_position_size s / entry_price)
        * (if gt (master_amount * risk_factor s) 0 then 1 else - (1)))
  * entry_price == max_position_size s.
Proof using price_positive cap_positive.
  assert (P : 0 < max_position_size s / entry_price).
  { apply Qlt_shift_div_l; lra. }
  destruct (gt _ 0).
  - rewrite Qmult_1_r, Qabs_pos by lra. field. lra.
  - setoid_replace (max_position_size s / entry_price * - (1))
      with (- (max_position_size s / entry_price)) by ring.
    rewrite Qabs_opp, Qabs_pos by lra. field. lra.
Qed.

End Sizing.

(** C2.  For a follower with a positive risk factor and a positive cap and
    a master position with a positive entry price, the sizing returns a
    quantity whose notional [abs(quantity) * entry_price] exceeds the cap
    by no more than what rounding to three decimals can add: half a unit
    of the last digit, 0.0005, times the entry price. *)
Theorem scaling_bound
        (master_amount entry_price : Q) (s : CopyTrader.settings) :
  0 < CopyTrader.risk_factor s ->
  0 < CopyTrader.max_position_size s ->
  0 < entry_price ->
  exists quantity,
    CopyTrader.follower_amount master_amount entry_price s = Returned quantity
    /\ Qabs quantity * entry_price
       <= CopyTrader.max_position_size s + (1 # 2000) * entry_price.
Proof.
  intros _ Hcap Hprice.
  unfold CopyTrader.follower_amount.
  set (amount := master_amount * CopyTrader.risk_factor s).
  destruct (gt (Qabs (amount * entry_price)) (CopyTrader.max_position_size s))
    eqn:Over.
  - rewrite truediv_returns by lra. cbn [bind].
    eexists. split; [reflexivity|].
    pose proof (capped_notional master_amount entry_price s Hprice Hcap) as N.
    fold amount in N.
    set (capped := CopyTrader.max_position_size s / entry_price
                   * (if gt amount 0 then 1 else - (1))) in *.
    pose proof (round3_abs capped) as R.
    assert (Qabs (round capped 3) * entry_price
            <= (Qabs capped + (1 # 2000)) * entry_price) as M.
    { apply Qmult_le_compat_r; lra. }
    lra.
  - apply gt_false in Over.
    eexists. split; [reflexivity|].
    rewrite Qabs_Qmult, (Qabs_pos entry_price) in Over by lra.
    pose proof (round3_abs amount) as R.
    assert (Qabs (round amount 3) * entry_price
            <= (Qabs amount + (1 # 2000)) * entry_price) as M.
    { apply Qmult_le_compat_r; lra. }
    lra.
Qed.

Lemma scaling_bound_witness :
  0 < CopyTrader.risk_factor Scenario.f1_settings
  /\ 0 < CopyTrader.max_position_size Scenario.f1_settings
  /\ 0 < 50000
  /\ exists quantity,
      CopyTrader.follower_amount 1 50000 Scenario.f1_settings
      = Returned quantity
      /\ Qabs quantity * 50000 <= 3000 + (1 # 2000) * 50000.
Proof.
  repeat (split; [reflexivity|]).
  apply (scaling_bound 1 50000 Scenario.f1_settings); reflexivity.
Defined.

(** * Opening a copy for one follower *)

Section OpenOne.

Import BinanceWebsocketClient CopyTrader Observe.

Variables (db : store) (now : Ledger.timestamp)
          (symbol position_side : string)
          (entry_price : Q) (telegram_id : Z) (s : settings).

(** What the [try] block does to any world, for two exchanges that
    answer this follower alike: the MARKET order goes out first; the
    row is written when it is accepted; the protective orders follow;
    the requests, the decision to write and the outcome do not depend
    on the world the block starts from. *)
Lemma place_and_record_effect_at (amount : Q) (ex1 ex2 : exchange) :
  let market := opening_order symbol position_side amount in
  (forall o, futures_create_order ex1 telegram_id o
             = futures_create_order ex2 telegram_id o) ->
  exists (rest : list order) (r : outcome unit),
    Forall (fun o => o_type o <> "MARKET") rest
    /\ (r = Returned tt \/ r = Raised GatewayError)
    /\ (futures_create_order ex1 telegram_id market = false
        -> rest = [] /\ r = Raised GatewayError)
    /\ forall ex w,
        ex = ex1 \/ ex = ex2 ->
        place_and_record ex db now symbol position_side entry_price
                         telegram_id s amount w
        = ({| ledger :=
                if futures_create_order ex1 telegram_id market
                then with_open_row db now telegram_id symbol position_side
                                   entry_price amount (ledger w)
                else ledger w;
              sent := sent w ++ map (pair telegram_id) (market :: rest) |},
           r).
Proof.
  intros market agree.
  pose (long := String.eqb position_side "LONG").
  pose (limit :=
          {| o_symbol := symbol; o_side := opposite position_side;
             o_type := "LIMIT"; o_quantity := Qabs amount;
             o_price := Some (if long
                              then entry_price * (1 + take_profit s / 100)
                              else entry_price * (1 - take_profit s / 100));
             o_stopPrice := None; o_timeInForce := TIME_IN_FORCE_GTC |}).
  pose (stop :=
          {| o_symbol := symbol; o_side := opposite position_side;
             o_type := "STOP_MARKET"; o_quantity := Qabs amount;
             o_price := None;
             o_stopPrice := Some (if long
                                  then entry_price * (1 - stop_loss s / 100)
                                  else entry_price * (1 + stop_loss s / 100));
             o_timeInForce := TIME_IN_FORCE_GTC |}).
  pose (sl := if gt (stop_loss s) 0
              then ([stop], if futures_create_order ex1 telegram_id stop
                            then Returned tt else Raised GatewayError)
              else ([], Returned tt)).
  pose (tp := if gt (take_profit s) 0
              then if futures_create_order ex1 telegram_id limit
                   then (limit :: fst sl, snd sl)
                   else ([limit], Raised GatewayError)
              else sl).
  pose (all := if futures_create_order ex1 telegram_id market
               then tp else ([], Raised GatewayError)).
  exists (fst all), (snd all).
  assert (run : forall ex w,
             (forall o, futures_create_order ex telegram_id o
                        = futures_create_order ex1 telegram_id o) ->
             place_and_record ex db now symbol position_side entry_price
                              telegram_id s amount w
             = ({| ledger :=
                     if futures_create_order ex1 telegram_id market
                     then with_open_row db now telegram_id symbol position_side
                                        entry_price amount (ledger w)
                     else ledger w;
                   sent := sent w ++ map (pair telegram_id) (market :: fst all) |},
                snd all)).
  { intros ex w same.
    unfold place_and_record, place_order, with_open_row, _save_trade.
    rewrite !same.
    subst all tp sl limit stop long market. unfold opening_order.
    destruct (insert_into_trades db telegram_id symbol);
    repeat match goal with
           | |- context [futures_create_order ex1 telegram_id ?o] =>
               destruct (futures_create_order ex1 telegram_id o)
           end;
      destruct (gt (take_profit s) 0), (gt (stop_loss s) 0);
      cbn; rewrite <- ?app_assoc; reflexivity. }
  split; [|split; [|split]].
  - subst all tp sl.
    destruct (futures_create_order ex1 telegram_id market),
      (gt (take_profit s) 0), (gt (stop_loss s) 0),
      (futures_create_order ex1 telegram_id limit); cbn;
      repeat constructor; discriminate.
  - subst all tp sl.
    destruct (futures_create_order ex1 telegram_id market),
      (gt (take_profit s) 0), (gt (stop_loss s) 0),
      (futures_create_order ex1 telegram_id limit),
      (futures_create_order ex1 telegram_id stop); cbn; auto.
  - intro refused. subst all. rewrite refused. split; reflexivity.
  - intros ex w [-> | ->]; apply run; [reflexivity|].
    intro o. symmetry. apply agree.
Qed.

(** One turn of the loop of [_copy_position_open], in the same terms.
    Whether the sizing raises is settled by the event and the
    follower's settings alone. *)
Lemma copy_open_to_effect (master_amount : Q) (ex1 ex2 : exchange) :
  (forall o, futures_create_order ex1 telegram_id o
             = futures_create_order ex2 telegram_id o) ->
  (exists e,
      follower_amount master_amount entry_price s = Raised e
      /\ forall ex w,
          copy_open_to ex db now symbol position_side master_amount
                       entry_price (telegram_id, s) w = (w, Raised e))
  \/ (exists (quantity : Q) (rest : list order),
         follower_amount master_amount entry_price s = Returned quantity
         /\ Forall (fun o => o_type o <> "MARKET") rest
         /\ (futures_create_order ex1 telegram_id
                (opening_order symbol position_side quantity) = false
             -> rest = [])
         /\ forall ex w,
             ex = ex1 \/ ex = ex2 ->
             copy_open_to ex db now symbol position_side master_amount
                          entry_price (telegram_id, s) w
             = ({| ledger :=
                     if futures_create_order ex1 telegram_id
                          (opening_order symbol position_side quantity)
                     then with_open_row db now telegram_id symbol
                                        position_side entry_price quantity
                                        (ledger w)
                     else ledger w;
                   sent := sent w ++
                           map (pair telegram_id)
                               (opening_order symbol position_side quantity
                                :: rest) |},
                Returned tt)).
Proof.
  intro agree.
  unfold copy_open_to.
  destruct (follower_amount master_amount entry_price s) as [q | e |] eqn:F.
  - right.
    destruct (place_and_record_effect_at q ex1 ex2 agree)
      as (rest & r & Hrest & Hr & Hrefused & Hrun).
    exists q, rest. repeat split; auto.
    + intro refused. apply Hrefused. exact refused.
    + intros ex w Hex. rewrite (Hrun ex w Hex).
      destruct Hr as [-> | ->]; reflexivity.
  - left. exists e. split; [reflexivity|]. reflexivity.
  - exfalso. unfold follower_amount, truediv in F.
    destruct (gt _ (max_position_size s)), (feq entry_price 0);
      discriminate.
Qed.

End OpenOne.

(** The loop of [_copy_position_open] over a single follower. *)
Lemma open_single (ex : BinanceWebsocketClient.exchange)
      (db : CopyTrader.store)
      (now : Ledger.timestamp) (symbol position_side : string)
      (master_amount entry_price : Q) (follower : Z * CopyTrader.settings)
      (w w' : CopyTrader.world) :
  CopyTrader.copy_open_to ex db now symbol position_side master_amount
                          entry_price follower w = (w', Returned tt) ->
  CopyTrader._copy_position_open ex db now [follower] symbol position_side
                                 master_amount entry_price w
  = (w', Returned tt).
Proof.
  intro H. unfold CopyTrader._copy_position_open. simpl. rewrite H. reflexivity.
Qed.

Lemma protective_orders_not_market (side : string) (account : Z)
      (rest : list BinanceWebsocketClient.order) :
  Forall (fun o => BinanceWebsocketClient.o_type o <> "MARKET") rest ->
  filter (Observe.is_market side) (map (pair account) rest) = [].
Proof.
  induction 1 as [|o rest Ho _ IH]; [reflexivity|].
  simpl. unfold Observe.is_market at 1. simpl.
  destruct (String.eqb_spec (BinanceWebsocketClient.o_type o) "MARKET");
    [contradiction|]. exact IH.
Qed.

(** C5, as the code has it.  The master account reports a position of
    1.0 BTCUSDT entered at 50000, a LONG; the only follower has risk
    factor 0.1 and cap 3000, whatever its take-profit and stop-loss.  If
    the exchange accepts the follower's MARKET orders, exactly one BUY
    MARKET order goes out, with quantity 0.060.  If moreover the INSERT
    of [_save_trade] goes through, exactly one row is added to the
    ledger: OPEN, entry price 50000, and size 3000, the USDT notional
    [abs(quantity) * entry_price] that [_copy_position_open] passes to
    [_save_trade]; if the INSERT raises, the order has gone out all the
    same and the ledger is left as it was. *)
Theorem scenario_open_size_is_notional
        (ex : BinanceWebsocketClient.exchange) (db : CopyTrader.store)
        (now : Ledger.timestamp)
        (follower : Z) (tp sl : Q) (w : CopyTrader.world) :
  (forall o, BinanceWebsocketClient.o_type o = "MARKET" ->
             BinanceWebsocketClient.futures_create_order ex follower o = true) ->
  let s := {| CopyTrader.risk_factor := 0.1;
              CopyTrader.max_position_size := 3000;
              CopyTrader.take_profit := tp;
              CopyTrader.stop_loss := sl |} in
  exists w' new o,
    CopyTrader._on_master_position_update
      ex db now [(follower, s)]
      [{| CopyTrader.s := "BTCUSDT"; CopyTrader.pa := 1;
          CopyTrader.ep := 50000 |}] w
    = (w', Returned tt)
    /\ CopyTrader.sent w' = CopyTrader.sent w ++ new
    /\ filter (Observe.is_market "BUY") new = [(follower, o)]
    /\ BinanceWebsocketClient.o_symbol o = "BTCUSDT"
    /\ BinanceWebsocketClient.o_quantity o == 0.060
    /\ (CopyTrader.insert_into_trades db follower "BTCUSDT" = true ->
        exists r sz,
          Ledger.rows (CopyTrader.ledger w')
          = Ledger.rows (CopyTrader.ledger w) ++ [r]
          /\ Ledger.telegram_id (Ledger.cols r) = Some follower
          /\ Ledger.status (Ledger.cols r) = Some "OPEN"
          /\ Ledger.entry_price (Ledger.cols r) = Some 50000
          /\ Ledger.size (Ledger.cols r) = Some sz
          /\ sz == 3000)
    /\ (CopyTrader.insert_into_trades db follower "BTCUSDT" = false ->
        CopyTrader.ledger w' = CopyTrader.ledger w).
Proof.
  intros accepts s.
  destruct (copy_open_to_effect db now "BTCUSDT" "LONG" 50000 follower s 1
                                ex ex)
    as [(e & F & _) | (q & rest & F & Hrest & _ & Hrun)];
    [reflexivity | discriminate F |].
  assert (Hq : q == 0.060).
  { vm_compute in F. injection F as <-. reflexivity. }
  specialize (Hrun ex w (or_introl eq_refl)).
  rewrite accepts in Hrun by reflexivity.
  eexists _, _, _.
  split.
  { unfold CopyTrader._on_master_position_update. cbn [for_each].
    change (CopyTrader.on_position _ db _ _ _ w)
      with (CopyTrader._copy_position_open ex db now [(follower, s)]
                                           "BTCUSDT" "LONG" 1 50000 w).
    rewrite (open_single _ _ _ _ _ _ _ _ _ _ Hrun). reflexivity. }
  cbn [CopyTrader.sent CopyTrader.ledger].
  split; [reflexivity|].
  split.
  { cbn [map filter]. unfold Observe.is_market at 1. cbn.
    rewrite protective_orders_not_market by exact Hrest. reflexivity. }
  split; [reflexivity|].
  split.
  { cbn. rewrite Hq. reflexivity. }
  unfold Observe.with_open_row, CopyTrader._save_trade.
  split; intro Hins; rewrite Hins; [|reflexivity].
  eexists _, _.
  split; [reflexivity|].
  repeat (split; [reflexivity|]).
  cbn. rewrite Hq. reflexivity.
Qed.

Lemma scenario_open_size_is_notional_witness :
  (forall o, BinanceWebsocketClient.o_type o = "MARKET" ->
             BinanceWebsocketClient.futures_create_order
               Scenario.accepting Scenario.F1 o = true)
  /\ CopyTrader.insert_into_trades Scenario.working Scenario.F1 "BTCUSDT"
     = true
  /\ exists w' new o r sz,
      Scenario.after_open = (w', Returned tt)
      /\ CopyTrader.sent w' = CopyTrader.sent Scenario.fresh ++ new
      /\ filter (Observe.is_market "BUY") new = [(Scenario.F1, o)]
      /\ BinanceWebsocketClient.o_symbol o = "BTCUSDT"
      /\ BinanceWebsocketClient.o_quantity o == 0.060
      /\ Ledger.rows (CopyTrader.ledger w')
         = Ledger.rows (CopyTrader.ledger Scenario.fresh) ++ [r]
      /\ Ledger.telegram_id (Ledger.cols r) = Some Scenario.F1
      /\ Ledger.status (Ledger.cols r) = Some "OPEN"
      /\ Ledger.entry_price (Ledger.cols r) = Some 50000
      /\ Ledger.size (Ledger.cols r) = Some sz
      /\ sz == 3000.
Proof.
  split; [reflexivity|]. split; [reflexivity|].
  destruct (scenario_open_size_is_notional
              Scenario.accepting Scenario.working 0%Z Scenario.F1 0 0
              Scenario.fresh)
    as (w' & new & o & Hrun & Hsent & Hmarket & Hsymbol & Hq & Hrow & _);
    [reflexivity|].
  destruct (Hrow eq_refl) as (r & sz & Hrows & Hid & Hstatus & Hentry
                              & Hsize & Hsz).
  exists w', new, o, r, sz.
  repeat (split; [assumption|]). exact Hsz.
Defined.

(** C5 as stated fails on the scenario itself: the one row written for
    F1 does not have size 0.060. *)
Lemma scenario_open_size_is_not_quantity :
  ~ (exists o r sz,
        filter (Observe.is_market "BUY")
               (CopyTrader.sent (fst Scenario.after_open))
        = [(Scenario.F1, o)]
        /\ BinanceWebsocketClient.o_quantity o == 0.060
        /\ Ledger.rows (CopyTrader.ledger (fst Scenario.after_open)) = [r]
        /\ Ledger.status (Ledger.cols r) = Some "OPEN"
        /\ Ledger.entry_price (Ledger.cols r) = Some 50000
        /\ Ledger.size (Ledger.cols r) = Some sz
        /\ sz == 0.060).
Proof.
  intros (o & r & sz & _ & _ & Hrows & _ & _ & Hsize & Hsz).
  vm_compute in Hrows. injection Hrows as <-.
  cbn in Hsize. injection Hsize as <-.
  discriminate Hsz.
Qed.

(** The row [_save_trade] adds for an opened copy: the same columns
    whatever the table, under the table's next key; no row when the
    INSERT raises. *)
Lemma with_open_row_rows (db : CopyTrader.store) (now : Ledger.timestamp)
      (telegram_id : Z)
      (symbol position_side : string) (entry_price amount : Q) :
  exists c,
    Ledger.telegram_id c = Some telegram_id
    /\ Ledger.status c = Some "OPEN"
    /\ Ledger.entry_price c = Some entry_price
    /\ Ledger.size c = Some (Qabs amount * entry_price)
    /\ forall t,
        Ledger.rows (Observe.with_open_row db now telegram_id symbol
                                           position_side entry_price amount t)
        = Ledger.rows t
          ++ (if CopyTrader.insert_into_trades db telegram_id symbol
              then [{| Ledger.id := Ledger.next_id Ledger.id t;
                       Ledger.cols := c |}]
              else []).
Proof.
  eexists.
  split; [|split; [|split; [|split]]].
  5: { intro t. unfold Observe.with_open_row, CopyTrader._save_trade.
       destruct (CopyTrader.insert_into_trades db telegram_id symbol);
         cbn; [reflexivity | symmetry; apply app_nil_r]. }
  all: reflexivity.
Qed.







(** * The fan-out over the followers *)

Section FanOut.

Import BinanceWebsocketClient CopyTrader Observe.

Variables (db : store) (now : Ledger.timestamp)
          (symbol position_side : string)
          (master_amount entry_price : Q).

(** Every row the loop of [_copy_position_open] adds is an OPEN row. *)
Lemma open_loop_rows (ex : exchange) (followers : follower_clients) :
  forall w,
  exists added,
    Ledger.rows (ledger (fst (_copy_position_open ex db now followers symbol
                                                  position_side master_amount
                                                  entry_price w)))
    = Ledger.rows (ledger w) ++ added
    /\ Forall (fun r => Ledger.status (Ledger.cols r) = Some "OPEN") added.
Proof.
  unfold _copy_position_open.
  induction followers as [|[f s] rest IH]; intro w; cbn [for_each].
  - exists []. cbn. rewrite app_nil_r. auto.
  - destruct (copy_open_to_effect db now symbol position_side entry_price f s
                                  master_amount ex ex)
      as [(e & _ & Hrun) | (q & more & _ & _ & _ & Hrun)]; [reflexivity | |].
    + rewrite Hrun. cbn. exists []. rewrite app_nil_r. auto.
    + rewrite (Hrun ex w (or_introl eq_refl)).
      match goal with
      | |- context [for_each _ rest ?w1] => destruct (IH w1) as (added & E & A)
      end.
      rewrite E. cbn [ledger].
      destruct (futures_create_order ex f (opening_order symbol position_side q)).
      * destruct (with_open_row_rows db now f symbol position_side entry_price q)
          as (c & _ & Hstatus & _ & _ & Hrows).
        rewrite Hrows, <- app_assoc.
        eexists. split; [reflexivity|].
        destruct (insert_into_trades db f symbol); [|exact A].
        constructor; [exact Hstatus | exact A].
      * exists added. auto.
Qed.

Lemma requests_of_own (b : Z) (os : list order) :
  requests_of b (map (pair b) os) = map (pair b) os.
Proof.
  unfold requests_of.
  induction os as [|o os IH]; [reflexivity|].
  simpl. rewrite Z.eqb_refl, IH. reflexivity.
Qed.

Lemma requests_of_other (b f : Z) (os : list order) :
  f <> b -> requests_of b (map (pair f) os) = [].
Proof.
  intro N. unfold requests_of.
  induction os as [|o os IH]; [reflexivity|].
  simpl. destruct (Z.eqb_spec f b); [contradiction | exact IH].
Qed.

Lemma requests_of_app (b : Z) (s1 s2 : wire) :
  requests_of b (s1 ++ s2) = requests_of b s1 ++ requests_of b s2.
Proof.
  apply filter_app.
Qed.

(** The records of [b] after a copy was opened for [f]. *)
Lemma records_of_open_row (b f : Z) (q : Q) :
  exists c,
    forall t,
      records_of b (with_open_row db now f symbol position_side entry_price q t)
      = records_of b t
        ++ (if Z.eqb f b
            then if insert_into_trades db f symbol then [c] else []
            else []).
Proof.
  destruct (with_open_row_rows db now f symbol position_side entry_price q)
    as (c & Htid & _ & _ & _ & Hrows).
  exists c. intro t.
  unfold records_of. rewrite Hrows, filter_app, map_app.
  f_equal.
  destruct (insert_into_trades db f symbol);
    [|destruct (Z.eqb f b); reflexivity].
  cbn [filter]. unfold Database.of_user at 1. cbn [Ledger.cols].
  rewrite Htid. cbn [Ledger.int_is].
  destruct (Z.eqb f b); reflexivity.
Qed.

(** Two runs of the loop, against exchanges that answer follower [b]
    alike, from worlds that look alike to [b]: they still look alike to
    [b] afterwards, and the loop ends the same way. *)
Lemma open_loop_isolated (b : Z) (ex1 ex2 : exchange)
      (followers : follower_clients) :
  (forall o, futures_create_order ex1 b o = futures_create_order ex2 b o) ->
  forall w1 w2,
    requests_of b (sent w1) = requests_of b (sent w2) ->
    records_of b (ledger w1) = records_of b (ledger w2) ->
    let r1 := _copy_position_open ex1 db now followers symbol position_side
                                  master_amount entry_price w1 in
    let r2 := _copy_position_open ex2 db now followers symbol position_side
                                  master_amount entry_price w2 in
    requests_of b (sent (fst r1)) = requests_of b (sent (fst r2))
    /\ records_of b (ledger (fst r1)) = records_of b (ledger (fst r2))
    /\ snd r1 = snd r2.
Proof.
  intro agree.
  unfold _copy_position_open.
  induction followers as [|[f s] rest IH]; intros w1 w2 Hsent Hrows;
    cbn [for_each].
  - cbn. auto.
  - destruct (Z.eq_dec f b) as [-> | N].
    + destruct (copy_open_to_effect db now symbol position_side entry_price b s
                                    master_amount ex1 ex2 agree)
        as [(e & _ & Hrun) | (q & more & _ & _ & _ & Hrun)].
      * rewrite !Hrun. cbn. auto.
      * rewrite (Hrun ex1 w1 (or_introl eq_refl)),
                (Hrun ex2 w2 (or_intror eq_refl)).
        apply IH; cbn [sent ledger].
        -- rewrite !requests_of_app, Hsent. reflexivity.
        -- destruct (futures_create_order ex1 b _); [|exact Hrows].
           destruct (records_of_open_row b b q) as (c & Hc).
           rewrite !Hc, Hrows. reflexivity.
    + destruct (copy_open_to_effect db now symbol position_side entry_price f s
                                    master_amount ex1 ex1)
        as [(e1 & F1 & Hrun1) | (q1 & more1 & F1 & _ & _ & Hrun1)];
        [reflexivity | |];
        destruct (copy_open_to_effect db now symbol position_side entry_price f s
                                      master_amount ex2 ex2)
        as [(e2 & F2 & Hrun2) | (q2 & more2 & F2 & _ & _ & Hrun2)];
        try reflexivity; try congruence.
      * rewrite Hrun1, Hrun2. cbn.
        repeat split; auto. congruence.
      * rewrite (Hrun1 ex1 w1 (or_introl eq_refl)),
                (Hrun2 ex2 w2 (or_introl eq_refl)).
        apply IH; cbn [sent ledger].
        -- rewrite !requests_of_app, !requests_of_other, !app_nil_r by exact N.
           exact Hsent.
        -- assert (q1 = q2) as -> by congruence.
           destruct (records_of_open_row b f q2) as (c & Hc).
           apply Z.eqb_neq in N.
           destruct (futures_create_order ex1 f _),
             (futures_create_order ex2 f _);
             rewrite ?Hc, ?N, ?app_nil_r; exact Hrows.
Qed.

End FanOut.

(** C7.  In the fan-out of a master open event, what one follower's
    exchange answers has no bearing on another follower: two runs of
    [_copy_position_open] from the same state and on the same database,
    against exchanges that differ in any way except in what they answer
    follower [b], send the same order requests for [b], in the same
    order, and write the same records for [b]; and the loop ends the same
    way.  (Records are compared without their AUTOINCREMENT key, which
    counts the rows of every follower.) *)
Theorem open_fanout_isolation
        (ex1 ex2 : BinanceWebsocketClient.exchange) (db : CopyTrader.store)
        (now : Ledger.timestamp)
        (followers : CopyTrader.follower_clients)
        (symbol position_side : string) (master_amount entry_price : Q)
        (w : CopyTrader.world) (b : Z) :
  (forall o, BinanceWebsocketClient.futures_create_order ex1 b o
             = BinanceWebsocketClient.futures_create_order ex2 b o) ->
  let r1 := CopyTrader._copy_position_open ex1 db now followers symbol
                                           position_side master_amount
                                           entry_price w in
  let r2 := CopyTrader._copy_position_open ex2 db now followers symbol
                                           position_side master_amount
                                           entry_price w in
  Observe.requests_of b (CopyTrader.sent (fst r1))
  = Observe.requests_of b (CopyTrader.sent (fst r2))
  /\ Observe.records_of b (CopyTrader.ledger (fst r1))
     = Observe.records_of b (CopyTrader.ledger (fst r2))
  /\ snd r1 = snd r2.
Proof.
  intro agree.
  apply open_loop_isolated; auto.
Qed.

Lemma open_fanout_isolation_witness :
  let followers := [(Scenario.F1, Scenario.f1_settings);
                    (Scenario.F2, Scenario.f2_settings)] in
  let r1 := CopyTrader._copy_position_open
              Scenario.refusing_F1 Scenario.working 0%Z followers
              "BTCUSDT" "LONG" 1 50000
              Scenario.fresh in
  let r2 := CopyTrader._copy_position_open
              Scenario.accepting Scenario.working 0%Z followers
              "BTCUSDT" "LONG" 1 50000
              Scenario.fresh in
  (forall o, BinanceWebsocketClient.futures_create_order
               Scenario.refusing_F1 Scenario.F2 o
             = BinanceWebsocketClient.futures_create_order
                 Scenario.accepting Scenario.F2 o)
  /\ Observe.records_of Scenario.F1 (CopyTrader.ledger (fst r1)) = []
  /\ List.length (Observe.records_of Scenario.F1 (CopyTrader.ledger (fst r2)))
     = 1%nat
  /\ List.length (Observe.requests_of Scenario.F2 (CopyTrader.sent (fst r2)))
     = 3%nat
  /\ List.length (Observe.records_of Scenario.F2 (CopyTrader.ledger (fst r2)))
     = 1%nat
  /\ Observe.requests_of Scenario.F2 (CopyTrader.sent (fst r1))
     = Observe.requests_of Scenario.F2 (CopyTrader.sent (fst r2))
  /\ Observe.records_of Scenario.F2 (CopyTrader.ledger (fst r1))
     = Observe.records_of Scenario.F2 (CopyTrader.ledger (fst r2))
  /\ snd r1 = snd r2.
Proof.
  intros followers r1 r2.
  repeat (split; [reflexivity|]).
  apply (open_fanout_isolation
           Scenario.refusing_F1 Scenario.accepting Scenario.working 0%Z
           followers
           "BTCUSDT" "LONG" 1 50000 Scenario.fresh Scenario.F2).
  reflexivity.
Defined.

(** C8, as the code has it.  The open path never marks a trade FAILED:
    every row [_copy_position_open] adds to the ledger has status OPEN;
    and when the exchange refuses a follower's MARKET order, that
    follower's turn only logs the error: it sends nothing more, leaves
    the ledger as it was and lets the loop go on. *)
Theorem failed_dispatch_is_only_logged
        (ex : BinanceWebsocketClient.exchange) (db : CopyTrader.store)
        (now : Ledger.timestamp)
        (symbol position_side : string) (master_amount entry_price : Q) :
  (forall followers w,
      exists added,
        Ledger.rows
          (CopyTrader.ledger
             (fst (CopyTrader._copy_position_open
                     ex db now followers symbol position_side master_amount
                     entry_price w)))
        = Ledger.rows (CopyTrader.ledger w) ++ added
        /\ Forall (fun r => Ledger.status (Ledger.cols r) = Some "OPEN") added)
  /\ (forall follower s quantity w,
         CopyTrader.follower_amount master_amount entry_price s
         = Returned quantity ->
         BinanceWebsocketClient.futures_create_order
           ex follower (Observe.opening_order symbol position_side quantity)
         = false ->
         CopyTrader.copy_open_to ex db now symbol position_side master_amount
                                 entry_price (follower, s) w
         = ({| CopyTrader.ledger := CopyTrader.ledger w;
               CopyTrader.sent :=
                 CopyTrader.sent w
                 ++ [(follower,
                      Observe.opening_order symbol position_side quantity)] |},
            Returned tt)).
Proof.
  split.
  - intros followers w. apply open_loop_rows.
  - intros follower s quantity w F refused.
    destruct (copy_open_to_effect db now symbol position_side entry_price follower
                                  s master_amount ex ex)
      as [(e & F' & _) | (q & rest & F' & _ & Hrest & Hrun)];
      [reflexivity | congruence |].
    assert (q = quantity) as -> by congruence.
    rewrite (Hrun ex w (or_introl eq_refl)), refused, (Hrest refused).
    reflexivity.
Qed.

Lemma failed_dispatch_is_only_logged_witness :
  Scenario.after_refused_open
  = ({| CopyTrader.ledger := CopyTrader.ledger Scenario.fresh;
        CopyTrader.sent :=
          [(Scenario.F1, Observe.opening_order "BTCUSDT" "LONG" 0.060)] |},
     Returned tt).
Proof.
  apply open_single.
  apply (proj2 (failed_dispatch_is_only_logged
                  Scenario.refusing Scenario.working 0%Z
                  "BTCUSDT" "LONG" 1 50000)
               Scenario.F1 Scenario.f1_settings 0.060 Scenario.fresh);
    reflexivity.
Defined.

(** C8 as stated fails: the exchange refuses F1's order, and the ledger
    holds no trade of F1 at all afterwards, FAILED or otherwise. *)
Lemma refused_open_leaves_no_failed_row :
  BinanceWebsocketClient.futures_create_order
    Scenario.refusing Scenario.F1
    (Observe.opening_order "BTCUSDT" "LONG" 0.060) = false
  /\ ~ (exists r,
          In r (Ledger.rows (CopyTrader.ledger (fst Scenario.after_refused_open)))
          /\ Ledger.telegram_id (Ledger.cols r) = Some Scenario.F1
          /\ Ledger.status (Ledger.cols r) = Some "FAILED").
Proof.
  split; [reflexivity|].
  intros (r & Hin & _). vm_compute in Hin. exact Hin.
Qed.

(** * Closing the copies *)

Section Closing.

Import BinanceWebsocketClient CopyTrader Observe.

Variables (db : store) (symbol : string).

Lemma update_nothing {R : Type} (where_ : R -> bool) (set : R -> R)
      (t : Ledger.table R) :
  Forall (fun r => where_ r = false) (Ledger.rows t) ->
  Ledger.update where_ set t = t.
Proof.
  destruct t as [rows seq]. unfold Ledger.update. cbn.
  intro H. f_equal.
  induction H as [|r rows Hr _ IH]; [reflexivity|].
  cbn. rewrite Hr, IH. reflexivity.
Qed.

(** [_update_trade_status] leaves the wire as it is. *)
Lemma update_trade_status_world (now : Ledger.timestamp) (f : Z)
      (w : world) :
  _update_trade_status db now f symbol "CLOSED" None None w
  = {| ledger := close_rows db now f symbol (ledger w); sent := sent w |}.
Proof.
  unfold close_rows, _update_trade_status.
  destruct w as [l snt], (update_trades db f symbol); reflexivity.
Qed.

(** The ledger after [_update_trade_status], whatever the wire. *)
Lemma ledger_after_update (now : Ledger.timestamp) (f : Z) (w : world) :
  ledger (_update_trade_status db now f symbol "CLOSED" None None w)
  = close_rows db now f symbol (ledger w).
Proof.
  unfold close_rows, _update_trade_status.
  destruct (update_trades db f symbol); reflexivity.
Qed.

Lemma sent_after_update (now : Ledger.timestamp) (f : Z) (w : world) :
  sent (_update_trade_status db now f symbol "CLOSED" None None w) = sent w.
Proof.
  unfold _update_trade_status.
  destruct (update_trades db f symbol); reflexivity.
Qed.

(** An UPDATE that raises changes nothing. *)
Lemma close_rows_failed (now : Ledger.timestamp) (f : Z)
      (t : Ledger.table Ledger.trade_row) :
  update_trades db f symbol = false -> close_rows db now f symbol t = t.
Proof.
  intro H. unfold close_rows, _update_trade_status. rewrite H. reflexivity.
Qed.

(** After an UPDATE that went through no OPEN trade of the follower is
    left. *)
Lemma close_rows_none_open (now : Ledger.timestamp) (f : Z)
      (t : Ledger.table Ledger.trade_row) :
  update_trades db f symbol = true ->
  none_open f symbol (close_rows db now f symbol t).
Proof.
  intro H.
  unfold none_open, close_rows, _update_trade_status, Ledger.update.
  rewrite H. cbn.
  apply Forall_forall. intros r' Hin.
  apply in_map_iff in Hin. destruct Hin as (r & <- & _).
  destruct (open_trade_of f symbol r) eqn:E; [|exact E].
  unfold open_trade_of. cbn. apply andb_false_r.
Qed.

(** The UPDATE opens nothing: trades closed for one follower and one
    symbol stay so while those of another are closed. *)
Lemma close_rows_keeps_none_open (now : Ledger.timestamp) (f g : Z)
      (symbol' : string) (t : Ledger.table Ledger.trade_row) :
  none_open g symbol' t ->
  none_open g symbol' (close_rows db now f symbol t).
Proof.
  unfold none_open, close_rows, _update_trade_status, Ledger.update.
  destruct (update_trades db f symbol); [|auto]. cbn.
  intro H. apply Forall_forall. intros r' Hin.
  apply in_map_iff in Hin. destruct Hin as (r & <- & Hr).
  rewrite Forall_forall in H. specialize (H r Hr).
  destruct (open_trade_of f symbol r); [|exact H].
  unfold open_trade_of. cbn. apply andb_false_r.
Qed.

Lemma close_rows_nothing (now : Ledger.timestamp) (f : Z)
      (t : Ledger.table Ledger.trade_row) :
  none_open f symbol t -> close_rows db now f symbol t = t.
Proof.
  intro H. unfold close_rows, _update_trade_status.
  destruct (update_trades db f symbol); [|reflexivity]. cbn.
  apply update_nothing. exact H.
Qed.

(** A row that is not OPEN is out of the UPDATE's reach. *)
Lemma close_rows_keeps_closed (now : Ledger.timestamp) (f : Z)
      (t : Ledger.table Ledger.trade_row) (r : Ledger.trade_row) :
  In r (Ledger.rows t) -> is_open r = false ->
  In r (Ledger.rows (close_rows db now f symbol t)).
Proof.
  intros Hin Hclosed.
  unfold close_rows, _update_trade_status, Ledger.update.
  destruct (update_trades db f symbol); [|exact Hin]. cbn.
  apply in_map_iff. exists r. split; [|exact Hin].
  unfold open_trade_of. unfold is_open in Hclosed. rewrite Hclosed.
  rewrite andb_false_r. reflexivity.
Qed.

Lemma close_all_keeps_none_open (now : Ledger.timestamp) (closed : list Z)
      (g : Z) (symbol' : string) :
  forall t, none_open g symbol' t ->
            none_open g symbol' (close_all db now symbol closed t).
Proof.
  unfold close_all.
  induction closed as [|f closed IH]; intros t H; [exact H|].
  cbn [fold_left]. apply IH. apply close_rows_keeps_none_open. exact H.
Qed.

Lemma close_all_none_open (now : Ledger.timestamp) (closed : list Z) :
  forall t f, In f closed -> update_trades db f symbol = true ->
              none_open f symbol (close_all db now symbol closed t).
Proof.
  induction closed as [|g closed IH]; intros t f Hin Hworks; [contradiction|].
  change (close_all db now symbol (g :: closed) t)
    with (close_all db now symbol closed (close_rows db now g symbol t)).
  destruct Hin as [-> | Hin]; [|apply IH; assumption].
  apply close_all_keeps_none_open.
  apply close_rows_none_open. exact Hworks.
Qed.

Lemma close_all_nothing (now : Ledger.timestamp) (closed : list Z)
      (t : Ledger.table Ledger.trade_row) :
  (forall f, In f closed -> update_trades db f symbol = true ->
             none_open f symbol t) ->
  close_all db now symbol closed t = t.
Proof.
  unfold close_all.
  induction closed as [|g closed IH]; intro H; [reflexivity|].
  cbn [fold_left].
  assert (close_rows db now g symbol t = t) as ->.
  { destruct (update_trades db g symbol) eqn:W.
    - apply close_rows_nothing. apply H; [left; reflexivity | exact W].
    - apply close_rows_failed. exact W. }
  apply IH. intros f Hf. apply H. right. exact Hf.
Qed.

Lemma close_all_keeps_closed (now : Ledger.timestamp) (closed : list Z)
      (r : Ledger.trade_row) :
  is_open r = false ->
  forall t, In r (Ledger.rows t) ->
            In r (Ledger.rows (close_all db now symbol closed t)).
Proof.
  intro Hclosed. unfold close_all.
  induction closed as [|g closed IH]; intros t Hin; [exact Hin|].
  cbn [fold_left]. apply IH. apply close_rows_keeps_closed; assumption.
Qed.

(** [close_position] adds to the wire and ends in a way that the
    exchange alone decides. *)
Lemma close_position_effect (ex : exchange) (account : Z)
      (position_side : string) :
  exists extra r,
    (r = Returned tt \/ r = Raised GatewayError)
    /\ forall sent,
        close_position ex account symbol position_side sent
        = (sent ++ extra, r).
Proof.
  unfold close_position.
  destruct (find _ (get_positions ex account)) as [p|].
  - destruct (feq (positionAmt p) 0).
    + exists [], (Returned tt). split; [auto|].
      intro sent. rewrite app_nil_r. reflexivity.
    + unfold place_order.
      match goal with
      | |- context [futures_create_order ex account ?o] =>
          destruct (futures_create_order ex account o)
      end; eexists _, _; (split; [|intro sent; reflexivity]); auto.
  - exists [], (Returned tt). split; [auto|].
    intro sent. rewrite app_nil_r. reflexivity.
Qed.

Lemma close_rows_twice (now : Ledger.timestamp) (f : Z)
      (t : Ledger.table Ledger.trade_row) :
  close_rows db now f symbol (close_rows db now f symbol t)
  = close_rows db now f symbol t.
Proof.
  destruct (update_trades db f symbol) eqn:W.
  - apply close_rows_nothing, close_rows_none_open. exact W.
  - apply close_rows_failed. exact W.
Qed.

(** The inner loop of [_copy_position_close], for one follower: whether
    it reaches [_update_trade_status] is the exchange's doing alone, and
    reaching it more than once changes nothing more. *)
Lemma close_positions_effect (ex : exchange) (f : Z) (ps : list position) :
  exists (reached : bool) (r : outcome unit),
    (r = Returned tt \/ r = Raised GatewayError)
    /\ forall now w,
        ledger (fst (for_each (close_one ex db now symbol f) ps w))
        = (if reached then close_rows db now f symbol (ledger w) else ledger w)
        /\ snd (for_each (close_one ex db now symbol f) ps w) = r.
Proof.
  induction ps as [|p ps (reached & r & Hr & IH)]; cbn [for_each].
  - exists false, (Returned tt). split; [auto|]. intros; split; reflexivity.
  - unfold close_one at 1 3.
    destruct (String.eqb (p_symbol p) symbol).
    + set (side := if gt (positionAmt p) 0 then "LONG" else "SHORT").
      destruct (close_position_effect ex f side) as (extra & rc & Hrc & Hclose).
      destruct Hrc as [-> | ->].
      * destruct (futures_cancel_all_open_orders ex f symbol).
        -- exists true, r. split; [exact Hr|].
           intros now w. rewrite Hclose.
           match goal with
           | |- context [for_each _ ps ?w1] => destruct (IH now w1) as (L & O)
           end.
           rewrite L, O. split; [|reflexivity].
           rewrite ledger_after_update. cbn [with_sent ledger].
           destruct reached; [apply close_rows_twice | reflexivity].
        -- exists false, (Raised GatewayError). split; [auto|].
           intros now w. rewrite Hclose. split; reflexivity.
      * exists false, (Raised GatewayError). split; [auto|].
        intros now w. rewrite Hclose. split; reflexivity.
    + exists reached, r. split; [exact Hr|]. exact IH.
Qed.

(** The whole of [_copy_position_close]: it runs to its end, and its
    effect on the ledger is that of [_update_trade_status] called for
    some of the followers; which ones is the exchange's doing alone. *)
Lemma close_loop_effect (ex : exchange) (followers : follower_clients) :
  exists closed : list Z,
    forall now w,
      ledger (fst (_copy_position_close ex db now followers symbol w))
      = close_all db now symbol closed (ledger w).
Proof.
  unfold _copy_position_close.
  induction followers as [|[f s] rest (closed & IH)]; cbn [for_each].
  - exists []. reflexivity.
  - unfold copy_close_to at 1. cbn [fst].
    destruct (close_positions_effect ex f (get_positions ex f))
      as (reached & r & Hr & Hloop).
    exists (if reached then f :: closed else closed).
    intros now w.
    destruct (Hloop now w) as (L & O).
    destruct (for_each (close_one ex db now symbol f) (get_positions ex f) w)
      as [w1 r1].
    cbn [fst snd] in L, O. subst r1.
    assert (logged (w1, r) = (w1, Returned tt)) as ->
        by (destruct Hr as [-> | ->]; reflexivity).
    rewrite IH, L.
    destruct reached; reflexivity.
Qed.

(** The loop of [_copy_position_close] always runs to its end. *)
Lemma close_loop_returns (ex : exchange) (now : Ledger.timestamp)
      (followers : follower_clients) (w : world) :
  snd (_copy_position_close ex db now followers symbol w) = Returned tt.
Proof.
  unfold _copy_position_close. revert w.
  induction followers as [|[f s] rest IH]; intro w; cbn [for_each];
    [reflexivity|].
  unfold copy_close_to at 1. cbn [fst].
  destruct (close_positions_effect ex f (get_positions ex f))
    as (reached & r & Hr & Hloop).
  destruct (Hloop now w) as (_ & O).
  destruct (for_each (close_one ex db now symbol f) (get_positions ex f) w)
    as [w1 r1].
  cbn [snd] in O. subst r1.
  destruct Hr as [-> | ->]; cbn [logged]; apply IH.
Qed.

End Closing.

Section ClosedEvent.

Import BinanceWebsocketClient CopyTrader Observe.

(** The handler on an event that reports closed positions only: its
    effect on the ledger is that of [_copy_position_close] on each of
    them in turn. *)
Lemma on_closed_positions (ex : exchange) (db : store)
      (followers : follower_clients) (positions : list position_update) :
  Forall (fun p => pa p == 0) positions ->
  exists steps : list (string * list Z),
    forall now w,
      ledger (fst (_on_master_position_update ex db now followers
                                              positions w))
      = close_steps db now steps (ledger w).
Proof.
  unfold close_steps.
  induction 1 as [|p positions Hp _ (steps & IH)].
  - exists []. reflexivity.
  - destruct (close_loop_effect db (s p) ex followers) as (closed & E).
    exists ((s p, closed) :: steps). intros now w.
    apply Qeq_bool_iff in Hp.
    unfold _on_master_position_update. cbn [for_each].
    unfold on_position at 1. unfold feq. rewrite Hp.
    pose proof (close_loop_returns db (s p) ex now followers w) as O.
    pose proof (E now w) as L.
    destruct (_copy_position_close ex db now followers (s p) w) as [w1 r].
    cbn [fst snd] in O, L. subst r.
    change (for_each (on_position ex db now followers) positions w1)
      with (_on_master_position_update ex db now followers positions w1).
    rewrite IH, L. reflexivity.
Qed.

Lemma close_steps_keep_none_open (db : store) (now : Ledger.timestamp)
      (steps : list (string * list Z)) (g : Z) (symbol : string) :
  forall t, none_open g symbol t ->
            none_open g symbol (close_steps db now steps t).
Proof.
  unfold close_steps.
  induction steps as [|[sym closed] steps IH]; intros t H; [exact H|].
  cbn [fold_left fst snd]. apply IH.
  apply close_all_keeps_none_open. exact H.
Qed.

(** After the steps, no follower whose UPDATE went through has an OPEN
    trade on its symbol. *)
Lemma close_steps_none_open (db : store) (now : Ledger.timestamp)
      (steps : list (string * list Z)) :
  forall t symbol closed f,
    In (symbol, closed) steps -> In f closed ->
    update_trades db f symbol = true ->
    none_open f symbol (close_steps db now steps t).
Proof.
  induction steps as [|[sym0 closed0] steps IH];
    intros t symbol closed f Hin Hf Hworks; [contradiction|].
  change (close_steps db now ((sym0, closed0) :: steps) t)
    with (close_steps db now steps (close_all db now sym0 closed0 t)).
  destruct Hin as [E | Hin]; [|apply (IH _ symbol closed f); assumption].
  injection E as -> ->.
  apply close_steps_keep_none_open.
  apply close_all_none_open; assumption.
Qed.

(** On such a ledger the same steps change nothing. *)
Lemma close_steps_nothing (db : store) (now : Ledger.timestamp)
      (steps : list (string * list Z)) (t : Ledger.table Ledger.trade_row) :
  (forall symbol closed f,
      In (symbol, closed) steps -> In f closed ->
      update_trades db f symbol = true -> none_open f symbol t) ->
  close_steps db now steps t = t.
Proof.
  unfold close_steps.
  induction steps as [|[sym closed] steps IH]; intro H; [reflexivity|].
  cbn [fold_left fst snd].
  rewrite close_all_nothing.
  - apply IH. intros symbol closed' f Hin. apply H. right. exact Hin.
  - intros f Hf. apply (H sym closed f). left. reflexivity. exact Hf.
Qed.

Lemma close_steps_keep_closed (db : store) (now : Ledger.timestamp)
      (steps : list (string * list Z)) (r : Ledger.trade_row) :
  is_open r = false ->
  forall t, In r (Ledger.rows t) ->
            In r (Ledger.rows (close_steps db now steps t)).
Proof.
  intro Hclosed. unfold close_steps.
  induction steps as [|[sym closed] steps IH]; intros t Hin; [exact Hin|].
  cbn [fold_left fst snd]. apply IH.
  apply close_all_keeps_closed; assumption.
Qed.

End ClosedEvent.

(** C6, as the code has it.  The UPDATE of [_update_trade_status]
    selects OPEN rows only, so a row that is no longer OPEN is never
    written again, whatever the exchange and the database answer on a
    replay: each row goes from OPEN to CLOSED at most once.  And a replay
    of an event of closed positions during which the exchange and the
    database answer as they did the first time leaves the ledger exactly
    as the first pass left it.  A replay is not a no-op in general: a row
    that the first pass left OPEN, because the close of its follower
    failed, is closed by a replay that succeeds. *)
Theorem close_replay_is_noop
        (ex ex' : BinanceWebsocketClient.exchange)
        (db db' : CopyTrader.store)
        (now later : Ledger.timestamp)
        (followers : CopyTrader.follower_clients)
        (positions : list CopyTrader.position_update)
        (w : CopyTrader.world) :
  Forall (fun p => CopyTrader.pa p == 0) positions ->
  let w1 := fst (CopyTrader._on_master_position_update
                   ex db now followers positions w) in
  CopyTrader.ledger
    (fst (CopyTrader._on_master_position_update
            ex db later followers positions w1))
  = CopyTrader.ledger w1
  /\ forall r,
      In r (Ledger.rows (CopyTrader.ledger w1)) ->
      Observe.is_open r = false ->
      In r (Ledger.rows
              (CopyTrader.ledger
                 (fst (CopyTrader._on_master_position_update
                         ex' db' later followers positions w1)))).
Proof.
  intros Hclosed w1. subst w1.
  split.
  - destruct (on_closed_positions ex db followers positions Hclosed)
      as (steps & E).
    rewrite !E.
    apply close_steps_nothing.
    intros symbol closed f Hin Hf Hworks.
    apply (close_steps_none_open db now steps _ symbol closed f);
      assumption.
  - intros r Hin Hr.
    destruct (on_closed_positions ex' db' followers positions Hclosed)
      as (steps & E).
    rewrite E. apply close_steps_keep_closed; assumption.
Qed.

Lemma close_replay_is_noop_witness :
  let w1 := fst Scenario.after_close in
  Forall (fun p => CopyTrader.pa p == 0) Scenario.master_closes
  /\ map (fun r => Ledger.status (Ledger.cols r))
      (Ledger.rows (CopyTrader.ledger (fst Scenario.after_open)))
  = [Some "OPEN"]
  /\ map (fun r => Ledger.status (Ledger.cols r))
         (Ledger.rows (CopyTrader.ledger w1)) = [Some "CLOSED"]
  /\ CopyTrader.ledger
       (fst (CopyTrader._on_master_position_update
               Scenario.holding_position Scenario.working 20%Z
               [(Scenario.F1, Scenario.f1_settings)] Scenario.master_closes
               w1))
     = CopyTrader.ledger w1
  /\ forall r,
      In r (Ledger.rows (CopyTrader.ledger w1)) ->
      Observe.is_open r = false ->
      In r (Ledger.rows
              (CopyTrader.ledger
                 (fst (CopyTrader._on_master_position_update
                         Scenario.accepting Scenario.bot_table 20%Z
                         [(Scenario.F1, Scenario.f1_settings)]
                         Scenario.master_closes w1)))).
Proof.
  assert (H : Forall (fun p => CopyTrader.pa p == 0) Scenario.master_closes)
    by (repeat constructor).
  split; [exact H|].
  split; [reflexivity|]. split; [reflexivity|].
  apply (close_replay_is_noop
           Scenario.holding_position Scenario.accepting
           Scenario.working Scenario.bot_table 10%Z 20%Z
           [(Scenario.F1, Scenario.f1_settings)]
           Scenario.master_closes
           (fst Scenario.after_open)).
  exact H.
Defined.

(** C6 as stated fails: the exchange refuses the order that closes F1's
    position when the event is first processed, so F1's row is left
    OPEN; the same event processed again, with the exchange now
    accepting the order, sets that row to CLOSED. *)
Lemma replay_closes_what_a_failed_pass_left_open :
  let first :=
    CopyTrader._on_master_position_update
      Scenario.holding_refused Scenario.working 10%Z
      [(Scenario.F1, Scenario.f1_settings)] Scenario.master_closes
      (fst Scenario.after_open) in
  let replay :=
    CopyTrader._on_master_position_update
      Scenario.holding_position Scenario.working 20%Z
      [(Scenario.F1, Scenario.f1_settings)] Scenario.master_closes
      (fst first) in
  map (fun r => Ledger.status (Ledger.cols r))
      (Ledger.rows (CopyTrader.ledger (fst first))) = [Some "OPEN"]
  /\ map (fun r => Ledger.status (Ledger.cols r))
         (Ledger.rows (CopyTrader.ledger (fst replay))) = [Some "CLOSED"]
  /\ CopyTrader.ledger (fst replay) <> CopyTrader.ledger (fst first).
Proof.
  split; [reflexivity|]. split; [reflexivity|].
  vm_compute. discriminate.
Qed.

(** * The ledger of [Database] *)

Lemma max_id_bounds {R : Type} (key : R -> Z) (rs : list R) (r : R) :
  In r rs -> (key r <= Ledger.max_id key rs)%Z.
Proof.
  induction rs as [|x rs IH]; [contradiction|].
  unfold Ledger.max_id in *. cbn [fold_right].
  intros [-> | Hin]; [lia|].
  specialize (IH Hin). lia.
Qed.

(** AUTOINCREMENT never hands out a key that is in use. *)
Lemma next_id_fresh {R : Type} (key : R -> Z) (t : Ledger.table R) :
  ~ In (Ledger.next_id key t) (map key (Ledger.rows t)).
Proof.
  intro Hin. apply in_map_iff in Hin. destruct Hin as (r & E & Hin).
  apply (max_id_bounds key) in Hin.
  unfold Ledger.next_id in E. lia.
Qed.

(** C1, as the code has it.  [add_user_trade] looks nothing up: called
    with the lock free, it appends one row to [trades] whatever the table
    already holds, with the columns it was given and a key that no row
    has, and keeps every earlier row. *)
Theorem add_user_trade_always_inserts
        (now : Ledger.timestamp) (d : Database.trade_data)
        (db : Database.state) :
  Database.lock db = false ->
  let db' := fst (Database.add_user_trade now d db) in
  let k := Ledger.next_id Ledger.id (Database.trades db) in
  Ledger.rows (Database.trades db')
  = Ledger.rows (Database.trades db)
    ++ [{| Ledger.id := k; Ledger.cols := Database.stamped now d |}]
  /\ ~ In k (map Ledger.id (Ledger.rows (Database.trades db))).
Proof.
  intros free db' k.
  split; [|apply next_id_fresh].
  subst db' k.
  unfold Database.add_user_trade, Database.with_lock.
  rewrite free.
  unfold Database.insert_trade, Ledger.insert. cbn -[Ledger.next_id].
  destruct (Ledger.telegram_id d), (Ledger.symbol d),
    (Ledger.position_side d); reflexivity.
Qed.

Lemma add_user_trade_always_inserts_witness :
  Database.lock Scenario.holding_copy = false
  /\ Ledger.rows
       (Database.trades
          (fst (Database.add_user_trade 5%Z Scenario.copy_of_7
                                        Scenario.holding_copy)))
     = Ledger.rows (Database.trades Scenario.holding_copy)
       ++ [{| Ledger.id := 2;
              Ledger.cols := Database.stamped 5%Z Scenario.copy_of_7 |}]
  /\ ~ In 2%Z (map Ledger.id
                   (Ledger.rows (Database.trades Scenario.holding_copy))).
Proof.
  split; [reflexivity|].
  apply (add_user_trade_always_inserts 5%Z Scenario.copy_of_7
                                       Scenario.holding_copy).
  reflexivity.
Defined.

(** C1 as stated fails: the ledger holds an OPEN copy of master trade 7
    for F1; opening it again adds a second OPEN row for the same pair,
    and the call does not return the key of the first. *)
Lemma duplicate_copy_is_inserted :
  let result := Database.add_user_trade 5%Z Scenario.copy_of_7
                                        Scenario.holding_copy in
  (exists r1 r2,
      Ledger.rows (Database.trades (fst result)) = [r1; r2]
      /\ Ledger.id r1 <> Ledger.id r2
      /\ Ledger.master_trade_id (Ledger.cols r1) = Some 7%Z
      /\ Ledger.master_trade_id (Ledger.cols r2) = Some 7%Z
      /\ Ledger.telegram_id (Ledger.cols r1) = Some Scenario.F1
      /\ Ledger.telegram_id (Ledger.cols r2) = Some Scenario.F1
      /\ Ledger.status (Ledger.cols r1) = Some "OPEN"
      /\ Ledger.status (Ledger.cols r2) = Some "OPEN")
  /\ snd result <> Returned 1%Z.
Proof.
  split.
  - eexists _, _. split; [reflexivity|].
    repeat split; try reflexivity. cbn. discriminate.
  - vm_compute. discriminate.
Qed.

(** The call itself never comes back with a key: the audit entry waits
    for the lock its own caller holds, unless a key of [trade_data] that
    the entry reads is missing. *)
Lemma add_user_trade_never_returns
      (now : Ledger.timestamp) (d : Database.trade_data)
      (db : Database.state) (k : Z) :
  snd (Database.add_user_trade now d db) <> Returned k.
Proof.
  unfold Database.add_user_trade, Database.with_lock.
  destruct (Database.lock db); [discriminate|].
  unfold Database.insert_trade, Ledger.insert. cbn -[Ledger.next_id].
  destruct (Ledger.telegram_id d), (Ledger.symbol d),
    (Ledger.position_side d); discriminate.
Qed.

(** * Statistics *)

(** C10.  With the lock free, [get_user_statistics] returns, and leaves
    the database as it was.  [total_trades] counts the user's rows and
    [winning_trades] those among them with [pnl > 0], whatever their
    status.  For a user without rows the totals, the win rate, the total
    profit and the average profit are all 0, and nothing is divided;
    otherwise the win rate is [100 * winning_trades / total_trades]. *)
Theorem statistics_of_user (telegram_id : Z) (db : Database.state) :
  Database.lock db = false ->
  let mine := filter (Database.of_user telegram_id)
                     (Ledger.rows (Database.trades db)) in
  exists st,
    Database.get_user_statistics telegram_id db = (db, Returned st)
    /\ Database.total_trades st = Database.count mine
    /\ Database.winning_trades st
       = Database.count
           (filter (fun r => Ledger.real_positive (Ledger.pnl (Ledger.cols r)))
                   mine)
    /\ (mine = [] ->
        Database.total_trades st = 0%Z
        /\ Database.winning_trades st = 0%Z
        /\ Database.win_rate st = 0
        /\ Database.total_profit st = 0
        /\ Database.avg_profit st = 0)
    /\ ((0 < Database.total_trades st)%Z ->
        Database.win_rate st
        == 100 * inject_Z (Database.winning_trades st)
           / inject_Z (Database.total_trades st)).
Proof.
  intros free mine.
  destruct db as [trades master_trades audit_log lock].
  cbn in free. subst lock.
  unfold Database.get_user_statistics, Database.with_lock.
  cbn [Database.lock Database.set_lock Database.trades
       Database.master_trades Database.audit_log].
  cbn [Database.trades] in mine. fold mine.
  destruct (0 <? Database.count mine)%Z eqn:P.
  - apply Z.ltb_lt in P.
    assert (N : ~ inject_Z (Database.count mine) == 0).
    { intro E. unfold Qeq in E. cbn in E. lia. }
    rewrite !(truediv_returns _ _ N). cbn [bind].
    eexists. split; [reflexivity|].
    cbn [Database.total_trades Database.winning_trades Database.win_rate
         Database.total_profit Database.avg_profit].
    split; [reflexivity|]. split; [reflexivity|]. split.
    + intro E. rewrite E in P. cbn in P. lia.
    + intros _. field. exact N.
  - cbn [bind].
    eexists. split; [reflexivity|].
    cbn [Database.total_trades Database.winning_trades Database.win_rate
         Database.total_profit Database.avg_profit].
    split; [reflexivity|]. split; [reflexivity|]. split.
    + intro E. rewrite E. repeat split; reflexivity.
    + intro pos. apply Z.ltb_ge in P. lia.
Qed.

Lemma statistics_of_user_witness :
  Database.lock Scenario.four_trades = false
  /\ exists st,
      Database.get_user_statistics Scenario.F1 Scenario.four_trades
      = (Scenario.four_trades, Returned st)
      /\ Database.total_trades st = 3%Z
      /\ Database.winning_trades st = 2%Z
      /\ Database.win_rate st == 200 # 3.
Proof.
  split; [reflexivity|].
  destruct (statistics_of_user Scenario.F1 Scenario.four_trades eq_refl)
    as (st & E & T & W & _ & R).
  exists st.
  assert (T' : Database.total_trades st = 3%Z) by (rewrite T; reflexivity).
  assert (W' : Database.winning_trades st = 2%Z) by (rewrite W; reflexivity).
  split; [exact E|]. split; [exact T'|]. split; [exact W'|].
  rewrite R by (rewrite T'; reflexivity).
  rewrite T', W'. reflexivity.
Defined.

(** * Profit and loss on close *)

(** C4, as the code has it.  When a filled order closes a master trade,
    [master_trades] records status CLOSED and a PnL computed from the
    fill: the executed quantity of the closing order (not the size of the
    row) times [avg_price - entry_price] for a LONG,
    [entry_price - avg_price] for a SHORT; for a LONG the percentage is
    the price move relative to the entry price. *)
Theorem close_records_fill_pnl
        (now : Ledger.timestamp) (trade : Ledger.master_row)
        (avg_price executed_qty entry_price : Q) (db : Database.state) :
  Database.lock db = false ->
  In trade (Ledger.rows (Database.master_trades db)) ->
  Ledger.m_entry_price (Ledger.m_cols trade) = Some entry_price ->
  (Ledger.m_position_side (Ledger.m_cols trade) = Some "LONG"
   /\ ~ entry_price == 0)
  \/ (Ledger.m_position_side (Ledger.m_cols trade) = Some "SHORT"
      /\ ~ avg_price == 0) ->
  exists db' closed p pc,
    MasterOrders.close_master_trade now trade avg_price executed_qty db
    = (db', Returned true)
    /\ In closed (Ledger.rows (Database.master_trades db'))
    /\ Ledger.m_id closed = Ledger.m_id trade
    /\ Ledger.m_status (Ledger.m_cols closed) = Some "CLOSED"
    /\ Ledger.m_pnl (Ledger.m_cols closed) = Some p
    /\ Ledger.m_pnl_percent (Ledger.m_cols closed) = Some pc
    /\ (Ledger.m_position_side (Ledger.m_cols trade) = Some "LONG" ->
        p == executed_qty * (avg_price - entry_price)
        /\ pc == (avg_price - entry_price) / entry_price * 100)
    /\ (Ledger.m_position_side (Ledger.m_cols trade) = Some "SHORT" ->
        p == executed_qty * (entry_price - avg_price)).
Proof.
  intros free Hin Hentry Hside.
  unfold MasterOrders.close_master_trade, MasterOrders.closing_update.
  rewrite Hentry.
  destruct Hside as [(Hside & Hnz) | (Hside & Hnz)]; rewrite Hside;
    cbn [Ledger.text_is String.eqb Ascii.eqb Bool.eqb];
    rewrite truediv_returns by exact Hnz; cbn [bind];
    unfold Database.update_master_trade, Database.with_lock;
    rewrite free; cbn [Database.set_lock Database.master_trades];
    (eexists _, (Database.apply_update _ trade), _, _;
     split; [reflexivity|];
     split;
     [ cbn [Database.master_trades Ledger.update Ledger.rows];
       apply in_map_iff; exists trade;
       rewrite Z.eqb_refl; split; [reflexivity | exact Hin]
     | repeat (split; [reflexivity|]) ]).
  - split; [intros _ | discriminate].
    cbn. split; [reflexivity | field; exact Hnz].
  - split; [discriminate | intros _]. reflexivity.
Qed.

Lemma close_records_fill_pnl_witness :
  let trade := Scenario.master_trade "LONG" 50000 1 in
  Database.lock (Scenario.holding_master trade) = false
  /\ exists db' closed p pc,
      MasterOrders.close_master_trade 9%Z trade 51000 1
                                      (Scenario.holding_master trade)
      = (db', Returned true)
      /\ In closed (Ledger.rows (Database.master_trades db'))
      /\ Ledger.m_status (Ledger.m_cols closed) = Some "CLOSED"
      /\ Ledger.m_pnl (Ledger.m_cols closed) = Some p
      /\ Ledger.m_pnl_percent (Ledger.m_cols closed) = Some pc
      /\ p == 1000
      /\ pc == 2.
Proof.
  intro trade. split; [reflexivity|].
  destruct (close_records_fill_pnl
              9%Z trade 51000 1 50000 (Scenario.holding_master trade))
    as (db' & closed & p & pc & E & Hin & _ & Hst & Hp & Hpc & Hlong & _).
  - reflexivity.
  - left. reflexivity.
  - reflexivity.
  - left. split; [reflexivity | discriminate].
  - exists db', closed, p, pc.
    destruct (Hlong eq_refl) as (P & PC).
    split; [exact E|]. split; [exact Hin|]. split; [exact Hst|].
    split; [exact Hp|]. split; [exact Hpc|].
    split; [rewrite P | rewrite PC]; reflexivity.
Defined.

(** C4 as stated fails three ways.  A LONG master trade of size 1 entered
    at 50000 is closed by a fill of 0.5 at 51000: the PnL recorded is 500,
    not [size * (exitPrice - entryPrice)] = 1000.  A SHORT master trade
    entered at 50000 is closed in full at 40000: the percentage recorded
    is 25, the move relative to the exit price, not
    [(entryPrice - exitPrice) / entryPrice * 100] = 20.  And the follower
    row that the close of the scenario marks CLOSED has no PnL at all. *)
Lemma close_pnl_is_not_as_stated :
  (let trade := Scenario.master_trade "LONG" 50000 1 in
   exists p,
     map (fun r => Ledger.m_pnl (Ledger.m_cols r))
         (Ledger.rows
            (Database.master_trades
               (fst (MasterOrders.close_master_trade
                       9%Z trade 51000 0.5 (Scenario.holding_master trade)))))
     = [Some p]
     /\ p == 500
     /\ ~ p == 1 * (51000 - 50000))
  /\ (let trade := Scenario.master_trade "SHORT" 50000 1 in
      exists pc,
        map (fun r => Ledger.m_pnl_percent (Ledger.m_cols r))
            (Ledger.rows
               (Database.master_trades
                  (fst (MasterOrders.close_master_trade
                          9%Z trade 40000 1 (Scenario.holding_master trade)))))
        = [Some pc]
        /\ pc == 25
        /\ ~ pc == (50000 - 40000) / 50000 * 100)
  /\ map (fun r => (Ledger.status (Ledger.cols r), Ledger.pnl (Ledger.cols r),
                    Ledger.pnl_percent (Ledger.cols r)))
         (Ledger.rows (CopyTrader.ledger (fst Scenario.after_close)))
     = [(Some "CLOSED", None, None)].
Proof.
  split; [|split].
  - eexists. split; [reflexivity|]. split; [reflexivity | discriminate].
  - eexists. split; [reflexivity|]. split; [reflexivity | discriminate].
  - reflexivity.
Qed.

(** * The reconnect loop *)

(** C9, as the code has it.  The loop of [_run_websocket] does not tell
    one error from another: as long as nobody calls [stop], every session
    that ends, be it closed, broken or refused for its credentials, is
    followed by a pause of 5 seconds and a new attempt; an error is
    logged and passed to [on_error], and that is all. *)
Theorem reconnects_after_any_error
        (has_on_error : bool)
        (env : list BinanceWebsocketClient.attempt) :
  Forall (fun a => Observe.not_stopped a = true) env ->
  BinanceWebsocketClient._run_websocket false has_on_error true env
  = flat_map (fun a =>
                BinanceWebsocketClient.Connect
                  :: BinanceWebsocketClient.report has_on_error a
                  ++ [BinanceWebsocketClient.Sleep 5])
             env
  /\ BinanceWebsocketClient.connects
       (BinanceWebsocketClient._run_websocket false has_on_error true env)
     = List.length env.
Proof.
  unfold BinanceWebsocketClient._run_websocket.
  induction 1 as [|a env Ha _ (IH & IHn)]; [split; reflexivity|].
  unfold Observe.not_stopped in Ha.
  apply andb_true_iff in Ha. destruct Ha as (Hs & Hp).
  apply negb_true_iff in Hs. apply negb_true_iff in Hp.
  cbn [BinanceWebsocketClient.reconnect_loop flat_map].
  rewrite Hs, Hp. cbn [negb].
  split.
  - rewrite IH. cbn [app]. rewrite <- app_assoc. reflexivity.
  - unfold BinanceWebsocketClient.connects in *.
    cbn [filter List.length]. rewrite filter_app, length_app.
    cbn [filter List.length]. rewrite IHn.
    assert (filter (fun a0 => match a0 with
                              | BinanceWebsocketClient.Connect => true
                              | _ => false
                              end)
                   (BinanceWebsocketClient.report has_on_error a) = []) as ->.
    { unfold BinanceWebsocketClient.report.
      destruct (BinanceWebsocketClient.ending a), has_on_error; reflexivity. }
    reflexivity.
Qed.

Lemma reconnects_after_any_error_witness :
  Forall (fun a => Observe.not_stopped a = true) Scenario.revoked_then_fine
  /\ BinanceWebsocketClient.connects
       (BinanceWebsocketClient._run_websocket
          false true true Scenario.revoked_then_fine)
     = 2%nat.
Proof.
  assert (H : Forall (fun a => Observe.not_stopped a = true)
                     Scenario.revoked_then_fine)
    by (repeat constructor).
  split; [exact H|].
  exact (proj2 (reconnects_after_any_error true Scenario.revoked_then_fine H)).
Defined.

(** C9 as stated fails: the first session is refused for its
    credentials, and the client connects again five seconds later. *)
Lemma revoked_credentials_are_retried :
  BinanceWebsocketClient._run_websocket
    false true true Scenario.revoked_then_fine
  = [ BinanceWebsocketClient.Connect;
      BinanceWebsocketClient.LogError BinanceWebsocketClient.AuthenticationError;
      BinanceWebsocketClient.OnError BinanceWebsocketClient.AuthenticationError;
      BinanceWebsocketClient.Sleep 5;
      BinanceWebsocketClient.Connect;
      BinanceWebsocketClient.Sleep 5 ].
Proof.
  reflexivity.
Qed.

(** * Further properties of the stream callbacks *)

Section Outcomes.

Import BinanceWebsocketClient CopyTrader.

Variables (ex : exchange) (db : store) (now : Ledger.timestamp)
          (followers : follower_clients).

(** The loop of [_copy_position_open] ends normally or on the
    exception of a sizing; it never waits. *)
Lemma open_loop_outcome (symbol position_side : string)
      (master_amount entry_price : Q) (w : world) :
  snd (_copy_position_open ex db now followers symbol position_side
                           master_amount entry_price w) <> Blocked.
Proof.
  unfold _copy_position_open. revert w.
  induction followers as [|[f s] rest IH]; intro w; cbn [for_each];
    [discriminate|].
  destruct (copy_open_to_effect db now symbol position_side entry_price f s
                                master_amount ex ex)
    as [(e & _ & Hrun) | (q & more & _ & _ & _ & Hrun)]; [reflexivity | |].
  - rewrite Hrun. discriminate.
  - rewrite (Hrun ex w (or_introl eq_refl)). apply IH.
Qed.

Lemma position_handler_outcome (positions : list position_update) (w : world) :
  snd (_on_master_position_update ex db now followers positions w) <> Blocked.
Proof.
  unfold _on_master_position_update. revert w.
  induction positions as [|p rest IH]; intro w; cbn [for_each];
    [discriminate|].
  destruct (on_position ex db now followers p w) as [w1 r] eqn:E.
  assert (r <> Blocked) as N.
  { unfold on_position in E.
    destruct (feq (pa p) 0).
    - pose proof (close_loop_returns db (s p) ex now followers w) as C.
      rewrite E in C. cbn in C. subst r. discriminate.
    - pose proof (open_loop_outcome
                    (s p) (if gt (pa p) 0 then "LONG" else "SHORT")
                    (pa p) (ep p) w) as O.
      rewrite E in O. exact O. }
  destruct r as [[] | e |]; [apply IH | discriminate | contradiction].
Qed.

End Outcomes.

(** X1.  The message handler of the master stream always comes back:
    whatever the message and whatever its callback does, [_on_message]
    returns normally, an exception of the fan-out being logged.  A message
    that is not an ACCOUNT_UPDATE with positions changes nothing, and on a
    follower's client, which has no callbacks, no message changes
    anything. *)
Theorem on_message_always_returns
        (ex : BinanceWebsocketClient.exchange) (db : CopyTrader.store)
        (now : Ledger.timestamp)
        (followers : CopyTrader.follower_clients)
        (m : Stream.message) (w : CopyTrader.world) :
  snd (Stream._on_message (Stream.master_callbacks ex db now followers) m w)
  = Returned tt
  /\ match m with
     | Stream.ACCOUNT_UPDATE _ (_ :: _) => True
     | _ => fst (Stream._on_message
                   (Stream.master_callbacks ex db now followers) m w) = w
     end
  /\ Stream._on_message Stream.follower_callbacks m w = (w, Returned tt).
Proof.
  split; [|split].
  - destruct m as [| b P | | | |]; try reflexivity.
    unfold Stream._on_message, Stream._handle_account_update.
    destruct b; cbn [Stream.master_callbacks Stream.on_balance_update
                     Stream.on_position_update Stream.call option_map];
      (destruct P as [|p P]; [reflexivity|]);
      pose proof (position_handler_outcome ex db now followers (p :: P) w)
        as N;
      destruct (CopyTrader._on_master_position_update ex db now followers
                                                      (p :: P) w)
        as [w1 [[] | e |]]; cbn in N |- *; congruence.
  - destruct m as [| b P | | | |]; try reflexivity.
    destruct P; [|exact I]. destruct b; reflexivity.
  - destruct m as [| b P | | | |]; try reflexivity.
    destruct b, P; reflexivity.
Qed.

(** * Further properties of the follower registry *)

Section RegistryFacts.

Import CopyTrader Registry.

Variables (test_mode : bool) (reachable : string -> string -> bool).

Lemma registered_in (telegram_id : Z) (reg : follower_clients) :
  registered telegram_id reg = true <-> In telegram_id (map fst reg).
Proof.
  unfold registered. rewrite existsb_exists, in_map_iff.
  split.
  - intros (f & Hin & E). apply Z.eqb_eq in E. exists f. auto.
  - intros (f & E & Hin). exists f. split; [exact Hin|].
    apply Z.eqb_eq. exact E.
Qed.

(** What one call of [_init_follower_client] can do to the registry. *)
Lemma init_follower_client_effect (telegram_id : Z)
      (api_key api_secret : option string) (s : settings)
      (reg : follower_clients) :
  let reg' := fst (_init_follower_client test_mode reachable telegram_id
                                         api_key api_secret s reg) in
  reg' = reg
  \/ (reg' = reg ++ [(telegram_id, s)]
      /\ ~ In telegram_id (map fst reg)
      /\ keys_valid (option_map strip api_key) (option_map strip api_secret)
         = true).
Proof.
  unfold _init_follower_client.
  destruct (registered telegram_id reg) eqn:R; [left; reflexivity|].
  destruct (keys_valid _ _) eqn:V; [|left; reflexivity].
  destruct (option_map strip api_key) as [k|]; [|left; reflexivity].
  destruct (option_map strip api_secret) as [sec|]; [|left; reflexivity].
  destruct (test_mode || reachable k sec); [|left; reflexivity].
  right. split; [reflexivity|]. split; [|reflexivity].
  intro Hin. apply registered_in in Hin. congruence.
Qed.

End RegistryFacts.

(** X2.  Loading the active users never replaces an entry of the
    registry: the clients registered before stay where they were, with
    the settings they had, also when the database now holds other
    settings for them; what is added comes after them, for users that were
    not registered; and the registry keeps one entry per [telegram_id]. *)
Theorem load_active_users_keeps_registry
        (test_mode : bool) (reachable : string -> string -> bool)
        (users : list Registry.active_user)
        (reg : CopyTrader.follower_clients) :
  let reg' := fst (Registry._load_active_users test_mode reachable users reg) in
  (exists added,
      reg' = reg ++ added
      /\ forall f, In f added -> ~ In (fst f) (map fst reg))
  /\ (NoDup (map fst reg) -> NoDup (map fst reg')).
Proof.
  unfold Registry._load_active_users.
  destruct test_mode.
  { cbn. split; [exists []; rewrite app_nil_r; split; [reflexivity|]|auto].
    intros f []. }
  revert reg.
  induction users as [|u rest IH]; intro reg; cbn [for_each].
  { cbn. split; [exists []; rewrite app_nil_r; split; [reflexivity|]|auto].
    intros f []. }
  pose proof (init_follower_client_effect
                false reachable (Registry.u_telegram_id u)
                (Some (Registry.binance_api_key u))
                (Some (Registry.binance_api_secret u))
                (Registry.u_settings u) reg) as E.
  destruct (Registry._init_follower_client
              false reachable (Registry.u_telegram_id u)
              (Some (Registry.binance_api_key u))
              (Some (Registry.binance_api_secret u))
              (Registry.u_settings u) reg) as [reg1 r].
  cbn [fst] in E.
  assert (step : (exists added1,
                     reg1 = reg ++ added1
                     /\ forall f, In f added1 -> ~ In (fst f) (map fst reg))
                 /\ (NoDup (map fst reg) -> NoDup (map fst reg1))).
  { destruct E as [-> | (-> & Hnew & _)].
    - split; [exists []; rewrite app_nil_r; split; [reflexivity|]|auto].
      intros f [].
    - split.
      + eexists. split; [reflexivity|].
        intros f [<- | []]. exact Hnew.
      + intro N. rewrite map_app. cbn.
        apply NoDup_app; [exact N | repeat constructor; intros [] |].
        intros x Hx [<- | []]. contradiction. }
  destruct step as ((added1 & -> & Hadded1) & Hnodup1).
  destruct r as [[] | e |]; cbn [fst].
  - destruct (IH (reg ++ added1)) as ((added & E2 & Hadded) & Hnodup).
    split.
    + exists (added1 ++ added). rewrite app_assoc. split; [exact E2|].
      intros f Hf. apply in_app_or in Hf. destruct Hf as [Hf | Hf].
      * apply Hadded1. exact Hf.
      * intro Hin. apply (Hadded f Hf).
        rewrite map_app. apply in_or_app. left. exact Hin.
    + intro N. apply Hnodup, Hnodup1, N.
  - split; [exists added1; split; [reflexivity | exact Hadded1] | exact Hnodup1].
  - split; [exists added1; split; [reflexivity | exact Hadded1] | exact Hnodup1].
Qed.

Lemma load_active_users_keeps_registry_witness :
  NoDup (map fst Cases.registry)
  /\ fst (Registry._load_active_users false Cases.reachable Cases.users
                                      Cases.registry)
     = Cases.registry ++ [(Cases.F3, Scenario.f2_settings)]
  /\ NoDup (map fst (fst (Registry._load_active_users
                            false Cases.reachable Cases.users
                            Cases.registry))).
Proof.
  assert (H : NoDup (map fst Cases.registry)).
  { constructor; [intros [] | constructor]. }
  split; [exact H|]. split; [reflexivity|].
  apply (proj2 (load_active_users_keeps_registry
                  false Cases.reachable Cases.users Cases.registry)).
  exact H.
Defined.

(** * Further properties of the fan-out *)

Section Protective.

Import BinanceWebsocketClient CopyTrader Observe History.

Variables (ex : exchange) (db : store) (now : Ledger.timestamp)
          (symbol position_side : string) (entry_price : Q)
          (telegram_id : Z) (s : settings).

(** The follower's [try] block in full: what goes out, in which order,
    and what is written. *)
Lemma place_and_record_orders (amount : Q) (w : world) :
  let market := opening_order symbol position_side amount in
  let accepted := futures_create_order ex telegram_id market in
  let w' := fst (place_and_record ex db now symbol position_side entry_price
                                  telegram_id s amount w) in
  sent w'
  = sent w
    ++ map (pair telegram_id)
           (market :: (if accepted
                       then protective_orders ex telegram_id symbol
                                              position_side entry_price s
                                              amount
                       else []))
  /\ ledger w'
     = (if accepted
        then with_open_row db now telegram_id symbol position_side entry_price
                           amount (ledger w)
        else ledger w).
Proof.
  unfold place_and_record, place_order, protective_orders,
    take_profit_order, stop_loss_order, opening_order, with_open_row,
    _save_trade.
  destruct (insert_into_trades db telegram_id symbol);
  repeat match goal with
         | |- context [futures_create_order ex telegram_id ?o] =>
             destruct (futures_create_order ex telegram_id o)
         end;
    destruct (gt (take_profit s) 0), (gt (stop_loss s) 0);
    cbn; rewrite <- ?app_assoc; split; reflexivity.
Qed.

(** One turn of the loop, when the sizing returns. *)
Lemma copy_open_to_orders (master_amount amount : Q) (w : world) :
  follower_amount master_amount entry_price s = Returned amount ->
  let market := opening_order symbol position_side amount in
  let accepted := futures_create_order ex telegram_id market in
  let result := copy_open_to ex db now symbol position_side master_amount
                             entry_price (telegram_id, s) w in
  snd result = Returned tt
  /\ sent (fst result)
     = sent w
       ++ map (pair telegram_id)
              (market :: (if accepted
                          then protective_orders ex telegram_id symbol
                                                 position_side entry_price s
                                                 amount
                          else []))
  /\ ledger (fst result)
     = (if accepted
        then with_open_row db now telegram_id symbol position_side entry_price
                           amount (ledger w)
        else ledger w).
Proof.
  intros F market accepted result. subst result.
  unfold copy_open_to. rewrite F.
  pose proof (place_and_record_orders amount w) as (Hs & Hl).
  destruct (place_and_record_effect_at db now symbol position_side entry_price
                                       telegram_id s amount ex ex)
    as (rest & r & _ & Hr & _ & Hrun); [reflexivity|].
  specialize (Hrun ex w (or_introl eq_refl)).
  destruct (place_and_record ex db now symbol position_side entry_price
                             telegram_id s amount w) as [w' r'].
  injection Hrun as _ <-.
  cbn [fst] in Hs, Hl.
  destruct Hr as [-> | ->]; cbn [logged fst snd]; auto.
Qed.

End Protective.

(** X3.  When the exchange accepts a follower's MARKET order and then
    refuses its take-profit order, the turn ends there: the refusal is
    logged and the stop-loss order is never sent, whatever the
    follower's [stop_loss].  The OPEN row of the copy is in the ledger
    by then if the INSERT of [_save_trade] went through; if it raised,
    the ledger is as it was. *)
Theorem take_profit_failure_drops_stop_loss
        (ex : BinanceWebsocketClient.exchange) (db : CopyTrader.store)
        (now : Ledger.timestamp)
        (symbol position_side : string) (master_amount entry_price : Q)
        (follower : Z) (s : CopyTrader.settings) (quantity : Q)
        (w : CopyTrader.world) :
  CopyTrader.follower_amount master_amount entry_price s = Returned quantity ->
  BinanceWebsocketClient.futures_create_order
    ex follower (Observe.opening_order symbol position_side quantity) = true ->
  0 < CopyTrader.take_profit s ->
  BinanceWebsocketClient.futures_create_order
    ex follower
    (History.take_profit_order symbol position_side entry_price s quantity)
  = false ->
  let result := CopyTrader.copy_open_to ex db now symbol position_side
                                        master_amount entry_price
                                        (follower, s) w in
  snd result = Returned tt
  /\ CopyTrader.sent (fst result)
     = CopyTrader.sent w
       ++ [(follower, Observe.opening_order symbol position_side quantity);
           (follower,
            History.take_profit_order symbol position_side entry_price s
                                      quantity)]
  /\ (CopyTrader.insert_into_trades db follower symbol = true ->
      exists r,
        Ledger.rows (CopyTrader.ledger (fst result))
        = Ledger.rows (CopyTrader.ledger w) ++ [r]
        /\ Ledger.telegram_id (Ledger.cols r) = Some follower
        /\ Ledger.symbol (Ledger.cols r) = Some symbol
        /\ Ledger.position_side (Ledger.cols r) = Some position_side
        /\ Ledger.status (Ledger.cols r) = Some "OPEN")
  /\ (CopyTrader.insert_into_trades db follower symbol = false ->
      CopyTrader.ledger (fst result) = CopyTrader.ledger w).
Proof.
  intros F accepted tp refused result.
  destruct (copy_open_to_orders ex db now symbol position_side entry_price
                                follower s master_amount quantity w F)
    as (O & S & L).
  fold result in O, S, L.
  rewrite accepted in S, L.
  unfold History.protective_orders in S.
  apply gt_true in tp. rewrite tp, refused in S.
  split; [exact O|]. split; [exact S|].
  rewrite L. unfold Observe.with_open_row, CopyTrader._save_trade.
  split; intro Hins; rewrite Hins; [|reflexivity].
  eexists. split; [reflexivity|]. repeat split.
Qed.

Lemma take_profit_failure_drops_stop_loss_witness :
  let result :=
    CopyTrader.copy_open_to Cases.no_limit_orders Scenario.working 0%Z
                            "BTCUSDT" "LONG" 1 50000
                            (Scenario.F2, Scenario.f2_settings)
                            Scenario.fresh in
  0 < CopyTrader.take_profit Scenario.f2_settings
  /\ 0 < CopyTrader.stop_loss Scenario.f2_settings
  /\ snd result = Returned tt
  /\ CopyTrader.sent (fst result)
     = CopyTrader.sent Scenario.fresh
       ++ [(Scenario.F2, Observe.opening_order "BTCUSDT" "LONG" 0.020);
           (Scenario.F2,
            History.take_profit_order "BTCUSDT" "LONG" 50000
                                      Scenario.f2_settings 0.020)]
  /\ exists r,
      Ledger.rows (CopyTrader.ledger (fst result)) = [] ++ [r]
      /\ Ledger.telegram_id (Ledger.cols r) = Some Scenario.F2
      /\ Ledger.status (Ledger.cols r) = Some "OPEN".
Proof.
  intro result.
  split; [reflexivity|]. split; [reflexivity|].
  destruct (take_profit_failure_drops_stop_loss
              Cases.no_limit_orders Scenario.working 0%Z "BTCUSDT" "LONG"
              1 50000 Scenario.F2 Scenario.f2_settings 0.020 Scenario.fresh)
    as (O & S & Hrow & _); try reflexivity.
  split; [exact O|]. split; [exact S|].
  destruct (Hrow eq_refl) as (r & Hrows & Hid & _ & _ & Hstatus).
  exists r. split; [exact Hrows|]. split; [exact Hid | exact Hstatus].
Defined.

Lemma above_entry (e t : Q) : 0 < e -> 0 < t -> e < e * (1 + t / 100).
Proof.
  intros He Ht.
  assert (0 < t / 100) as T by (apply Qlt_shift_div_l; lra).
  assert (0 < e * (t / 100)) as P by (apply Qmult_lt_0_compat; assumption).
  setoid_replace (e * (1 + t / 100)) with (e + e * (t / 100)) by ring.
  set (x := e * (t / 100)) in *. lra.
Qed.

Lemma below_entry (e t : Q) : 0 < e -> 0 < t -> e * (1 - t / 100) < e.
Proof.
  intros He Ht.
  assert (0 < t / 100) as T by (apply Qlt_shift_div_l; lra).
  assert (0 < e * (t / 100)) as P by (apply Qmult_lt_0_compat; assumption).
  setoid_replace (e * (1 - t / 100)) with (e - e * (t / 100)) by ring.
  set (x := e * (t / 100)) in *. lra.
Qed.

(** X4.  The orders of a follower's turn are on the right side of the
    entry price.  For a positive entry price, every order sent for a LONG
    copy is a BUY at market, or a SELL limit priced above the entry, or a
    SELL stop below it; for a SHORT copy a SELL at market, a BUY limit
    below the entry or a BUY stop above it.  All of them are for the
    follower, on the symbol, for the same quantity
    [abs(follower_amount)]. *)
Theorem orders_are_on_the_right_side
        (ex : BinanceWebsocketClient.exchange) (db : CopyTrader.store)
        (now : Ledger.timestamp)
        (symbol position_side : string) (master_amount entry_price : Q)
        (follower : Z) (s : CopyTrader.settings) (quantity : Q)
        (w : CopyTrader.world) :
  CopyTrader.follower_amount master_amount entry_price s = Returned quantity ->
  0 < entry_price ->
  position_side = "LONG" \/ position_side = "SHORT" ->
  exists new,
    CopyTrader.sent
      (fst (CopyTrader.copy_open_to ex db now symbol position_side master_amount
                                    entry_price (follower, s) w))
    = CopyTrader.sent w ++ new
    /\ forall account o,
        In (account, o) new ->
        let long := String.eqb position_side "LONG" in
        account = follower
        /\ BinanceWebsocketClient.o_symbol o = symbol
        /\ BinanceWebsocketClient.o_quantity o = Qabs quantity
        /\ ((BinanceWebsocketClient.o_type o = "MARKET"
             /\ BinanceWebsocketClient.o_side o
                = (if long then "BUY" else "SELL"))
            \/ (BinanceWebsocketClient.o_type o = "LIMIT"
                /\ BinanceWebsocketClient.o_side o
                   = (if long then "SELL" else "BUY")
                /\ exists p,
                    BinanceWebsocketClient.o_price o = Some p
                    /\ if long then entry_price < p else p < entry_price)
            \/ (BinanceWebsocketClient.o_type o = "STOP_MARKET"
                /\ BinanceWebsocketClient.o_side o
                   = (if long then "SELL" else "BUY")
                /\ exists p,
                    BinanceWebsocketClient.o_stopPrice o = Some p
                    /\ if long then p < entry_price else entry_price < p)).
Proof.
  intros F Hprice Hside.
  destruct (copy_open_to_orders ex db now symbol position_side entry_price
                                follower s master_amount quantity w F)
    as (_ & S & _).
  eexists. split; [exact S|].
  intros account o Hin long.
  apply in_map_iff in Hin. destruct Hin as (o' & E & Hin).
  injection E as <- <-.
  assert (tp_side :
            0 < CopyTrader.take_profit s ->
            let o := History.take_profit_order symbol position_side
                                               entry_price s quantity in
            BinanceWebsocketClient.o_side o = (if long then "SELL" else "BUY")
            /\ exists p, BinanceWebsocketClient.o_price o = Some p
                         /\ if long then entry_price < p else p < entry_price).
  { intro tp. subst long. unfold CopyTrader.opposite. cbn.
    destruct Hside as [-> | ->]; cbn; (split; [reflexivity|]);
      eexists; (split; [reflexivity|]);
      solve [apply above_entry; assumption | apply below_entry; assumption]. }
  assert (sl_side :
            0 < CopyTrader.stop_loss s ->
            let o := History.stop_loss_order symbol position_side
                                             entry_price s quantity in
            BinanceWebsocketClient.o_side o = (if long then "SELL" else "BUY")
            /\ exists p, BinanceWebsocketClient.o_stopPrice o = Some p
                         /\ if long then p < entry_price else entry_price < p).
  { intro sl. subst long. unfold CopyTrader.opposite. cbn.
    destruct Hside as [-> | ->]; cbn; (split; [reflexivity|]);
      eexists; (split; [reflexivity|]);
      solve [apply above_entry; assumption | apply below_entry; assumption]. }
  split; [reflexivity|].
  destruct Hin as [<- | Hin].
  - split; [reflexivity|]. split; [reflexivity|]. left. split; reflexivity.
  - destruct (BinanceWebsocketClient.futures_create_order
                ex follower (Observe.opening_order symbol position_side quantity));
      [|contradiction].
    unfold History.protective_orders in Hin.
    destruct (gt (CopyTrader.take_profit s) 0) eqn:TP;
      destruct (gt (CopyTrader.stop_loss s) 0) eqn:SL;
      try apply gt_true in TP; try apply gt_true in SL;
      repeat match type of Hin with
             | context [if ?b then _ else _] => destruct b
             end;
      cbn [In] in Hin;
      repeat match type of Hin with
             | _ \/ _ => destruct Hin as [Hin | Hin]
             | False => contradiction
             end;
      subst o'; (split; [reflexivity|]); (split; [reflexivity|]);
      solve [ right; left; split; [reflexivity | apply tp_side; exact TP]
            | right; right; split; [reflexivity | apply sl_side; exact SL] ].
Qed.

Lemma orders_are_on_the_right_side_witness :
  exists new,
    CopyTrader.sent
      (fst (CopyTrader.copy_open_to
              Scenario.accepting Scenario.working 0%Z
              "BTCUSDT" "SHORT" (-1) 50000
              (Scenario.F2, Scenario.f2_settings) Scenario.fresh))
    = CopyTrader.sent Scenario.fresh ++ new
    /\ List.length new = 3%nat
    /\ forall account o,
        In (account, o) new ->
        account = Scenario.F2
        /\ BinanceWebsocketClient.o_symbol o = "BTCUSDT"
        /\ BinanceWebsocketClient.o_quantity o = Qabs (-0.020).
Proof.
  destruct (orders_are_on_the_right_side
              Scenario.accepting Scenario.working 0%Z
              "BTCUSDT" "SHORT" (-1) 50000
              Scenario.F2 Scenario.f2_settings (-0.020) Scenario.fresh)
    as (new & Hsent & Hnew);
    [reflexivity | reflexivity | right; reflexivity |].
  exists new. split; [exact Hsent|]. split.
  - apply (f_equal (@List.length _)) in Hsent.
    rewrite length_app in Hsent. vm_compute in Hsent.
    symmetry. exact Hsent.
  - intros account o Hin.
    destruct (Hnew account o Hin) as (A & B & C & _).
    split; [exact A|]. split; [exact B | exact C].
Defined.

(** * The sizing and the loop *)

Lemma for_each_app {S A : Type} (body : A -> S -> S * outcome unit)
      (xs ys : list A) (st st1 : S) :
  for_each body xs st = (st1, Returned tt) ->
  for_each body (xs ++ ys) st = for_each body ys st1.
Proof.
  revert st. induction xs as [|x xs IH]; intros st H; cbn [for_each app] in *.
  - injection H as <-. reflexivity.
  - destruct (body x st) as [st' [[] | e |]]; [apply IH; exact H | |];
      discriminate.
Qed.

(** X6.  A sizing that raises is outside the follower's [try]: when the
    entry price of the event is zero and a follower's cap is negative,
    the ZeroDivisionError leaves [_copy_position_open] at that follower.
    The followers before it are served; neither it nor any follower
    after it gets an order or a row. *)
Theorem sizing_error_cuts_the_fan_out
        (ex : BinanceWebsocketClient.exchange) (db : CopyTrader.store)
        (now : Ledger.timestamp)
        (before after : CopyTrader.follower_clients)
        (follower : Z) (s : CopyTrader.settings)
        (symbol position_side : string) (master_amount entry_price : Q)
        (w w1 : CopyTrader.world) :
  entry_price == 0 ->
  CopyTrader.max_position_size s < 0 ->
  CopyTrader._copy_position_open ex db now before symbol position_side
                                 master_amount entry_price w
  = (w1, Returned tt) ->
  CopyTrader._copy_position_open
    ex db now (before ++ (follower, s) :: after) symbol position_side
    master_amount entry_price w
  = (w1, Raised ZeroDivisionError).
Proof.
  intros Z0 Hcap Hbefore.
  unfold CopyTrader._copy_position_open in *.
  rewrite (for_each_app _ _ _ _ _ Hbefore). cbn [for_each].
  unfold CopyTrader.copy_open_to, CopyTrader.follower_amount.
  assert (gt (Qabs (master_amount * CopyTrader.risk_factor s * entry_price))
             (CopyTrader.max_position_size s) = true) as ->.
  { apply gt_true. rewrite Z0, Qmult_0_r. cbn. exact Hcap. }
  unfold truediv.
  apply Qeq_bool_iff in Z0. unfold feq. rewrite Z0. reflexivity.
Qed.

Lemma sizing_error_cuts_the_fan_out_witness :
  CopyTrader._copy_position_open
    Scenario.accepting Scenario.working 0%Z
    ([(Scenario.F1, Scenario.f1_settings)]
     ++ (Cases.F3, Cases.negative_cap)
     :: [(Scenario.F2, Scenario.f2_settings)])
    "BTCUSDT" "LONG" 1 0 Scenario.fresh
  = (fst (CopyTrader._copy_position_open
            Scenario.accepting Scenario.working 0%Z
            [(Scenario.F1, Scenario.f1_settings)]
            "BTCUSDT" "LONG" 1 0 Scenario.fresh),
     Raised ZeroDivisionError).
Proof.
  apply sizing_error_cuts_the_fan_out; reflexivity.
Defined.

(** * The ledger over time *)

Section Growth.

Import BinanceWebsocketClient CopyTrader Observe History.

Variable db : store.

Lemma evolves_refl (r : Ledger.trade_row) : evolves r r.
Proof.
  unfold evolves. auto.
Qed.

Lemma evolves_trans (r1 r2 r3 : Ledger.trade_row) :
  evolves r1 r2 -> evolves r2 r3 -> evolves r1 r3.
Proof.
  intros (I1 & W1 & S1) (I2 & W2 & S2).
  split; [congruence|]. split; [congruence|].
  destruct S1 as [-> | (O1 & C1)]; [exact S2|].
  destruct S2 as [-> | (O2 & _)]; [right; auto|].
  unfold is_open in O2. rewrite C1 in O2. discriminate.
Qed.

Lemma grows_refl (t : Ledger.table Ledger.trade_row) : grows t t.
Proof.
  exists (Ledger.rows t), []. rewrite app_nil_r. split; [reflexivity|].
  induction (Ledger.rows t); constructor; auto using evolves_refl.
Qed.

Lemma Forall2_evolves_trans (l1 l2 l3 : list Ledger.trade_row) :
  Forall2 evolves l1 l2 -> Forall2 evolves l2 l3 -> Forall2 evolves l1 l3.
Proof.
  intro H. revert l3.
  induction H as [|a b l1 l2 Hab _ IH]; intros l3 H23;
    inversion H23; subst; constructor; eauto using evolves_trans.
Qed.

Lemma grows_trans (t1 t2 t3 : Ledger.table Ledger.trade_row) :
  grows t1 t2 -> grows t2 t3 -> grows t1 t3.
Proof.
  intros (o1 & a1 & E1 & F1) (o2 & a2 & E2 & F2).
  rewrite E1 in F2.
  apply Forall2_app_inv_l in F2.
  destruct F2 as (o2a & o2b & Fa & _ & ->).
  exists o2a, (o2b ++ a2). rewrite E2, app_assoc.
  split; [reflexivity|].
  eapply Forall2_evolves_trans; eassumption.
Qed.

(** The UPDATE of a close: every row evolves in place. *)
Lemma close_rows_grows (now : Ledger.timestamp) (f : Z) (symbol : string)
      (t : Ledger.table Ledger.trade_row) :
  grows t (close_rows db now f symbol t).
Proof.
  unfold close_rows, _update_trade_status.
  destruct (update_trades db f symbol); [|apply grows_refl].
  eexists _, []. rewrite app_nil_r. split; [reflexivity|].
  unfold Ledger.update. cbn.
  induction (Ledger.rows t) as [|r rows IH]; cbn; constructor; [|exact IH].
  destruct (open_trade_of f symbol r) eqn:O; [|apply evolves_refl].
  split; [reflexivity|]. split; [reflexivity|].
  right. split; [|reflexivity].
  unfold open_trade_of in O. apply andb_true_iff in O. apply O.
Qed.

(** The INSERT of an open: one row more. *)
Lemma with_open_row_grows (now : Ledger.timestamp) (f : Z)
      (symbol position_side : string) (entry_price amount : Q)
      (t : Ledger.table Ledger.trade_row) :
  grows t (with_open_row db now f symbol position_side entry_price amount t).
Proof.
  destruct (with_open_row_rows db now f symbol position_side entry_price amount)
    as (c & _ & _ & _ & _ & Hrows).
  eexists _, _. split; [apply Hrows|].
  induction (Ledger.rows t); constructor; auto using evolves_refl.
Qed.

Lemma close_all_grows (now : Ledger.timestamp) (symbol : string)
      (closed : list Z) :
  forall t, grows t (close_all db now symbol closed t).
Proof.
  unfold close_all.
  induction closed as [|f closed IH]; intro t; cbn [fold_left];
    [apply grows_refl|].
  eapply grows_trans; [apply close_rows_grows | apply IH].
Qed.

Lemma open_loop_grows (ex : exchange) (now : Ledger.timestamp)
      (followers : follower_clients) (symbol position_side : string)
      (master_amount entry_price : Q) :
  forall w,
    grows (ledger w)
          (ledger (fst (_copy_position_open ex db now followers symbol
                                            position_side master_amount
                                            entry_price w))).
Proof.
  unfold _copy_position_open.
  induction followers as [|[f s] rest IH]; intro w; cbn [for_each];
    [apply grows_refl|].
  destruct (copy_open_to_effect db now symbol position_side entry_price f s
                                master_amount ex ex)
    as [(e & _ & Hrun) | (q & more & _ & _ & _ & Hrun)]; [reflexivity | |].
  - rewrite Hrun. apply grows_refl.
  - rewrite (Hrun ex w (or_introl eq_refl)).
    eapply grows_trans; [|apply IH]. cbn [ledger].
    destruct (futures_create_order ex f _);
      [apply with_open_row_grows | apply grows_refl].
Qed.

End Growth.

(** X7.  The engine's ledger is append-only.  Whatever the event and
    whatever the exchange and the database answer,
    [_on_master_position_update] leaves
    every row that was in [trades] in its place, with its key, its
    follower, symbol, side, entry price, size, PnL columns and creation
    time as they were; a row changes at most once, from OPEN to CLOSED;
    no row is deleted, and new rows come after the old ones. *)
Theorem ledger_only_grows
        (ex : BinanceWebsocketClient.exchange) (db : CopyTrader.store)
        (now : Ledger.timestamp)
        (followers : CopyTrader.follower_clients)
        (positions : list CopyTrader.position_update)
        (w : CopyTrader.world) :
  History.grows
    (CopyTrader.ledger w)
    (CopyTrader.ledger
       (fst (CopyTrader._on_master_position_update ex db now followers
                                                   positions w))).
Proof.
  unfold CopyTrader._on_master_position_update. revert w.
  induction positions as [|p rest IH]; intro w; cbn [for_each];
    [apply grows_refl|].
  assert (step : History.grows
                   (CopyTrader.ledger w)
                   (CopyTrader.ledger
                      (fst (CopyTrader.on_position ex db now followers p w)))).
  { unfold CopyTrader.on_position.
    destruct (feq (CopyTrader.pa p) 0).
    - destruct (close_loop_effect db (CopyTrader.s p) ex followers)
        as (closed & E).
      rewrite E. apply close_all_grows.
    - apply open_loop_grows. }
  destruct (CopyTrader.on_position ex db now followers p w) as [w1 [[] | e |]];
    cbn [fst] in step |- *; [|exact step | exact step].
  eapply grows_trans; [exact step | apply IH].
Qed.

(** * Further properties of the close path *)

Section CloseFrame.

Import BinanceWebsocketClient CopyTrader Observe History.

Variables (ex : exchange) (db : store) (symbol : string).

(** [close_loop_effect], with the followers it can close. *)
Lemma close_loop_closes_followers (followers : follower_clients) :
  exists closed : list Z,
    incl closed (map fst followers)
    /\ forall now w,
        ledger (fst (_copy_position_close ex db now followers symbol w))
        = close_all db now symbol closed (ledger w).
Proof.
  unfold _copy_position_close.
  induction followers as [|[f s] rest (closed & Hincl & IH)]; cbn [for_each].
  - exists []. split; [apply incl_nil_l | reflexivity].
  - unfold copy_close_to at 1. cbn [fst].
    destruct (close_positions_effect db symbol ex f (get_positions ex f))
      as (reached & r & Hr & Hloop).
    exists (if reached then f :: closed else closed).
    split.
    { cbn [map fst]. destruct reached.
      - apply incl_cons; [left; reflexivity | apply incl_tl; exact Hincl].
      - apply incl_tl. exact Hincl. }
    intros now w.
    destruct (Hloop now w) as (L & O).
    destruct (for_each (close_one ex db now symbol f) (get_positions ex f) w)
      as [w1 r1].
    cbn [fst snd] in L, O. subst r1.
    assert (logged (w1, r) = (w1, Returned tt)) as ->
        by (destruct Hr as [-> | ->]; reflexivity).
    rewrite IH, L.
    destruct reached; reflexivity.
Qed.

Lemma closed_by_trans (now : Ledger.timestamp) (followers : follower_clients)
      (l1 l2 l3 : list Ledger.trade_row) :
  Forall2 (closed_by now symbol followers) l1 l2 ->
  Forall2 (closed_by now symbol followers) l2 l3 ->
  Forall2 (closed_by now symbol followers) l1 l3.
Proof.
  intro H. revert l3.
  induction H as [|a b l1 l2 Hab _ IH]; intros l3 H23;
    inversion H23 as [|b' c l2' l3' Hbc Hrest]; subst; constructor; auto.
  destruct Hab as [-> | (Hf & ->)]; [exact Hbc|].
  destruct Hbc as [-> | ((g & _ & O) & _)]; [right; auto|].
  unfold open_trade_of in O. cbn in O.
  rewrite andb_false_r in O. discriminate.
Qed.

Lemma close_rows_closed_by (now : Ledger.timestamp)
      (followers : follower_clients) (f : Z)
      (t : Ledger.table Ledger.trade_row) :
  In f (map fst followers) ->
  Forall2 (closed_by now symbol followers)
          (Ledger.rows t) (Ledger.rows (close_rows db now f symbol t)).
Proof.
  intro Hf.
  unfold close_rows, _update_trade_status, Ledger.update.
  destruct (update_trades db f symbol); cbn.
  - induction (Ledger.rows t) as [|r rows IH]; cbn; constructor; [|exact IH].
    destruct (open_trade_of f symbol r) eqn:O; [|left; reflexivity].
    right. split; [exists f; auto | reflexivity].
  - induction (Ledger.rows t); constructor; auto. left. reflexivity.
Qed.

Lemma close_all_closed_by (now : Ledger.timestamp)
      (followers : follower_clients) (closed : list Z) :
  incl closed (map fst followers) ->
  forall t,
    Forall2 (closed_by now symbol followers)
            (Ledger.rows t) (Ledger.rows (close_all db now symbol closed t)).
Proof.
  unfold close_all.
  induction closed as [|f closed IH]; intros Hincl t; cbn [fold_left].
  - induction (Ledger.rows t); constructor; auto. left. reflexivity.
  - eapply closed_by_trans.
    + apply close_rows_closed_by. apply Hincl. left. reflexivity.
    + apply IH. intros x Hx. apply Hincl. right. exact Hx.
Qed.

(** What the inner loop does for a follower none of whose positions on
    the symbol has a side that [close_position] looks for. *)
Lemma close_unmatched_positions (now : Ledger.timestamp) (f : Z)
      (ps : list position) :
  (forall p, In p (get_positions ex f) -> p_symbol p = symbol ->
             positionSide p = "BOTH") ->
  futures_cancel_all_open_orders ex f symbol = true ->
  forall w,
    for_each (close_one ex db now symbol f) ps w
    = (if existsb (fun p => String.eqb (p_symbol p) symbol) ps
       then {| ledger := close_rows db now f symbol (ledger w); sent := sent w |}
       else w,
       Returned tt).
Proof.
  intros Hboth Hcancel.
  assert (unmatched : forall side sent0,
             side = "LONG" \/ side = "SHORT" ->
             close_position ex f symbol side sent0 = (sent0, Returned tt)).
  { intros side sent0 Hside. unfold close_position.
    destruct (find _ (get_positions ex f)) as [p|] eqn:Found; [|reflexivity].
    apply find_some in Found. destruct Found as (Hin & Hmatch).
    apply andb_true_iff in Hmatch. destruct Hmatch as (Hs & Hp).
    apply String.eqb_eq in Hs. apply String.eqb_eq in Hp.
    rewrite (Hboth p Hin Hs) in Hp.
    destruct Hside as [-> | ->]; discriminate. }
  induction ps as [|p ps IH]; intro w; cbn [for_each existsb]; [reflexivity|].
  unfold close_one at 1.
  destruct (String.eqb (p_symbol p) symbol); cbn [orb]; [|apply IH].
  rewrite unmatched by (destruct (gt (positionAmt p) 0); auto).
  rewrite Hcancel, IH, update_trade_status_world.
  cbn [ledger sent with_sent].
  destruct (existsb _ ps); [|reflexivity].
  rewrite close_rows_twice. reflexivity.
Qed.

End CloseFrame.

(** X8.  Closing a symbol rewrites nothing else.  After
    [_copy_position_close] the ledger has the rows it had, in the same
    places; the only rows that differ were OPEN trades on that symbol of
    a registered follower, and they differ in their status, now CLOSED,
    and their closing time only.  Rows of other symbols, of followers
    that are not registered, and rows that were not OPEN are left as they
    were, and no row is added. *)
Theorem close_touches_only_its_rows
        (ex : BinanceWebsocketClient.exchange) (db : CopyTrader.store)
        (now : Ledger.timestamp)
        (followers : CopyTrader.follower_clients) (symbol : string)
        (w : CopyTrader.world) :
  Forall2 (History.closed_by now symbol followers)
          (Ledger.rows (CopyTrader.ledger w))
          (Ledger.rows
             (CopyTrader.ledger
                (fst (CopyTrader._copy_position_close ex db now followers
                                                      symbol w)))).
Proof.
  destruct (close_loop_closes_followers ex db symbol followers)
    as (closed & Hincl & E).
  rewrite E. apply close_all_closed_by. exact Hincl.
Qed.

(** X9.  A follower in one-way mode is marked closed without being
    closed.  When the exchange reports the follower's position on the
    symbol with [positionSide] BOTH, [close_position], which looks for a
    LONG or a SHORT side, finds nothing and returns: no order is sent.
    Once the pending orders are cancelled [_update_trade_status] is
    called all the same: if its UPDATE goes through, every OPEN trade of
    the follower on the symbol is set to CLOSED, with the time of the
    call as closing time, and every other row is left as it was; if the
    UPDATE raises, the ledger is as it was. *)
Theorem one_way_position_is_closed_on_paper
        (ex : BinanceWebsocketClient.exchange) (db : CopyTrader.store)
        (now : Ledger.timestamp)
        (symbol : string) (follower : Z) (s : CopyTrader.settings)
        (w : CopyTrader.world) :
  (exists p, In p (BinanceWebsocketClient.get_positions ex follower)
             /\ BinanceWebsocketClient.p_symbol p = symbol) ->
  (forall p, In p (BinanceWebsocketClient.get_positions ex follower) ->
             BinanceWebsocketClient.p_symbol p = symbol ->
             BinanceWebsocketClient.positionSide p = "BOTH") ->
  BinanceWebsocketClient.futures_cancel_all_open_orders ex follower symbol
  = true ->
  let result := CopyTrader.copy_close_to ex db now symbol (follower, s) w in
  snd result = Returned tt
  /\ CopyTrader.sent (fst result) = CopyTrader.sent w
  /\ (CopyTrader.update_trades db follower symbol = true ->
      Forall2
        (fun r r' =>
           Ledger.id r' = Ledger.id r
           /\ History.written_once (Ledger.cols r')
              = History.written_once (Ledger.cols r)
           /\ (CopyTrader.open_trade_of follower symbol r = true ->
               Ledger.status (Ledger.cols r') = Some "CLOSED"
               /\ Ledger.closed_at (Ledger.cols r') = Some now)
           /\ (CopyTrader.open_trade_of follower symbol r = false ->
               r' = r))
        (Ledger.rows (CopyTrader.ledger w))
        (Ledger.rows (CopyTrader.ledger (fst result))))
  /\ (CopyTrader.update_trades db follower symbol = false ->
      CopyTrader.ledger (fst result) = CopyTrader.ledger w).
Proof.
  intros (p & Hin & Hsym) Hboth Hcancel result. subst result.
  unfold CopyTrader.copy_close_to. cbn [fst].
  rewrite (close_unmatched_positions ex db symbol now follower _ Hboth
                                     Hcancel).
  assert (existsb (fun p => String.eqb (BinanceWebsocketClient.p_symbol p) symbol)
                  (BinanceWebsocketClient.get_positions ex follower) = true)
    as ->.
  { apply existsb_exists. exists p. split; [exact Hin|].
    apply String.eqb_eq. exact Hsym. }
  cbn [logged fst snd CopyTrader.ledger CopyTrader.sent].
  split; [reflexivity|]. split; [reflexivity|].
  unfold Observe.close_rows, CopyTrader._update_trade_status.
  split; intro Hup; rewrite Hup; [|reflexivity].
  unfold Ledger.update. cbn [Ledger.rows CopyTrader.ledger].
  induction (Ledger.rows (CopyTrader.ledger w)) as [|r rows IH];
    cbn [map]; constructor; [|exact IH].
  destruct (CopyTrader.open_trade_of follower symbol r).
  - cbn. repeat split; discriminate.
  - repeat split; discriminate.
Qed.

Lemma one_way_position_is_closed_on_paper_witness :
  let w := fst Scenario.after_open in
  let result :=
    CopyTrader.copy_close_to Cases.one_way Scenario.working 10%Z "BTCUSDT"
                             (Scenario.F1, Scenario.f1_settings) w in
  map (fun r => Ledger.status (Ledger.cols r))
      (Ledger.rows (CopyTrader.ledger w)) = [Some "OPEN"]
  /\ snd result = Returned tt
  /\ CopyTrader.sent (fst result) = CopyTrader.sent w
  /\ map (fun r => Ledger.status (Ledger.cols r))
         (Ledger.rows (CopyTrader.ledger (fst result))) = [Some "CLOSED"].
Proof.
  intros w result.
  split; [reflexivity|].
  destruct (one_way_position_is_closed_on_paper
              Cases.one_way Scenario.working 10%Z "BTCUSDT" Scenario.F1
              Scenario.f1_settings w) as (O & S & _ & _).
  - eexists. split; [left; reflexivity | reflexivity].
  - intros p [<- | []] _. reflexivity.
  - reflexivity.
  - split; [exact O|]. split; [exact S | reflexivity].
Defined.

(** X10.  A follower without a position on the symbol is passed over:
    when the exchange reports none for it, or the query fails, the close
    sends nothing for it and leaves its rows as they are, OPEN trades
    included. *)
Theorem no_position_nothing_closed
        (ex : BinanceWebsocketClient.exchange) (db : CopyTrader.store)
        (now : Ledger.timestamp)
        (symbol : string) (follower : Z) (s : CopyTrader.settings)
        (w : CopyTrader.world) :
  (forall p, In p (BinanceWebsocketClient.get_positions ex follower) ->
             BinanceWebsocketClient.p_symbol p <> symbol) ->
  CopyTrader.copy_close_to ex db now symbol (follower, s) w = (w, Returned tt).
Proof.
  intro Hnone.
  unfold CopyTrader.copy_close_to. cbn [fst].
  induction (BinanceWebsocketClient.get_positions ex follower) as [|p ps IH];
    cbn [for_each]; [reflexivity|].
  unfold CopyTrader.close_one at 1.
  destruct (String.eqb_spec (BinanceWebsocketClient.p_symbol p) symbol) as [E|_].
  - exfalso. apply (Hnone p); [left; reflexivity | exact E].
  - apply IH. intros q Hq. apply Hnone. right. exact Hq.
Qed.

Lemma no_position_nothing_closed_witness :
  CopyTrader.copy_close_to
    Scenario.holding_position Scenario.working 10%Z "ETHUSDT"
    (Scenario.F1, Scenario.f1_settings) (fst Scenario.after_open)
  = (fst Scenario.after_open, Returned tt).
Proof.
  apply no_position_nothing_closed.
  intros p [<- | []]. discriminate.
Defined.

(** * Further properties of the stream loop *)

Section Loop.

Import BinanceWebsocketClient.

Lemma simulated_loop_sleeps (keep_running : bool) (env : list attempt) :
  Forall (fun a => a = Sleep 5) (simulated_loop keep_running env).
Proof.
  revert keep_running.
  induction env as [|a env IH]; intro k; cbn [simulated_loop]; [constructor|].
  destruct k; constructor; [reflexivity | apply IH].
Qed.

Lemma reconnect_loop_stopped (has_on_error keep_running : bool)
      (before after : list attempt) (a : attempt) :
  stopped_in_session a || stopped_in_pause a = true ->
  reconnect_loop has_on_error keep_running (before ++ a :: after)
  = reconnect_loop has_on_error keep_running (before ++ [a]).
Proof.
  intro Hstop. revert keep_running.
  induction before as [|b before IH]; intro k; cbn [app reconnect_loop].
  - destruct k; [|reflexivity].
    destruct (stopped_in_session a); [reflexivity|].
    cbn [orb] in Hstop. rewrite Hstop. cbn [negb].
    destruct after; reflexivity.
  - destruct k; [|reflexivity].
    destruct (stopped_in_session b); [reflexivity|].
    rewrite IH. reflexivity.
Qed.

Lemma connects_app (tr1 tr2 : list action) :
  connects (tr1 ++ tr2) = (connects tr1 + connects tr2)%nat.
Proof.
  unfold connects. rewrite filter_app, length_app. reflexivity.
Qed.

Lemma connects_report (has_on_error : bool) (a : attempt) :
  connects (report has_on_error a) = 0%nat.
Proof.
  unfold report.
  destruct (ending a), has_on_error; reflexivity.
Qed.

Lemma reconnect_loop_connects (has_on_error keep_running : bool)
      (env : list attempt) :
  (connects (reconnect_loop has_on_error keep_running env)
   <= List.length env)%nat.
Proof.
  revert keep_running.
  induction env as [|a env IH]; intro k; cbn [reconnect_loop];
    [apply Nat.le_refl|].
  destruct k; [|cbn; lia].
  change (Connect :: report has_on_error a ++
            (if stopped_in_session a then []
             else Sleep 5 ::
                    reconnect_loop has_on_error
                                   (negb (stopped_in_pause a)) env))
    with ([Connect] ++ report has_on_error a ++
            (if stopped_in_session a then []
             else [Sleep 5] ++
                    reconnect_loop has_on_error
                                   (negb (stopped_in_pause a)) env)).
  rewrite !connects_app, connects_report.
  destruct (stopped_in_session a).
  - cbn. lia.
  - rewrite connects_app.
    specialize (IH (negb (stopped_in_pause a))).
    cbn [List.length]. change (connects [Connect]) with 1%nat.
    change (connects [Sleep 5]) with 0%nat. lia.
Qed.

End Loop.

(** X11.  In test mode the client never connects to the exchange:
    whatever the environment does, whether or not [on_error] is set and
    whether or not [keep_running] is set at the start, the loop of
    [_run_websocket] does nothing but sleep five seconds at a time. *)
Theorem test_mode_never_connects
        (has_on_error keep_running : bool)
        (env : list BinanceWebsocketClient.attempt) :
  Forall (fun a => a = BinanceWebsocketClient.Sleep 5)
         (BinanceWebsocketClient._run_websocket
            true has_on_error keep_running env)
  /\ BinanceWebsocketClient.connects
       (BinanceWebsocketClient._run_websocket
          true has_on_error keep_running env) = 0%nat.
Proof.
  unfold BinanceWebsocketClient._run_websocket.
  pose proof (simulated_loop_sleeps keep_running env) as H.
  split; [exact H|].
  unfold BinanceWebsocketClient.connects.
  induction H as [|a tr -> _ IH]; [reflexivity | exact IH].
Qed.

(** X12.  [stop] ends the loop of [_run_websocket]: once [keep_running]
    has been cleared, during a session or during the pause after it, no
    further connection is attempted, whatever the environment would have
    done next; so the client connects at most once per session that
    ended before the stop, and once more for the session that was
    stopped. *)
Theorem stop_ends_the_loop
        (has_on_error keep_running : bool)
        (before after : list BinanceWebsocketClient.attempt)
        (a : BinanceWebsocketClient.attempt) :
  BinanceWebsocketClient.stopped_in_session a
  || BinanceWebsocketClient.stopped_in_pause a = true ->
  BinanceWebsocketClient._run_websocket
    false has_on_error keep_running (before ++ a :: after)
  = BinanceWebsocketClient._run_websocket
      false has_on_error keep_running (before ++ [a])
  /\ (BinanceWebsocketClient.connects
        (BinanceWebsocketClient._run_websocket
           false has_on_error keep_running (before ++ a :: after))
      <= List.length before + 1)%nat.
Proof.
  intro Hstop.
  unfold BinanceWebsocketClient._run_websocket.
  rewrite (reconnect_loop_stopped has_on_error keep_running before after a
                                  Hstop).
  split; [reflexivity|].
  pose proof (reconnect_loop_connects has_on_error keep_running
                                      (before ++ [a])) as H.
  rewrite length_app in H. exact H.
Qed.

Lemma stop_ends_the_loop_witness :
  BinanceWebsocketClient._run_websocket
    false true true
    (Scenario.revoked_then_fine ++ Cases.stopped_session
       :: Scenario.revoked_then_fine)
  = BinanceWebsocketClient._run_websocket
      false true true (Scenario.revoked_then_fine ++ [Cases.stopped_session])
  /\ (BinanceWebsocketClient.connects
        (BinanceWebsocketClient._run_websocket
           false true true
           (Scenario.revoked_then_fine ++ Cases.stopped_session
              :: Scenario.revoked_then_fine))
      <= List.length Scenario.revoked_then_fine + 1)%nat.
Proof.
  apply stop_ends_the_loop. reflexivity.
Defined.

(** * Further properties of the master ledger *)

Section MasterLedger.

Import Database Trades MasterOrders.

Lemma add_master_trade_effect (now : Ledger.timestamp)
      (d : master_trade_data) (db : state) :
  lock db = false ->
  add_master_trade now d db
  = ({| trades := trades db;
        master_trades :=
          {| Ledger.rows :=
               Ledger.rows (master_trades db)
               ++ [{| Ledger.m_id :=
                        Ledger.next_id Ledger.m_id (master_trades db);
                      Ledger.m_cols := stamped_master now d |}];
             Ledger.seq := Ledger.next_id Ledger.m_id (master_trades db) |};
        audit_log := audit_log db; lock := false |},
     Returned (Ledger.next_id Ledger.m_id (master_trades db))).
Proof.
  intro free. unfold add_master_trade, with_lock. rewrite free. reflexivity.
Qed.

Lemma get_master_open_trades_effect (db : state) :
  lock db = false ->
  get_master_open_trades db
  = (db,
     Returned
       (filter (fun r => Ledger.text_is (Ledger.m_status (Ledger.m_cols r))
                                        "OPEN")
               (Ledger.rows (master_trades db)))).
Proof.
  destruct db as [t m a l]. cbn [lock]. intros ->. reflexivity.
Qed.

Lemma update_master_trade_effect (trade_id : Z) (u : update_data)
      (db : state) :
  lock db = false ->
  update_master_trade trade_id u db
  = ({| trades := trades db;
        master_trades :=
          Ledger.update (fun r => Z.eqb (Ledger.m_id r) trade_id)
                        (apply_update u) (master_trades db);
        audit_log := audit_log db; lock := false |},
     Returned true).
Proof.
  destruct db as [t m a l]. cbn [lock]. intros ->. reflexivity.
Qed.

Lemma update_other_keys {R : Type} (key : R -> Z) (set : R -> R) (k : Z)
      (rs : list R) :
  ~ In k (map key rs) ->
  map (fun r => if Z.eqb (key r) k then set r else r) rs = rs.
Proof.
  induction rs as [|r rs IH]; [reflexivity|].
  cbn [map In]. intro N.
  destruct (Z.eqb_spec (key r) k) as [E | _]; [tauto|].
  rewrite IH by tauto. reflexivity.
Qed.

End MasterLedger.

(** X13.  A master trade that is added with status OPEN is listed by
    [get_master_open_trades] from then on: with the lock free,
    [add_master_trade] returns a key that no row of the table has, leaves
    the lock free, and the open trades are then those listed before,
    in the same order, followed by the new row, which carries the columns
    given and the time of the insert where no [created_at] was given. *)
Theorem master_trade_round_trip
        (now : Ledger.timestamp) (d : Trades.master_trade_data)
        (db : Database.state) :
  Database.lock db = false ->
  Ledger.m_status d = Some "OPEN" ->
  exists db1 k earlier,
    Trades.add_master_trade now d db = (db1, Returned k)
    /\ ~ In k (map Ledger.m_id (Ledger.rows (Database.master_trades db)))
    /\ Database.get_master_open_trades db = (db, Returned earlier)
    /\ Database.get_master_open_trades db1
       = (db1,
          Returned
            (earlier ++ [{| Ledger.m_id := k;
                            Ledger.m_cols := Trades.stamped_master now d |}])).
Proof.
  intros free Hopen.
  eexists _, _, _.
  split; [apply add_master_trade_effect; exact free|].
  split; [apply next_id_fresh|].
  split; [apply get_master_open_trades_effect; exact free|].
  rewrite get_master_open_trades_effect by reflexivity.
  cbn [Database.master_trades Ledger.rows].
  rewrite filter_app. cbn [filter Ledger.m_cols Trades.stamped_master
                           Ledger.m_status].
  rewrite Hopen. reflexivity.
Qed.

Lemma master_trade_round_trip_witness :
  exists db1 k earlier,
    Trades.add_master_trade
      20%Z Cases.limit_buy
      (Scenario.holding_master (Scenario.master_trade "LONG" 50000 1))
    = (db1, Returned k)
    /\ ~ In k (map Ledger.m_id
                   (Ledger.rows
                      (Database.master_trades
                         (Scenario.holding_master
                            (Scenario.master_trade "LONG" 50000 1)))))
    /\ Database.get_master_open_trades
         (Scenario.holding_master (Scenario.master_trade "LONG" 50000 1))
       = (Scenario.holding_master (Scenario.master_trade "LONG" 50000 1),
          Returned earlier)
    /\ Database.get_master_open_trades db1
       = (db1,
          Returned
            (earlier ++ [{| Ledger.m_id := k;
                            Ledger.m_cols :=
                              Trades.stamped_master 20%Z Cases.limit_buy |}])).
Proof.
  apply master_trade_round_trip; reflexivity.
Defined.

(** X14.  [update_master_trade] answers [True] whether or not a row has
    the key: with the lock free it returns, leaves the lock free, touches
    no table but [master_trades], keeps the keys and the order of the
    rows and every row under another key; for a key that no row has it
    changes nothing at all. *)
Theorem update_master_trade_frame
        (trade_id : Z) (u : Database.update_data) (db : Database.state) :
  Database.lock db = false ->
  exists db',
    Database.update_master_trade trade_id u db = (db', Returned true)
    /\ Database.lock db' = false
    /\ Database.trades db' = Database.trades db
    /\ Database.audit_log db' = Database.audit_log db
    /\ map Ledger.m_id (Ledger.rows (Database.master_trades db'))
       = map Ledger.m_id (Ledger.rows (Database.master_trades db))
    /\ (forall r, In r (Ledger.rows (Database.master_trades db)) ->
                  Ledger.m_id r <> trade_id ->
                  In r (Ledger.rows (Database.master_trades db')))
    /\ (~ In trade_id
          (map Ledger.m_id (Ledger.rows (Database.master_trades db))) ->
        db' = db).
Proof.
  intro free.
  eexists. split; [apply update_master_trade_effect; exact free|].
  cbn [Database.lock Database.trades Database.audit_log
       Database.master_trades].
  repeat split.
  - unfold Ledger.update. cbn [Ledger.rows].
    rewrite map_map. apply map_ext. intro r.
    destruct (Ledger.m_id r =? trade_id)%Z; reflexivity.
  - intros r Hin N. unfold Ledger.update. cbn [Ledger.rows].
    apply in_map_iff. exists r. split; [|exact Hin].
    destruct (Z.eqb_spec (Ledger.m_id r) trade_id); [contradiction|].
    reflexivity.
  - intro N. destruct db as [t [rows seq] a l]. cbn in free. subst l.
    unfold Ledger.update. cbn [Database.master_trades Ledger.rows Ledger.seq
                               Database.trades Database.audit_log] in *.
    rewrite (update_other_keys Ledger.m_id _ trade_id rows N). reflexivity.
Qed.

Lemma update_master_trade_frame_witness :
  Database.update_master_trade
    8%Z {| Database.u_status := "CLOSED"; Database.u_closed_at := 20%Z;
           Database.u_pnl := 1; Database.u_pnl_percent := 1 |}
    (Scenario.holding_master (Scenario.master_trade "LONG" 50000 1))
  = (Scenario.holding_master (Scenario.master_trade "LONG" 50000 1),
     Returned true).
Proof.
  destruct (update_master_trade_frame
              8%Z {| Database.u_status := "CLOSED";
                     Database.u_closed_at := 20%Z;
                     Database.u_pnl := 1; Database.u_pnl_percent := 1 |}
              (Scenario.holding_master (Scenario.master_trade "LONG" 50000 1))
              eq_refl)
    as (db' & E & _ & _ & _ & _ & _ & Same).
  rewrite E. rewrite Same; [reflexivity|].
  intros [H | []]. discriminate.
Defined.

(** X15.  Opening and closing a master trade brings the list of open
    trades back to what it was: a trade added with status OPEN and an
    entry price, then closed by [close_master_trade] from a fill at a
    price other than zero, is no longer listed by
    [get_master_open_trades], and the trades listed before it was added
    are listed again, unchanged and in the same order. *)
Theorem closed_master_trade_is_not_listed
        (now later : Ledger.timestamp) (d : Trades.master_trade_data)
        (entry_price avg_price executed_qty : Q) (db : Database.state) :
  Database.lock db = false ->
  Ledger.m_status d = Some "OPEN" ->
  Ledger.m_entry_price d = Some entry_price ->
  ~ entry_price == 0 ->
  ~ avg_price == 0 ->
  exists db1 k db2 earlier,
    Trades.add_master_trade now d db = (db1, Returned k)
    /\ MasterOrders.close_master_trade
         later {| Ledger.m_id := k;
                  Ledger.m_cols := Trades.stamped_master now d |}
         avg_price executed_qty db1
       = (db2, Returned true)
    /\ Database.get_master_open_trades db = (db, Returned earlier)
    /\ Database.get_master_open_trades db2 = (db2, Returned earlier).
Proof.
  intros free Hopen Hentry Ne Na.
  assert (exists u,
             MasterOrders.closing_update
               later {| Ledger.m_id :=
                          Ledger.next_id Ledger.m_id
                                         (Database.master_trades db);
                        Ledger.m_cols := Trades.stamped_master now d |}
               avg_price executed_qty
             = Returned u /\ Database.u_status u = "CLOSED") as (u & Eu & Hu).
  { unfold MasterOrders.closing_update.
    cbn [Ledger.m_cols Trades.stamped_master Ledger.m_entry_price
         Ledger.m_position_side].
    rewrite Hentry.
    destruct (Ledger.text_is (Ledger.m_position_side d) "LONG");
      rewrite truediv_returns by assumption; cbn [bind];
      eexists; split; reflexivity. }
  eexists _, _, _, _.
  split; [apply add_master_trade_effect; exact free|].
  unfold MasterOrders.close_master_trade. rewrite Eu.
  cbn [Ledger.m_id].
  split; [apply update_master_trade_effect; reflexivity|].
  split; [apply get_master_open_trades_effect; exact free|].
  rewrite get_master_open_trades_effect by reflexivity.
  do 2 f_equal.
  cbn [Database.master_trades]. unfold Ledger.update. cbn [Ledger.rows].
  rewrite map_app, filter_app.
  rewrite (update_other_keys Ledger.m_id _ _ _
             (next_id_fresh Ledger.m_id (Database.master_trades db))).
  cbn [map Ledger.m_id]. rewrite Z.eqb_refl.
  cbn [filter Database.apply_update Ledger.m_cols Ledger.m_status].
  rewrite Hu. cbn [Ledger.text_is].
  change (String.eqb "CLOSED" "OPEN") with false.
  apply app_nil_r.
Qed.

Lemma closed_master_trade_is_not_listed_witness :
  exists db1 k db2 earlier,
    Trades.add_master_trade
      20%Z Cases.limit_buy
      (Scenario.holding_master (Scenario.master_trade "LONG" 50000 1))
    = (db1, Returned k)
    /\ MasterOrders.close_master_trade
         30%Z {| Ledger.m_id := k;
                 Ledger.m_cols := Trades.stamped_master 20%Z Cases.limit_buy |}
         51000 1 db1
       = (db2, Returned true)
    /\ Database.get_master_open_trades
         (Scenario.holding_master (Scenario.master_trade "LONG" 50000 1))
       = (Scenario.holding_master (Scenario.master_trade "LONG" 50000 1),
          Returned earlier)
    /\ Database.get_master_open_trades db2 = (db2, Returned earlier).
Proof.
  apply (closed_master_trade_is_not_listed
           20%Z 30%Z Cases.limit_buy 50000 51000 1);
    [reflexivity | reflexivity | reflexivity | discriminate | discriminate].
Defined.

Section Fills.

Import Database Trades MasterOrders.

Variable close_user_trades : Z -> Q -> state -> state * outcome unit.

Lemma skipped_trades (now : Ledger.timestamp) (symbol side : string)
      (avg_price executed_qty : Q) (before : list Ledger.master_row)
      (db : state) :
  Forall (fun r =>
            Ledger.text_is (Ledger.m_symbol (Ledger.m_cols r)) symbol
            && is_closing_order (Ledger.m_position_side (Ledger.m_cols r))
                                side = false) before ->
  for_each (close_if_closing close_user_trades now symbol side
                             avg_price executed_qty) before db
  = (db, Returned tt).
Proof.
  induction 1 as [|r before Hr _ IH]; cbn [for_each]; [reflexivity|].
  unfold close_if_closing at 1. rewrite Hr. exact IH.
Qed.

End Fills.

(** X16.  A fill that reaches an open master trade without an entry
    price closes nothing: when the first open trade on the symbol that
    the fill's side would close has no [entry_price], the PnL cannot be
    computed, the exception is logged, and [handle_filled_master_order]
    leaves the database exactly as it was; that trade and every trade
    listed after it stay OPEN, whatever [close_user_trades] does. *)
Theorem fill_stops_at_trade_without_entry_price
        (close_user_trades :
           Z -> Q -> Database.state -> Database.state * outcome unit)
        (now : Ledger.timestamp) (symbol side : string) (order_id : Z)
        (avg_price executed_qty : Q) (db : Database.state)
        (before after : list Ledger.master_row) (trade : Ledger.master_row) :
  Database.lock db = false ->
  filter (fun r => Ledger.text_is (Ledger.m_status (Ledger.m_cols r)) "OPEN")
         (Ledger.rows (Database.master_trades db))
  = before ++ trade :: after ->
  Forall (fun r =>
            Ledger.text_is (Ledger.m_symbol (Ledger.m_cols r)) symbol
            && MasterOrders.is_closing_order
                 (Ledger.m_position_side (Ledger.m_cols r)) side = false)
         before ->
  Ledger.text_is (Ledger.m_symbol (Ledger.m_cols trade)) symbol = true ->
  MasterOrders.is_closing_order
    (Ledger.m_position_side (Ledger.m_cols trade)) side = true ->
  Ledger.m_entry_price (Ledger.m_cols trade) = None ->
  MasterOrders.handle_filled_master_order
    close_user_trades now symbol side order_id avg_price executed_qty db
  = (db, Returned tt).
Proof.
  intros free Hopen Hbefore Hsym Hclosing Hentry.
  unfold MasterOrders.handle_filled_master_order.
  rewrite get_master_open_trades_effect by exact free.
  rewrite Hopen.
  rewrite (for_each_app _ before (trade :: after) db db)
    by (apply skipped_trades; exact Hbefore).
  cbn [for_each].
  unfold MasterOrders.close_if_closing at 1.
  rewrite Hsym, Hclosing. cbn [andb].
  unfold MasterOrders.close_master_trade, MasterOrders.closing_update.
  rewrite Hentry. reflexivity.
Qed.

Lemma fill_stops_at_trade_without_entry_price_witness :
  MasterOrders.handle_filled_master_order
    Cases.close_user_trades 30%Z "BTCUSDT" "SELL" 9004%Z 51000 1
    Cases.holding_market_buy
  = (Cases.holding_market_buy, Returned tt).
Proof.
  apply (fill_stops_at_trade_without_entry_price
           Cases.close_user_trades 30%Z "BTCUSDT" "SELL" 9004%Z 51000 1
           Cases.holding_market_buy []
           []
           {| Ledger.m_id := 1;
              Ledger.m_cols := Trades.stamped_master 0%Z Cases.market_buy |});
    try reflexivity.
  constructor.
Defined.

(** X17.  A master trade recorded from an order without a price, as
    every MARKET order is, can never be closed: [handle_new_master_order]
    stores no entry price for it, and when no other open trade is on the
    symbol, no later fill on the symbol changes anything, whatever its
    side, price and quantity; the trade stays listed as OPEN. *)
Theorem market_order_trade_is_never_closed
        (close_user_trades :
           Z -> Q -> Database.state -> Database.state * outcome unit)
        (now later : Ledger.timestamp) (symbol side position_side : string)
        (quantity price : Q) (order_id : Z) (leverage : option Z)
        (fill_side : string) (fill_order_id : Z)
        (avg_price executed_qty : Q) (db : Database.state) :
  Database.lock db = false ->
  price <= 0 ->
  Forall (fun r =>
            Ledger.text_is (Ledger.m_status (Ledger.m_cols r)) "OPEN"
            && Ledger.text_is (Ledger.m_symbol (Ledger.m_cols r)) symbol
            = false)
         (Ledger.rows (Database.master_trades db)) ->
  exists db1 k opens,
    Trades.add_master_trade
      now (MasterEvents.new_trade_data symbol side quantity price
                                       position_side order_id leverage) db
    = (db1, Returned k)
    /\ MasterOrders.handle_filled_master_order
         close_user_trades later symbol fill_side fill_order_id
         avg_price executed_qty db1
       = (db1, Returned tt)
    /\ Database.get_master_open_trades db1 = (db1, Returned opens)
    /\ In k (map Ledger.m_id opens).
Proof.
  intros free Hprice Hothers.
  eexists _, _, _.
  split; [apply add_master_trade_effect; exact free|].
  split; [|split; [apply get_master_open_trades_effect; reflexivity|]].
  - unfold MasterOrders.handle_filled_master_order.
    rewrite get_master_open_trades_effect by reflexivity.
    cbn [Database.master_trades Ledger.rows].
    rewrite filter_app.
    cbn [filter Ledger.m_cols Trades.stamped_master Ledger.m_status
         MasterEvents.new_trade_data Ledger.text_is].
    change (String.eqb "OPEN" "OPEN") with true. cbn iota.
    erewrite for_each_app.
    2:{ apply skipped_trades.
        apply Forall_forall. intros r Hin.
        apply filter_In in Hin. destruct Hin as (Hin & Ho).
        rewrite Forall_forall in Hothers. specialize (Hothers r Hin).
        rewrite Ho in Hothers. cbn [andb] in Hothers.
        rewrite Hothers. reflexivity. }
    cbn [for_each].
    unfold MasterOrders.close_if_closing at 1.
    cbn [Ledger.m_cols Ledger.m_symbol Ledger.text_is Ledger.m_position_side
         Ledger.m_id Trades.stamped_master MasterEvents.new_trade_data].
    rewrite String.eqb_refl. cbn [andb].
    destruct (MasterOrders.is_closing_order _ fill_side); [|reflexivity].
    unfold MasterOrders.close_master_trade, MasterOrders.closing_update.
    cbn [Ledger.m_cols Ledger.m_entry_price Trades.stamped_master
         MasterEvents.new_trade_data].
    apply gt_false in Hprice. rewrite Hprice. reflexivity.
  - cbn [Database.master_trades Ledger.rows].
    rewrite filter_app, map_app. apply in_or_app. right.
    cbn [filter Ledger.m_cols Trades.stamped_master Ledger.m_status
         MasterEvents.new_trade_data Ledger.text_is].
    change (String.eqb "OPEN" "OPEN") with true. cbn iota.
    left. reflexivity.
Qed.

Lemma market_order_trade_is_never_closed_witness :
  exists db1 k opens,
    Trades.add_master_trade
      0%Z (MasterEvents.new_trade_data "BTCUSDT" "BUY" 1 0 "BOTH" 9002%Z
                                       (Some 10%Z)) Cases.no_trades
    = (db1, Returned k)
    /\ MasterOrders.handle_filled_master_order
         Cases.close_user_trades 30%Z "BTCUSDT" "SELL" 9004%Z 51000 1 db1
       = (db1, Returned tt)
    /\ Database.get_master_open_trades db1 = (db1, Returned opens)
    /\ In k (map Ledger.m_id opens).
Proof.
  apply market_order_trade_is_never_closed;
    [reflexivity | discriminate | constructor].
Defined.

(** * Further properties of the follower ledger *)

Section UserLedger.

Import Database Trades.

Lemma get_user_open_trades_effect (telegram_id : Z) (db : state) :
  lock db = false ->
  get_user_open_trades telegram_id db
  = (db, Returned (filter (open_of telegram_id) (Ledger.rows (trades db)))).
Proof.
  destruct db as [t m a l]. cbn [lock]. intros ->. reflexivity.
Qed.

Lemma get_user_trade_history_effect (telegram_id limit : Z) (db : state) :
  lock db = false ->
  get_user_trade_history telegram_id limit db
  = (db,
     Returned
       (limit_to limit
          (by_closed_at_desc
             (filter (past_of telegram_id) (Ledger.rows (trades db)))))).
Proof.
  destruct db as [t m a l]. cbn [lock]. intros ->. reflexivity.
Qed.

Lemma place_permutation (r : Ledger.trade_row) (rs : list Ledger.trade_row) :
  Permutation (place r rs) (r :: rs).
Proof.
  induction rs as [|x rs IH]; cbn [place]; [apply Permutation_refl|].
  destruct (closed_later x r); [|apply Permutation_refl].
  apply perm_trans with (x :: r :: rs);
    [apply perm_skip; exact IH | apply perm_swap].
Qed.

Lemma by_closed_at_desc_permutation (rs : list Ledger.trade_row) :
  Permutation (by_closed_at_desc rs) rs.
Proof.
  induction rs as [|r rs IH]; [apply Permutation_refl|].
  change (by_closed_at_desc (r :: rs)) with (place r (by_closed_at_desc rs)).
  apply perm_trans with (r :: by_closed_at_desc rs);
    [apply place_permutation | apply perm_skip; exact IH].
Qed.

Lemma closed_later_asym (a b : Ledger.trade_row) :
  closed_later a b = true -> closed_later b a = false.
Proof.
  unfold closed_later.
  destruct (Ledger.closed_at (Ledger.cols a)),
    (Ledger.closed_at (Ledger.cols b)); try reflexivity; try discriminate.
  intro H. apply Z.ltb_lt in H. apply Z.ltb_ge. lia.
Qed.

Lemma closed_later_trans (a b c : Ledger.trade_row) :
  closed_later b a = false -> closed_later c b = false ->
  closed_later c a = false.
Proof.
  unfold closed_later.
  destruct (Ledger.closed_at (Ledger.cols a)),
    (Ledger.closed_at (Ledger.cols b)),
    (Ledger.closed_at (Ledger.cols c));
    try reflexivity; try discriminate.
  intros H1 H2. apply Z.ltb_ge in H1, H2. apply Z.ltb_ge. lia.
Qed.

Lemma place_sorted (r : Ledger.trade_row) (rs : list Ledger.trade_row) :
  StronglySorted (fun a b => closed_later b a = false) rs ->
  StronglySorted (fun a b => closed_later b a = false) (place r rs).
Proof.
  induction 1 as [|x rs Hs IH Hx]; cbn [place].
  - constructor; constructor.
  - destruct (closed_later x r) eqn:E.
    + constructor; [exact IH|].
      apply Forall_forall. intros y Hy.
      apply (Permutation_in _ (place_permutation r rs)) in Hy.
      destruct Hy as [<- | Hy].
      * apply closed_later_asym. exact E.
      * rewrite Forall_forall in Hx. apply Hx. exact Hy.
    + constructor; [constructor; assumption|].
      constructor; [exact E|].
      apply Forall_forall. intros y Hy.
      rewrite Forall_forall in Hx.
      apply closed_later_trans with x; [exact E | apply Hx; exact Hy].
Qed.

Lemma by_closed_at_desc_sorted (rs : list Ledger.trade_row) :
  StronglySorted (fun a b => closed_later b a = false) (by_closed_at_desc rs).
Proof.
  induction rs as [|r rs IH]; [constructor|].
  change (by_closed_at_desc (r :: rs)) with (place r (by_closed_at_desc rs)).
  apply place_sorted. exact IH.
Qed.

End UserLedger.

(** X18.  After one [add_user_trade] that finds its three keys the
    database handler is dead: the call waits for the lock it holds
    itself, the lock stays taken, and every later call of a method that
    takes the lock waits for ever as well; the row of the call is in the
    table all the same. *)
Theorem add_user_trade_blocks_the_handler
        (now : Ledger.timestamp) (d : Database.trade_data)
        (telegram_id : Z) (symbol position_side : string)
        (db : Database.state) :
  Database.lock db = false ->
  Ledger.telegram_id d = Some telegram_id ->
  Ledger.symbol d = Some symbol ->
  Ledger.position_side d = Some position_side ->
  exists db',
    Database.add_user_trade now d db = (db', Blocked)
    /\ Database.lock db' = true
    /\ Database.audit_log db' = Database.audit_log db
    /\ (forall now' d', Database.add_user_trade now' d' db' = (db', Blocked))
    /\ (forall now' d', Trades.add_master_trade now' d' db' = (db', Blocked))
    /\ (forall k u, Database.update_master_trade k u db' = (db', Blocked))
    /\ (forall a e t, Database.add_audit_log a e t db' = (db', Blocked))
    /\ Database.get_master_open_trades db' = (db', Blocked)
    /\ (forall a, Trades.get_user_open_trades a db' = (db', Blocked))
    /\ (forall a n, Trades.get_user_trade_history a n db' = (db', Blocked))
    /\ (forall a, Database.get_user_statistics a db' = (db', Blocked)).
Proof.
  intros free Ht Hs Hp.
  eexists. split.
  - unfold Database.add_user_trade, Database.with_lock at 1.
    rewrite free, Ht, Hs, Hp.
    unfold Database.insert_trade, Ledger.insert. cbn -[Ledger.next_id].
    reflexivity.
  - cbn [Database.lock Database.audit_log Database.set_lock].
    repeat split.
Qed.

Lemma add_user_trade_blocks_the_handler_witness :
  exists db',
    Database.add_user_trade 0%Z Scenario.copy_of_7 Cases.no_trades
    = (db', Blocked)
    /\ List.length (Ledger.rows (Database.trades db')) = 1%nat
    /\ Database.get_user_statistics Scenario.F1 db' = (db', Blocked).
Proof.
  destruct (add_user_trade_blocks_the_handler
              0%Z Scenario.copy_of_7 Scenario.F1 "BTCUSDT" "LONG"
              Cases.no_trades eq_refl eq_refl eq_refl eq_refl)
    as (db' & E & H).
  exists db'. split; [exact E|]. split.
  - injection E as <-. reflexivity.
  - apply H.
Defined.

(** X19.  What [get_user_open_trades] and [get_user_trade_history]
    return: with the lock free both return and change nothing; a row is
    among the open trades exactly when it is a row of the user with
    status OPEN, and in the history without limit exactly when it is a
    row of the user with a status other than OPEN; so no row is in both,
    and a row whose status is NULL is in neither. *)
Theorem open_trades_and_history
        (telegram_id : Z) (db : Database.state) :
  Database.lock db = false ->
  exists open_trades history,
    Trades.get_user_open_trades telegram_id db = (db, Returned open_trades)
    /\ Trades.get_user_trade_history telegram_id (-1) db
       = (db, Returned history)
    /\ (forall r,
           In r open_trades <->
           In r (Ledger.rows (Database.trades db))
           /\ Ledger.telegram_id (Ledger.cols r) = Some telegram_id
           /\ Ledger.status (Ledger.cols r) = Some "OPEN")
    /\ (forall r,
           In r history <->
           In r (Ledger.rows (Database.trades db))
           /\ Ledger.telegram_id (Ledger.cols r) = Some telegram_id
           /\ exists st, Ledger.status (Ledger.cols r) = Some st
                         /\ st <> "OPEN")
    /\ (forall r, In r open_trades -> ~ In r history)
    /\ (forall r, Ledger.status (Ledger.cols r) = None ->
                  ~ In r open_trades /\ ~ In r history).
Proof.
  intro free.
  eexists _, _.
  split; [apply get_user_open_trades_effect; exact free|].
  split; [apply get_user_trade_history_effect; exact free|].
  assert (Hopen : forall r,
             In r (filter (Trades.open_of telegram_id)
                          (Ledger.rows (Database.trades db))) <->
             In r (Ledger.rows (Database.trades db))
             /\ Ledger.telegram_id (Ledger.cols r) = Some telegram_id
             /\ Ledger.status (Ledger.cols r) = Some "OPEN").
  { intro r. rewrite filter_In.
    unfold Trades.open_of, Database.of_user, Ledger.int_is, Ledger.text_is.
    rewrite andb_true_iff.
    destruct (Ledger.telegram_id (Ledger.cols r)) as [t|],
      (Ledger.status (Ledger.cols r)) as [st|];
      try (split; [intros (_ & A & B) | intros (_ & A & B)]; discriminate).
    rewrite Z.eqb_eq, String.eqb_eq.
    split; intros (I & A & B); (split; [exact I|]); split; congruence. }
  assert (Hpast : forall r,
             In r (Trades.limit_to (-1)
                     (Trades.by_closed_at_desc
                        (filter (Trades.past_of telegram_id)
                                (Ledger.rows (Database.trades db))))) <->
             In r (Ledger.rows (Database.trades db))
             /\ Ledger.telegram_id (Ledger.cols r) = Some telegram_id
             /\ exists st, Ledger.status (Ledger.cols r) = Some st
                           /\ st <> "OPEN").
  { intro r. unfold Trades.limit_to. cbn [Z.ltb Z.compare].
    split.
    - intro Hin.
      apply (Permutation_in _ (by_closed_at_desc_permutation _)) in Hin.
      apply filter_In in Hin. destruct Hin as (I & P). split; [exact I|].
      unfold Trades.past_of, Database.of_user, Ledger.int_is,
        Trades.text_is_not in P.
      apply andb_true_iff in P. destruct P as (A & B).
      destruct (Ledger.telegram_id (Ledger.cols r)) as [t|];
        [|discriminate].
      apply Z.eqb_eq in A. subst t. split; [reflexivity|].
      destruct (Ledger.status (Ledger.cols r)) as [st|]; [|discriminate].
      exists st. split; [reflexivity|].
      apply negb_true_iff in B. apply String.eqb_neq. exact B.
    - intros (I & A & st & B & N).
      apply (Permutation_in _
               (Permutation_sym (by_closed_at_desc_permutation _))).
      apply filter_In. split; [exact I|].
      unfold Trades.past_of, Database.of_user, Ledger.int_is,
        Trades.text_is_not.
      rewrite A, B, Z.eqb_refl. cbn [andb].
      apply negb_true_iff. apply String.eqb_neq. exact N. }
  split; [exact Hopen|]. split; [exact Hpast|]. split.
  - intros r Ho Hh. apply Hopen in Ho. apply Hpast in Hh.
    destruct Ho as (_ & _ & O). destruct Hh as (_ & _ & st & E & N).
    congruence.
  - intros r Hnull. split; intro H.
    + apply Hopen in H. destruct H as (_ & _ & O). congruence.
    + apply Hpast in H. destruct H as (_ & _ & st & E & _). congruence.
Qed.

Lemma open_trades_and_history_witness :
  exists open_trades history,
    Trades.get_user_open_trades Scenario.F1 Cases.past_trades
    = (Cases.past_trades, Returned open_trades)
    /\ Trades.get_user_trade_history Scenario.F1 (-1) Cases.past_trades
       = (Cases.past_trades, Returned history)
    /\ map Ledger.id open_trades = [4%Z]
    /\ map Ledger.id history = [3%Z; 1%Z; 2%Z]
    /\ forall r, In r open_trades -> ~ In r history.
Proof.
  destruct (open_trades_and_history Scenario.F1 Cases.past_trades eq_refl)
    as (open_trades & history & Eo & Eh & _ & _ & Hdisjoint & _).
  exists open_trades, history.
  split; [exact Eo|]. split; [exact Eh|].
  split; [injection Eo as <-; reflexivity|].
  split; [injection Eh as <-; reflexivity | exact Hdisjoint].
Defined.

(** X20.  The history comes newest first and is cut at the limit: what
    [get_user_trade_history] returns is the beginning of a list that
    holds the user's rows with a status other than OPEN, each as often as
    the table has it, in which no row comes after a row that was closed
    earlier or was never given a closing time; with a limit that is not
    negative it has [limit] rows, or all of them when there are fewer. *)
Theorem history_is_newest_first
        (telegram_id limit : Z) (db : Database.state) :
  Database.lock db = false ->
  exists history older,
    Trades.get_user_trade_history telegram_id limit db
    = (db, Returned history)
    /\ Permutation (history ++ older)
                   (filter (Trades.past_of telegram_id)
                           (Ledger.rows (Database.trades db)))
    /\ StronglySorted (fun a b => Trades.closed_later b a = false)
                      (history ++ older)
    /\ ((0 <= limit)%Z ->
        Database.count history
        = Z.min limit
                (Database.count
                   (filter (Trades.past_of telegram_id)
                           (Ledger.rows (Database.trades db))))).
Proof.
  intro free.
  set (past := filter (Trades.past_of telegram_id)
                      (Ledger.rows (Database.trades db))).
  set (sorted := Trades.by_closed_at_desc past).
  exists (Trades.limit_to limit sorted).
  exists (if (limit <? 0)%Z then [] else skipn (Z.to_nat limit) sorted).
  split; [apply get_user_trade_history_effect; exact free|].
  assert (E : Trades.limit_to limit sorted
              ++ (if (limit <? 0)%Z then []
                  else skipn (Z.to_nat limit) sorted) = sorted).
  { unfold Trades.limit_to.
    destruct (limit <? 0)%Z; [apply app_nil_r | apply firstn_skipn]. }
  rewrite E.
  split; [apply by_closed_at_desc_permutation|].
  split; [apply by_closed_at_desc_sorted|].
  intro Hlimit. unfold Trades.limit_to.
  destruct (Z.ltb_spec limit 0) as [L | _]; [lia|].
  unfold Database.count. rewrite length_firstn.
  subst sorted.
  rewrite (Permutation_length (by_closed_at_desc_permutation past)).
  lia.
Qed.

Lemma history_is_newest_first_witness :
  exists history older,
    Trades.get_user_trade_history Scenario.F1 2 Cases.past_trades
    = (Cases.past_trades, Returned history)
    /\ map Ledger.id history = [3%Z; 1%Z]
    /\ StronglySorted (fun a b => Trades.closed_later b a = false)
                      (history ++ older)
    /\ Database.count history = 2%Z.
Proof.
  destruct (history_is_newest_first Scenario.F1 2 Cases.past_trades eq_refl)
    as (history & older & E & _ & Hsorted & Hcount).
  exists history, older.
  split; [exact E|].
  split; [injection E as <-; reflexivity|].
  split; [exact Hsorted|].
  rewrite Hcount by discriminate. reflexivity.
Defined.

(** * Further properties of the statistics *)

Section Extremes.

Import Database.

Variable precedes : option Q -> option Q -> bool.

Hypothesis asym : forall a b, precedes a b = true -> precedes b a = false.
Hypothesis neg_trans :
  forall a b c, precedes a b = false -> precedes b c = false ->
                precedes a c = false.

(** [ORDER BY ... LIMIT 1] gives a row that no row precedes. *)
Lemma first_by_least (rs : list Ledger.trade_row) :
  rs <> [] ->
  exists b,
    first_by precedes rs = Some b
    /\ In b rs
    /\ forall r, In r rs ->
                 precedes (Ledger.pnl (Ledger.cols r))
                          (Ledger.pnl (Ledger.cols b)) = false.
Proof.
  induction rs as [|x rs IH]; [congruence|]. intros _.
  cbn [first_by].
  assert (irrefl : forall a, precedes a a = false).
  { intro a. destruct (precedes a a) eqn:E; [|reflexivity].
    rewrite (asym _ _ E) in E. discriminate. }
  destruct rs as [|y rs'].
  - cbn [first_by]. exists x. split; [reflexivity|].
    split; [left; reflexivity|].
    intros r [<- | []]. apply irrefl.
  - destruct IH as (b & -> & Hb & Hleast); [discriminate|].
    destruct (precedes (Ledger.pnl (Ledger.cols b))
                       (Ledger.pnl (Ledger.cols x))) eqn:E.
    + exists b. split; [reflexivity|]. split; [right; exact Hb|].
      intros r [<- | Hr]; [apply asym; exact E | apply Hleast; exact Hr].
    + exists x. split; [reflexivity|]. split; [left; reflexivity|].
      intros r [<- | Hr]; [apply irrefl|].
      apply neg_trans with (Ledger.pnl (Ledger.cols b));
        [apply Hleast; exact Hr | exact E].
Qed.

End Extremes.

Section Order.

Import Database.

Lemma sorts_before_asym (a b : option Q) :
  sorts_before a b = true -> sorts_before b a = false.
Proof.
  destruct a as [x|], b as [y|]; cbn [sorts_before];
    try reflexivity; try discriminate.
  intro H. apply gt_true in H. apply gt_false. lra.
Qed.

Lemma sorts_before_neg_trans (a b c : option Q) :
  sorts_before a b = false -> sorts_before b c = false ->
  sorts_before a c = false.
Proof.
  destruct a as [x|], b as [y|], c as [z|]; cbn [sorts_before];
    try reflexivity; try discriminate.
  intros H1 H2. apply gt_false in H1, H2. apply gt_false. lra.
Qed.

Lemma get_user_statistics_extremes (telegram_id : Z) (db : state) :
  lock db = false ->
  exists st,
    get_user_statistics telegram_id db = (db, Returned st)
    /\ best_trade st
       = option_map summary
           (first_by (fun a b => sorts_before b a)
                     (filter (of_user telegram_id)
                             (Ledger.rows (trades db))))
    /\ worst_trade st
       = option_map summary
           (first_by sorts_before
                     (filter (of_user telegram_id)
                             (Ledger.rows (trades db)))).
Proof.
  destruct db as [t m a l]. cbn [lock]. intros ->.
  unfold get_user_statistics, with_lock.
  cbn [lock set_lock trades master_trades audit_log].
  destruct (0 <? count (filter (of_user telegram_id) (Ledger.rows t)))%Z
    eqn:P.
  - apply Z.ltb_lt in P.
    assert (N : ~ inject_Z (count (filter (of_user telegram_id)
                                          (Ledger.rows t))) == 0).
    { intro E. unfold Qeq in E. cbn in E. lia. }
    rewrite !(truediv_returns _ _ N). cbn [bind].
    eexists. split; [reflexivity|]. split; reflexivity.
  - cbn [bind]. eexists. split; [reflexivity|]. split; reflexivity.
Qed.

End Order.

(** X21.  The figures of [get_user_statistics] agree with each other,
    whatever the table holds: the winning trades are between none and
    all of the trades, the win rate is between 0 and 100, and the
    average profit times the number of trades is the total profit. *)
Theorem statistics_are_consistent (telegram_id : Z) (db : Database.state) :
  Database.lock db = false ->
  exists st,
    Database.get_user_statistics telegram_id db = (db, Returned st)
    /\ (0 <= Database.winning_trades st <= Database.total_trades st)%Z
    /\ 0 <= Database.win_rate st <= 100
    /\ Database.avg_profit st * inject_Z (Database.total_trades st)
       == Database.total_profit st.
Proof.
  intro free.
  destruct db as [trades master_trades audit_log lock].
  cbn in free. subst lock.
  unfold Database.get_user_statistics, Database.with_lock.
  cbn [Database.lock Database.set_lock Database.trades
       Database.master_trades Database.audit_log].
  set (mine := filter (Database.of_user telegram_id) (Ledger.rows trades)).
  set (wins := filter (fun r => Ledger.real_positive
                                  (Ledger.pnl (Ledger.cols r))) mine).
  assert (W : (0 <= Database.count wins <= Database.count mine)%Z).
  { unfold Database.count. subst wins.
    pose proof (filter_length_le
                  (fun r => Ledger.real_positive (Ledger.pnl (Ledger.cols r)))
                  mine).
    lia. }
  destruct (0 <? Database.count mine)%Z eqn:P.
  - apply Z.ltb_lt in P.
    assert (N : ~ inject_Z (Database.count mine) == 0).
    { intro E. unfold Qeq in E. cbn in E. lia. }
    rewrite !(truediv_returns _ _ N). cbn [bind].
    eexists. split; [reflexivity|].
    cbn [Database.total_trades Database.winning_trades Database.win_rate
         Database.total_profit Database.avg_profit].
    split; [exact W|].
    assert (T : 0 < inject_Z (Database.count mine)).
    { change 0 with (inject_Z 0). rewrite <- Zlt_Qlt. exact P. }
    assert (W0 : 0 <= inject_Z (Database.count wins)).
    { change 0 with (inject_Z 0). rewrite <- Zle_Qle. lia. }
    assert (W1 : inject_Z (Database.count wins)
                 <= inject_Z (Database.count mine)).
    { rewrite <- Zle_Qle. lia. }
    split; [|field; exact N].
    generalize dependent (inject_Z (Database.count wins)).
    generalize dependent (inject_Z (Database.count mine)).
    intros t _ T w W0 W1.
    assert (0 <= w / t) as L.
    { apply Qle_shift_div_l; [exact T|]. lra. }
    assert (w / t <= 1) as U.
    { apply Qle_shift_div_r; [exact T|]. lra. }
    split; lra.
  - cbn [bind].
    eexists. split; [reflexivity|].
    cbn [Database.total_trades Database.winning_trades Database.win_rate
         Database.total_profit Database.avg_profit].
    split; [exact W|]. split; [split; lra|].
    apply Z.ltb_ge in P.
    assert (mine = []) as ->.
    { destruct mine; [reflexivity|].
      unfold Database.count in P. cbn [List.length] in P. lia. }
    reflexivity.
Qed.

Lemma statistics_are_consistent_witness :
  exists st,
    Database.get_user_statistics Scenario.F1 Scenario.four_trades
    = (Scenario.four_trades, Returned st)
    /\ Database.total_trades st = 3%Z
    /\ 0 <= Database.win_rate st <= 100
    /\ Database.avg_profit st * inject_Z (Database.total_trades st)
       == Database.total_profit st.
Proof.
  destruct (statistics_are_consistent Scenario.F1 Scenario.four_trades
                                      eq_refl)
    as (st & E & _ & Hrate & Havg).
  exists st. split; [exact E|].
  split; [injection E as <-; reflexivity|].
  split; [exact Hrate | exact Havg].
Defined.

(** X22.  The best trade of [get_user_statistics] has the largest PnL
    among the user's rows, and the worst trade is a row without PnL as
    long as the user has one, such as a trade that is still open: for a
    user with rows both are given; no row of the user has a PnL above
    that of the best trade; when a row of the user has no PnL the worst
    trade has none, and otherwise no row has a PnL below that of the
    worst trade. *)
Theorem best_and_worst_trade (telegram_id : Z) (db : Database.state) :
  Database.lock db = false ->
  let mine := filter (Database.of_user telegram_id)
                     (Ledger.rows (Database.trades db)) in
  mine <> [] ->
  exists st best worst,
    Database.get_user_statistics telegram_id db = (db, Returned st)
    /\ In best mine /\ In worst mine
    /\ Database.best_trade st = Some (Database.summary best)
    /\ Database.worst_trade st = Some (Database.summary worst)
    /\ (forall r x, In r mine -> Ledger.pnl (Ledger.cols r) = Some x ->
                    exists y, Ledger.pnl (Ledger.cols best) = Some y
                              /\ x <= y)
    /\ ((exists r, In r mine /\ Ledger.pnl (Ledger.cols r) = None) ->
        Ledger.pnl (Ledger.cols worst) = None)
    /\ (forall r y, In r mine -> Ledger.pnl (Ledger.cols worst) = Some y ->
                    exists x, Ledger.pnl (Ledger.cols r) = Some x /\ y <= x).
Proof.
  intros free mine Hrows.
  destruct (get_user_statistics_extremes telegram_id db free)
    as (st & Hst & Hbest & Hworst).
  fold mine in Hbest, Hworst.
  destruct (first_by_least (fun a b => Database.sorts_before b a)
              (fun a b H => sorts_before_asym b a H)
              (fun a b c H1 H2 => sorts_before_neg_trans c b a H2 H1)
              mine Hrows) as (best & Eb & Ib & Lb).
  destruct (first_by_least Database.sorts_before
              sorts_before_asym sorts_before_neg_trans
              mine Hrows) as (worst & Ew & Iw & Lw).
  rewrite Eb in Hbest. rewrite Ew in Hworst. cbn [option_map] in *.
  exists st, best, worst.
  split; [exact Hst|]. split; [exact Ib|]. split; [exact Iw|].
  split; [exact Hbest|]. split; [exact Hworst|].
  split; [|split].
  - intros r x Hr Hx. specialize (Lb r Hr). rewrite Hx in Lb.
    destruct (Ledger.pnl (Ledger.cols best)) as [y|]; [|discriminate].
    exists y. split; [reflexivity|].
    cbn [Database.sorts_before] in Lb. apply gt_false in Lb. exact Lb.
  - intros (r & Hr & Hx). specialize (Lw r Hr). rewrite Hx in Lw.
    destruct (Ledger.pnl (Ledger.cols worst)); [discriminate|reflexivity].
  - intros r y Hr Hy. specialize (Lw r Hr). rewrite Hy in Lw.
    destruct (Ledger.pnl (Ledger.cols r)) as [x|]; [|discriminate].
    exists x. split; [reflexivity|].
    cbn [Database.sorts_before] in Lw. apply gt_false in Lw. exact Lw.
Qed.

Lemma best_and_worst_trade_witness :
  exists st,
    Database.get_user_statistics Scenario.F1 Cases.past_trades
    = (Cases.past_trades, Returned st)
    /\ exists worst,
        Database.worst_trade st = Some (Database.summary worst)
        /\ Ledger.pnl (Ledger.cols worst) = None.
Proof.
  destruct (best_and_worst_trade Scenario.F1 Cases.past_trades eq_refl)
    as (st & best & worst & E & _ & _ & _ & Hworst & _ & Hnull & _);
    [discriminate|].
  exists st. split; [exact E|].
  exists worst. split; [exact Hworst|].
  apply Hnull. eexists. split; [left; reflexivity | reflexivity].
Defined.

(** * Notifications *)

Section Pending.

Import Notifications.

Lemma pending_after_mark (now : Ledger.timestamp) (k : Z)
      (rs : list notification) :
  map (fun n => {| p_id := n_id n; p_telegram_id := n_telegram_id n;
                   p_message := n_message n;
                   p_created_at := n_created_at n |})
      (filter is_pending
              (map (fun n => if Z.eqb (n_id n) k
                             then {| n_id := n_id n;
                                     n_telegram_id := n_telegram_id n;
                                     n_message := n_message n;
                                     n_created_at := n_created_at n;
                                     sent_at := Some now |}
                             else n) rs))
  = filter (fun p => negb (Z.eqb (p_id p) k))
           (map (fun n => {| p_id := n_id n;
                             p_telegram_id := n_telegram_id n;
                             p_message := n_message n;
                             p_created_at := n_created_at n |})
                (filter is_pending rs)).
Proof.
  induction rs as [|n rs IH]; [reflexivity|].
  cbn [map filter].
  destruct (Z.eqb (n_id n) k) eqn:E.
  - cbn [is_pending sent_at]. rewrite IH.
    destruct (is_pending n); [|reflexivity].
    cbn [map filter p_id]. rewrite E. reflexivity.
  - destruct (is_pending n); [|exact IH].
    cbn [map filter p_id]. rewrite E. cbn [negb]. rewrite IH. reflexivity.
Qed.

End Pending.

(** X23.  [mark_notification_sent] takes the notification with the key
    given, and no other, off the list of [get_pending_notifications]:
    the notifications pending afterwards are those pending before under
    another key, in the same order; so marking a key that is not pending
    changes nothing of the list, and marking twice is marking once. *)
Theorem mark_removes_one_notification
        (now : Ledger.timestamp) (notification_id : Z)
        (t : Ledger.table Notifications.notification) :
  Notifications.get_pending_notifications
    (Notifications.mark_notification_sent now notification_id t)
  = filter (fun p => negb (Z.eqb (Notifications.p_id p) notification_id))
           (Notifications.get_pending_notifications t).
Proof.
  unfold Notifications.get_pending_notifications,
    Notifications.mark_notification_sent, Ledger.update.
  cbn [Ledger.rows].
  apply pending_after_mark.
Qed.

(** X24.  A notification is pending from [add_notification] until it is
    marked as sent: [add_notification] returns a key that no
    notification has, the notifications pending are then those pending
    before followed by the new one, with the user and the message given,
    and once [mark_notification_sent] is called with that key the list
    is again what it was before. *)
Theorem notification_round_trip
        (now later : Ledger.timestamp) (telegram_id : Z) (message : string)
        (t : Ledger.table Notifications.notification) :
  exists t1 k,
    Notifications.add_notification now telegram_id message t = (t1, Some k)
    /\ ~ In k (map Notifications.n_id (Ledger.rows t))
    /\ Notifications.get_pending_notifications t1
       = Notifications.get_pending_notifications t
         ++ [{| Notifications.p_id := k;
                Notifications.p_telegram_id := telegram_id;
                Notifications.p_message := message;
                Notifications.p_created_at := now |}]
    /\ Notifications.get_pending_notifications
         (Notifications.mark_notification_sent later k t1)
       = Notifications.get_pending_notifications t.
Proof.
  eexists _, _.
  split; [reflexivity|].
  pose proof (next_id_fresh Notifications.n_id t) as Hfresh.
  split; [exact Hfresh|].
  split.
  - unfold Notifications.get_pending_notifications.
    cbn [Ledger.rows]. rewrite filter_app, map_app. reflexivity.
  - unfold Notifications.get_pending_notifications,
      Notifications.mark_notification_sent, Ledger.update.
    cbn [Ledger.rows].
    rewrite map_app.
    rewrite (update_other_keys Notifications.n_id _ _ _ Hfresh).
    cbn [map Notifications.n_id]. rewrite Z.eqb_refl.
    rewrite filter_app.
    cbn [filter Notifications.is_pending Notifications.sent_at].
    rewrite app_nil_r. reflexivity.
Qed.

(** * The order quantity of the REST client *)

Lemma pow10_positive (ndigits : nat) : 0 < pow10 ndigits.
Proof.
  unfold pow10. change 0 with (inject_Z 0). rewrite <- Zlt_Qlt.
  apply Z.pow_pos_nonneg; lia.
Qed.

Lemma round_near (x : Q) (ndigits : nat) :
  Qabs (round x ndigits - x) <= (1 # 2) / pow10 ndigits.
Proof.
  unfold round.
  pose proof (round_half_even_near (x * pow10 ndigits)) as H.
  pose proof (pow10_positive ndigits) as P.
  set (p := pow10 ndigits) in *.
  set (k := inject_Z (round_half_even (x * p))) in *.
  assert (I : 0 < / p) by (apply Qinv_lt_0_compat; exact P).
  assert (E : k / p - x == (k - x * p) * / p) by (field; lra).
  rewrite E. unfold Qdiv.
  rewrite Qabs_Qmult, (Qabs_pos (/ p)) by lra.
  apply Qmult_le_compat_r; [exact H | lra].
Qed.

(** X25.  [calculate_order_quantity] returns the quantity nearest to
    [usdt_amount / price] at the precision of the symbol, or at 8
    decimals for a symbol without precision or not listed: with a
    positive price and an answer to the exchange information request it
    returns, the quantity is within half a unit of the last decimal of
    the exact quotient, and what the quantity costs at that price is
    within half a unit times the price of the amount asked for; it may
    be above it. *)
Theorem order_quantity_is_nearest
        (price usdt_amount : Q) (symbols : list (string * option nat))
        (symbol : string) :
  0 < price ->
  exists quantity precision,
    BinanceClient.calculate_order_quantity
      (Some price) (Some symbols) symbol usdt_amount
    = Returned quantity
    /\ precision
       = match find (fun i => String.eqb (fst i) symbol) symbols with
         | Some (_, Some quantity_precision) => quantity_precision
         | _ => 8%nat
         end
    /\ Qabs (quantity - usdt_amount / price) <= (1 # 2) / pow10 precision
    /\ Qabs (quantity * price - usdt_amount)
       <= (1 # 2) / pow10 precision * price.
Proof.
  intro Hprice.
  unfold BinanceClient.calculate_order_quantity.
  rewrite truediv_returns by lra. cbn [bind].
  assert (forall p,
             Qabs (round (usdt_amount / price) p * price - usdt_amount)
             <= (1 # 2) / pow10 p * price) as Hcost.
  { intro p.
    assert (E : round (usdt_amount / price) p * price - usdt_amount
                == (round (usdt_amount / price) p - usdt_amount / price)
                   * price) by (field; lra).
    rewrite E, Qabs_Qmult, (Qabs_pos price) by lra.
    apply Qmult_le_compat_r; [apply round_near | lra]. }
  destruct (find (fun i => String.eqb (fst i) symbol) symbols)
    as [[listed [quantity_precision|]]|];
    eexists _, _; (split; [reflexivity|]); (split; [reflexivity|]);
    (split; [apply round_near | apply Hcost]).
Qed.

Lemma order_quantity_is_nearest_witness :
  exists quantity,
    BinanceClient.calculate_order_quantity
      (Some 30000) (Some [("ETHUSDT", Some 2%nat); ("BTCUSDT", Some 3%nat)])
      "BTCUSDT" 100
    = Returned quantity
    /\ Qabs (quantity - 100 / 30000) <= (1 # 2) / pow10 3
    /\ Qabs (quantity * 30000 - 100) <= (1 # 2) / pow10 3 * 30000.
Proof.
  destruct (order_quantity_is_nearest
              30000 100 [("ETHUSDT", Some 2%nat); ("BTCUSDT", Some 3%nat)]
              "BTCUSDT" eq_refl)
    as (quantity & precision & E & -> & Hnear & Hcost).
  exists quantity. split; [exact E|]. split; [exact Hnear | exact Hcost].
Defined.
